(** * aphytcomm: EtherNet/IP encapsulation and Omron N-series variable access

    A shallow embedding of [eip/eip.py] and [eip/n_series.py], and the
    properties of the protocol stack that were checked against it.

    Conventions of the embedding:
    - a Python [bytes] value is a [list byte];
    - a Python [int] is a [Z]; [len] is [len];
    - a Python [str] is the list of its code points;
    - a call that can raise returns a [res]: [Ok v] or [Raise e];
    - a [while] loop is run with a bound on the number of iterations it may
      perform; [None] means that the bound was reached with the loop
      condition still true. *)

From stdpp Require Import base option list gmap.
From Stdlib Require Import ZArith Lia.
From Stdlib Require Import Init.Byte.

Local Open Scope Z_scope.

(** ** Python values *)

Abbreviation pybytes := (list byte).

(** A [str] is the sequence of its Unicode code points. *)
Abbreviation str := (list Z).

Definition len {A : Type} (l : list A) : Z := Z.of_nat (length l).

(** The exceptions that the modelled code can raise. *)
Inductive exn : Type :=
  | OverflowError
  | IndexError
  | AttributeError
  | StructError
  | UnboundLocalError
  | UnicodeEncodeError.

Inductive res (A : Type) : Type :=
  | Ok (a : A)
  | Raise (e : exn).
Arguments Ok {A} a.
Arguments Raise {A} e.

Definition res_bind {A B : Type} (m : res A) (k : A -> res B) : res B :=
  match m with
  | Ok a => k a
  | Raise e => Raise e
  end.

Declare Scope res_scope.
Delimit Scope res_scope with res.
Notation "'try' x <- m 'in' k" := (res_bind m (fun x => k))
  (at level 10, x name, m at level 100, k at level 200,
   format "'[v' 'try'  x  <-  m  'in' '/' k ']'") : res_scope.
Local Open Scope res_scope.

Definition is_Ok {A : Type} (r : res A) : bool :=
  match r with Ok _ => true | Raise _ => false end.

(** [b[i:j]] with the clamping of out-of-range and negative indices that
    Python applies to a slice. *)
Definition norm_index (n i : Z) : Z :=
  if i <? 0 then Z.max 0 (i + n) else Z.min i n.

Definition slice {A : Type} (b : list A) (i j : Z) : list A :=
  let lo := norm_index (len b) i in
  let hi := norm_index (len b) j in
  take (Z.to_nat (hi - lo)) (drop (Z.to_nat lo) b).

(** [b[i:]] *)
Definition slice_from {A : Type} (b : list A) (i : Z) : list A :=
  drop (Z.to_nat (norm_index (len b) i)) b.

Definition byte_to_Z (b : byte) : Z := Z.of_N (Byte.to_N b).

Definition byte_of_Z (z : Z) : byte :=
  match Byte.of_N (Z.to_N z) with
  | Some b => b
  | None => x00
  end.

(** [int.from_bytes(b, 'little')] *)
Fixpoint int_from_bytes (b : pybytes) : Z :=
  match b with
  | [] => 0
  | x :: r => byte_to_Z x + 256 * int_from_bytes r
  end.

Fixpoint le_bytes (n : nat) (v : Z) : pybytes :=
  match n with
  | O => []
  | S k => byte_of_Z (v mod 256) :: le_bytes k (v / 256)
  end.

(** [v.to_bytes(n, 'little')]: [OverflowError] when [v] is negative or does
    not fit in [n] bytes. *)
Definition to_bytes (v : Z) (n : nat) : res pybytes :=
  if (0 <=? v) && (v <? 256 ^ Z.of_nat n)
  then Ok (le_bytes n v)
  else Raise OverflowError.

(** [struct.pack] for the unsigned little-endian formats ["<B"], ["<H"] and
    ["<L"] (1, 2 and 4 bytes): [struct.error] when out of range. *)
Definition struct_pack (n : nat) (v : Z) : res pybytes :=
  if (0 <=? v) && (v <? 256 ^ Z.of_nat n)
  then Ok (le_bytes n v)
  else Raise StructError.

(** [struct.unpack(fmt, b)[0]] for the same formats: [struct.error] unless
    the buffer has exactly the size of the format. *)
Definition struct_unpack (n : nat) (b : pybytes) : res Z :=
  if Nat.eqb (length b) n then Ok (int_from_bytes b) else Raise StructError.

(** [s.encode('utf-8')] *)
Definition utf8_char (c : Z) : res pybytes :=
  if (c <? 0) || (0x10FFFF <? c) then Raise UnicodeEncodeError
  else if c <? 0x80 then Ok [byte_of_Z c]
  else if c <? 0x800 then
    Ok [byte_of_Z (Z.lor 0xC0 (Z.shiftr c 6));
        byte_of_Z (Z.lor 0x80 (Z.land c 0x3F))]
  else if (0xD800 <=? c) && (c <=? 0xDFFF) then Raise UnicodeEncodeError
  else if c <? 0x10000 then
    Ok [byte_of_Z (Z.lor 0xE0 (Z.shiftr c 12));
        byte_of_Z (Z.lor 0x80 (Z.land (Z.shiftr c 6) 0x3F));
        byte_of_Z (Z.lor 0x80 (Z.land c 0x3F))]
  else
    Ok [byte_of_Z (Z.lor 0xF0 (Z.shiftr c 18));
        byte_of_Z (Z.lor 0x80 (Z.land (Z.shiftr c 12) 0x3F));
        byte_of_Z (Z.lor 0x80 (Z.land (Z.shiftr c 6) 0x3F));
        byte_of_Z (Z.lor 0x80 (Z.land c 0x3F))].

Fixpoint encode_utf8 (s : str) : res pybytes :=
  match s with
  | [] => Ok []
  | c :: r =>
      try bc <- utf8_char c in
      try br <- encode_utf8 r in
      Ok (bc ++ br)
  end.

(** [[f(i) for i in l]], built in order: the first exception ends it. *)
Fixpoint res_map {A B : Type} (f : A -> res B) (l : list A) : res (list B) :=
  match l with
  | [] => Ok []
  | x :: r =>
      try y <- f x in
      try ys <- res_map f r in
      Ok (y :: ys)
  end.

(** [range(n)] *)
Definition range (n : Z) : list Z := map Z.of_nat (seq 0 (Z.to_nat n)).

(** ** Loops

    [while fuel cond body s] runs [while cond(s): s = body(s)] for at most
    [fuel] iterations.  An exception raised by the body ends the loop. *)
Fixpoint while {S : Type} (fuel : nat) (cond : S -> bool)
    (body : S -> res S) (s : S) : option (res S) :=
  if cond s then
    match fuel with
    | O => None
    | Datatypes.S f =>
        match body s with
        | Ok s' => while f cond body s'
        | Raise e => Some (Raise e)
        end
    end
  else Some (Ok s).

(** ** eip.py *)

Module CIPDataTypes.
Definition CIP_STRING : pybytes := [xd0].
Definition CIP_ABBREVIATED_STRUCT : pybytes := [xa0].
Definition CIP_STRUCT : pybytes := [xa2].
Definition CIP_ARRAY : pybytes := [xa3].
End CIPDataTypes.

Module CIPRequest.
Definition READ_TAG_SERVICE : pybytes := [x4c].
Definition WRITE_TAG_SERVICE : pybytes := [x4d].

Record t : Type := {
  request_service : pybytes;
  request_data : pybytes;
  request_path_size : Z;
  request_path : pybytes
}.

Definition __init__ (request_service request_path request_data : pybytes) : t :=
  {| request_service := request_service;
     request_data := request_data;
     request_path_size := len request_path / 2;
     request_path := request_path |}.

Definition tag_request_path (tag_name : str) : res pybytes :=
  try n <- to_bytes (len tag_name) 1 in
  try name <- encode_utf8 tag_name in
  let request_path_bytes := [x91] ++ n ++ name in
  if negb (len request_path_bytes mod 2 =? 0)
  then Ok (request_path_bytes ++ [x00])
  else Ok request_path_bytes.

Definition bytes (self : t) : res pybytes :=
  try n <- to_bytes (request_path_size self) 1 in
  Ok (request_service self ++ n ++ request_path self ++ request_data self).
End CIPRequest.

Module CIPReply.
Record t : Type := {
  reply_service : pybytes;
  reserved : pybytes;
  general_status : pybytes;
  extended_status_size : pybytes;
  extended_status : pybytes;
  reply_data : pybytes
}.

Definition __init__ (reply_bytes : pybytes) : t :=
  let extended_status_size := slice reply_bytes 3 4 in
  let extended_status_byte_offset := int_from_bytes extended_status_size * 2 in
  {| reply_service := slice reply_bytes 0 1;
     reserved := slice reply_bytes 1 2;
     general_status := slice reply_bytes 2 3;
     extended_status_size := extended_status_size;
     extended_status := slice reply_bytes 4 extended_status_byte_offset;
     reply_data := slice_from reply_bytes (4 + extended_status_byte_offset) |}.

Definition bytes (self : t) : pybytes :=
  reply_service self ++ reserved self ++ general_status self ++
  extended_status_size self ++ extended_status self ++ reply_data self.
End CIPReply.

Module DataAndAddressItem.
Definition NULL_ADDRESS_ITEM : pybytes := [x00; x00].
Definition UNCONNECTED_MESSAGE : pybytes := [xb2; x00].

Record t : Type := {
  type_id : pybytes;
  length : pybytes;
  data : pybytes
}.

Definition __init__ (type_id data : pybytes) : res t :=
  try l <- to_bytes (len data) 2 in
  Ok {| type_id := type_id; length := l; data := data |}.

Definition from_bytes (self : t) (bytes_data_address_item : pybytes) : t :=
  {| type_id := slice bytes_data_address_item 0 2;
     length := slice bytes_data_address_item 2 4;
     data := slice_from bytes_data_address_item 4 |}.

Definition bytes (self : t) : pybytes :=
  type_id self ++ length self ++ data self.
End DataAndAddressItem.

(** [l[i] = x] on a Python list: [IndexError] out of range. *)
Definition list_assign {A : Type} (l : list A) (i : Z) (x : A) : res (list A) :=
  let k := if i <? 0 then i + len l else i in
  if (0 <=? k) && (k <? len l)
  then Ok (<[Z.to_nat k := x]> l)
  else Raise IndexError.

Module CommonPacketFormat.
Record t : Type := {
  packets : list DataAndAddressItem.t;
  item_count : Z;
  packet_bytes : pybytes
}.

Definition __init__ (packets : list DataAndAddressItem.t) : res t :=
  try null0 <- DataAndAddressItem.__init__ DataAndAddressItem.NULL_ADDRESS_ITEM [] in
  try null1 <- DataAndAddressItem.__init__ DataAndAddressItem.NULL_ADDRESS_ITEM [] in
  let self_packets :=
    match packets with
    | [] => [null0; null1]
    | [p] => [null0; p]
    | _ => packets
    end in
  Ok {| packets := self_packets;
        item_count := len self_packets;
        packet_bytes := concat (map DataAndAddressItem.bytes self_packets) |}.

(** The variables of the loop of [from_bytes]. *)
Record cursor : Type := {
  packet_offset : Z;
  packet_index : Z;
  slots : list DataAndAddressItem.t
}.

Definition more (packet_bytes : pybytes) (c : cursor) : bool :=
  packet_offset c <? len packet_bytes.

Definition next_item (packet_bytes : pybytes) (c : cursor) : res cursor :=
  let packet_offset := packet_offset c in
  let data_address_item_id := slice packet_bytes packet_offset (packet_offset + 2) in
  let data_address_item_length :=
    int_from_bytes (slice packet_bytes (packet_offset + 2) (packet_offset + 4)) in
  let data_address_item_data :=
    slice packet_bytes (packet_offset + 4)
          (packet_offset + data_address_item_length + 4) in
  try item <- DataAndAddressItem.__init__ data_address_item_id data_address_item_data in
  try slots' <- list_assign (slots c) (packet_index c) item in
  Ok {| packet_offset := packet_offset + data_address_item_length + 4;
        packet_index := packet_index c + 1;
        slots := slots' |}.

Definition from_bytes (fuel : nat) (self : t)
    (bytes_common_packet_format : pybytes) : option (res t) :=
  let item_count := int_from_bytes (slice bytes_common_packet_format 0 2) in
  let packet_bytes := slice_from bytes_common_packet_format 2 in
  match while fuel (more packet_bytes) (next_item packet_bytes)
          {| packet_offset := 0; packet_index := 0; slots := packets self |} with
  | None => None
  | Some (Raise e) => Some (Raise e)
  | Some (Ok c) =>
      Some (Ok {| packets := slots c;
                  item_count := item_count;
                  packet_bytes := packet_bytes |})
  end.

Definition bytes (self : t) : res pybytes :=
  try n <- to_bytes (item_count self) 2 in
  Ok (n ++ packet_bytes self).
End CommonPacketFormat.

Module CommandSpecificData.
Record t : Type := {
  interface_handle : pybytes;
  timeout : pybytes;
  encapsulated_packet : pybytes
}.

Definition __init__ : t :=
  {| interface_handle := [x00; x00; x00; x00];
     timeout := [x08; x00];
     encapsulated_packet := [] |}.

(** [CommandSpecificData(interface_handle, timeout, encapsulated_packet)] *)
Definition make (interface_handle timeout encapsulated_packet : pybytes) : t :=
  {| interface_handle := interface_handle;
     timeout := timeout;
     encapsulated_packet := encapsulated_packet |}.

(** [CommandSpecificData(encapsulated_packet=...)] *)
Definition of_packet (encapsulated_packet : pybytes) : t :=
  make [x00; x00; x00; x00] [x08; x00] encapsulated_packet.

Definition from_bytes (self : t) (bytes_command_specific_data : pybytes) : t :=
  {| interface_handle := slice bytes_command_specific_data 0 4;
     timeout := slice bytes_command_specific_data 4 6;
     encapsulated_packet := slice_from bytes_command_specific_data 6 |}.

Definition bytes (self : t) : pybytes :=
  interface_handle self ++ timeout self ++ encapsulated_packet self.
End CommandSpecificData.

Module EIPMessage.
Record t : Type := {
  command : pybytes;
  length : pybytes;
  session_handle_id : pybytes;
  status : pybytes;
  sender_context_data : pybytes;
  command_options : pybytes;
  command_data : pybytes
}.

(** [EIPMessage(command, command_data, session_handle_id)]; the other
    arguments keep their defaults at every call site. *)
Definition __init__ (command command_data session_handle_id : pybytes) : res t :=
  try l <- to_bytes (len command_data) 2 in
  Ok {| command := command;
        length := l;
        session_handle_id := session_handle_id;
        status := [x00; x00; x00; x00];
        sender_context_data := [x00; x00; x00; x00; x00; x00; x00; x00];
        command_options := [x00; x00; x00; x00];
        command_data := command_data |}.

(** [EIPMessage()] *)
Definition default : res t := __init__ [x00; x00] [] [x00; x00; x00; x00].

Definition bytes (self : t) : pybytes :=
  command self ++ length self ++ session_handle_id self ++ status self ++
  sender_context_data self ++ command_options self ++ command_data self.

Definition from_bytes (self : t) (eip_message_bytes : pybytes) : t :=
  {| command := slice eip_message_bytes 0 2;
     length := slice eip_message_bytes 2 4;
     session_handle_id := slice eip_message_bytes 4 8;
     status := slice eip_message_bytes 8 12;
     sender_context_data := slice eip_message_bytes 12 20;
     command_options := slice eip_message_bytes 20 24;
     command_data := slice_from eip_message_bytes 24 |}.
End EIPMessage.

Module EIP.
Record t : Type := {
  session_handle_id : pybytes;
  is_connected_explicit : bool;
  has_session_handle : bool;
  BUFFER_SIZE : Z
}.

Definition __init__ : t :=
  {| session_handle_id := [x00; x00; x00; x00; x00; x00; x00; x00];
     is_connected_explicit := false;
     has_session_handle := false;
     BUFFER_SIZE := 4096 |}.

Section Socket.
(** The TCP socket is outside the program: [Peer] is the state of the
    other end, [connect] tells whether [socket.connect] succeeds (it
    raises [socket.error] otherwise), and [recv_after] gives the bytes
    that the peer has ready for [socket.recv] after it was sent a frame. *)
Variable Peer : Type.
Variable connect : str -> Peer -> bool * Peer.
Variable recv_after : pybytes -> Peer -> pybytes * Peer.

(** [wire] lists the frames written to the socket, oldest first. *)
Record World : Type := {
  peer : Peer;
  wire : list pybytes
}.

Definition connect_explicit (self : t) (host : str) (w : World) : t * World :=
  let '(ok, p) := connect host (peer w) in
  ({| session_handle_id := session_handle_id self;
      is_connected_explicit := ok;
      has_session_handle := has_session_handle self;
      BUFFER_SIZE := BUFFER_SIZE self |},
   {| peer := p; wire := wire w |}).

Definition close_explicit (self : t) : t :=
  {| session_handle_id := session_handle_id self;
     is_connected_explicit := false;
     has_session_handle := false;
     BUFFER_SIZE := BUFFER_SIZE self |}.

Definition send_command (self : t) (eip_command : EIPMessage.t) (w : World)
    : res EIPMessage.t * World :=
  match EIPMessage.default with
  | Raise e => (Raise e, w)
  | Ok received_eip_message =>
      if is_connected_explicit self then
        let frame := EIPMessage.bytes eip_command in
        let '(ready, p) := recv_after frame (peer w) in
        let received_data := take (Z.to_nat (BUFFER_SIZE self)) ready in
        (Ok (EIPMessage.from_bytes received_eip_message received_data),
         {| peer := p; wire := wire w ++ [frame] |})
      else (Ok received_eip_message, w)
  end.

Definition send_rr_data (fuel : nat) (self : t) (command_specific_data : pybytes)
    (w : World) : option (res CommonPacketFormat.t) * World :=
  match EIPMessage.__init__ [x6f; x00] command_specific_data (session_handle_id self) with
  | Raise e => (Some (Raise e), w)
  | Ok eip_message =>
      match send_command self eip_message w with
      | (Raise e, w') => (Some (Raise e), w')
      | (Ok reply, w') =>
          let reply_command_specific_data :=
            CommandSpecificData.from_bytes CommandSpecificData.__init__
              (EIPMessage.command_data reply) in
          match CommonPacketFormat.__init__ [] with
          | Raise e => (Some (Raise e), w')
          | Ok reply_packet =>
              (CommonPacketFormat.from_bytes fuel reply_packet
                 (CommandSpecificData.encapsulated_packet
                    reply_command_specific_data),
               w')
          end
      end
  end.

(** [list_services], [list_identity] and [list_interfaces] differ in the
    command code only. *)
Definition list_command (self : t) (command : pybytes) (w : World)
    : res pybytes * World :=
  match EIPMessage.__init__ command [] [x00; x00; x00; x00] with
  | Raise e => (Raise e, w)
  | Ok eip_message =>
      match send_command self eip_message w with
      | (Raise e, w') => (Raise e, w')
      | (Ok reply, w') => (Ok (EIPMessage.command_data reply), w')
      end
  end.

Definition list_services (self : t) := list_command self [x04; x00].
Definition list_identity (self : t) := list_command self [x63; x00].
Definition list_interfaces (self : t) := list_command self [x64; x00].

(** [register_session] returns the reply and leaves the handle of the
    reply in [self]. *)
Definition register_session (self : t) (command_data : pybytes) (w : World)
    : res EIPMessage.t * t * World :=
  match EIPMessage.__init__ [x65; x00] command_data [x00; x00; x00; x00] with
  | Raise e => (Raise e, self, w)
  | Ok eip_message =>
      match send_command self eip_message w with
      | (Raise e, w') => (Raise e, self, w')
      | (Ok response, w') =>
          (Ok response,
           {| session_handle_id := EIPMessage.session_handle_id response;
              is_connected_explicit := is_connected_explicit self;
              has_session_handle := true;
              BUFFER_SIZE := BUFFER_SIZE self |},
           w')
      end
  end.

(** [l[i]] on a Python list, for an index that is not negative. *)
Definition list_item {A : Type} (l : list A) (i : nat) : res A :=
  match l !! i with
  | Some x => Ok x
  | None => Raise IndexError
  end.

Definition command_specific_data_from_eip_message (eip_message : EIPMessage.t)
    : CommandSpecificData.t :=
  CommandSpecificData.from_bytes CommandSpecificData.__init__
    (EIPMessage.bytes eip_message).

Definition command_specific_data_from_eip_message_bytes (eip_message_bytes : pybytes)
    : res CommandSpecificData.t :=
  try eip_message <- EIPMessage.default in
  Ok (command_specific_data_from_eip_message
        (EIPMessage.from_bytes eip_message eip_message_bytes)).

Definition cip_reply_from_eip_message (fuel : nat) (eip_message : EIPMessage.t)
    : option (res CIPReply.t) :=
  let command_specific_data :=
    CommandSpecificData.from_bytes CommandSpecificData.__init__
      (EIPMessage.command_data eip_message) in
  match CommonPacketFormat.__init__ [] with
  | Raise e => Some (Raise e)
  | Ok common_packet_format =>
      match CommonPacketFormat.from_bytes fuel common_packet_format
              (CommandSpecificData.bytes command_specific_data) with
      | None => None
      | Some (Raise e) => Some (Raise e)
      | Some (Ok common_packet_format) =>
          Some (try item <- list_item (CommonPacketFormat.packets common_packet_format) 1 in
                Ok (CIPReply.__init__ (DataAndAddressItem.bytes item)))
      end
  end.

Definition cip_reply_from_eip_message_bytes (fuel : nat) (eip_message_bytes : pybytes)
    : option (res CIPReply.t) :=
  match EIPMessage.default with
  | Raise e => Some (Raise e)
  | Ok eip_message =>
      cip_reply_from_eip_message fuel
        (EIPMessage.from_bytes eip_message eip_message_bytes)
  end.

Definition read_tag (fuel : nat) (self : t) (tag_name : str) (w : World)
    : option (res pybytes) * World :=
  match
    (try request_path <- CIPRequest.tag_request_path tag_name in
     let cip_message :=
       CIPRequest.__init__ CIPRequest.READ_TAG_SERVICE request_path [x01; x00] in
     try message_bytes <- CIPRequest.bytes cip_message in
     try data_address_item <-
       DataAndAddressItem.__init__ DataAndAddressItem.UNCONNECTED_MESSAGE
         message_bytes in
     let packets := [data_address_item] in
     try common_packet_format <- CommonPacketFormat.__init__ packets in
     try packet <- CommonPacketFormat.bytes common_packet_format in
     let command_specific_data := CommandSpecificData.of_packet packet in
     Ok (CommandSpecificData.bytes command_specific_data))
  with
  | Raise e => (Some (Raise e), w)
  | Ok command_specific_data =>
      match send_rr_data fuel self command_specific_data w with
      | (None, w') => (None, w')
      | (Some (Raise e), w') => (Some (Raise e), w')
      | (Some (Ok reply_packet), w') =>
          (Some (try item <- list_item (CommonPacketFormat.packets reply_packet) 1 in
                 Ok (DataAndAddressItem.bytes item)), w')
      end
  end.

Definition get_variable (fuel : nat) (self : t) (route_path command_data : pybytes)
    (w : World) : option (res pybytes) * World :=
  match
    (let cip_message := CIPRequest.__init__ [x01] route_path [] in
     try message_bytes <- CIPRequest.bytes cip_message in
     try data_address_item <-
       DataAndAddressItem.__init__ DataAndAddressItem.UNCONNECTED_MESSAGE
         message_bytes in
     let packets := [data_address_item] in
     try common_packet_format <- CommonPacketFormat.__init__ packets in
     try packet <- CommonPacketFormat.bytes common_packet_format in
     let command_specific_data := CommandSpecificData.of_packet packet in
     Ok (CommandSpecificData.bytes command_specific_data))
  with
  | Raise e => (Some (Raise e), w)
  | Ok command_specific_data =>
      match send_rr_data fuel self command_specific_data w with
      | (None, w') => (None, w')
      | (Some (Raise e), w') => (Some (Raise e), w')
      | (Some (Ok reply_packet), w') =>
          (Some (try item <- list_item (CommonPacketFormat.packets reply_packet) 1 in
                 Ok (DataAndAddressItem.bytes item)), w')
      end
  end.

(** The calls a client can make on an [EIP] object. *)
Inductive call : Type :=
  | Connect (host : str)
  | Close
  | ListServices
  | ListIdentity
  | ListInterfaces
  | SendRRData (fuel : nat) (command_specific_data : pybytes)
  | RegisterSession (command_data : pybytes).

Definition registers (c : call) : bool :=
  match c with RegisterSession _ => true | _ => false end.

Definition exec (c : call) (sw : t * World) : t * World :=
  let '(self, w) := sw in
  match c with
  | Connect host => connect_explicit self host w
  | Close => (close_explicit self, w)
  | ListServices => (self, snd (list_services self w))
  | ListIdentity => (self, snd (list_identity self w))
  | ListInterfaces => (self, snd (list_interfaces self w))
  | SendRRData fuel csd => (self, snd (send_rr_data fuel self csd w))
  | RegisterSession command_data =>
      let '(_, self', w') := register_session self command_data w in
      (self', w')
  end.

Definition run (calls : list call) (sw : t * World) : t * World :=
  fold_left (fun sw c => exec c sw) calls sw.
End Socket.

Arguments peer {Peer} _.
Arguments wire {Peer} _.
End EIP.

(** ** n_series.py *)

#[export] Instance byte_eq_dec : EqDecision byte := Byte.byte_eq_dec.

#[export] Instance byte_countable : Countable byte :=
  inj_countable Byte.to_N Byte.of_N Byte.of_to_N.

Module cip_datatypes.

(** Modelled from the spec: the classes of [cip_datatypes.py], which is not
    among the sources.  The spec distinguishes the variants string, array,
    structure and abbreviated structure from the elementary types, which
    are told apart by their type code. *)
Inductive CIPClass : Type :=
  | CIPString
  | CIPArray
  | CIPStructure
  | CIPAbbreviatedStructure
  | CIPElementary (code : pybytes).

#[export] Instance CIPClass_eq_dec : EqDecision CIPClass.
Proof. solve_decision. Defined.

(** Modelled from the spec: an instance of a class of [cip_datatypes.py],
    with the attributes that [n_series.py] reads and assigns: every
    descriptor carries its instance id and declared byte size, a structure
    carries its type name and the ordered list of its members. *)
Record CIPDataType_ (Member : Type) : Type := {
  cls : CIPClass;
  size : Z;
  data : pybytes;
  variable_name : str;
  instance_id : Z;
  array_data_type : pybytes;
  variable_type_name : pybytes;
  members : list (pybytes * Member)
}.
Arguments cls {Member} _.
Arguments size {Member} _.
Arguments data {Member} _.
Arguments variable_name {Member} _.
Arguments instance_id {Member} _.
Arguments array_data_type {Member} _.
Arguments variable_type_name {Member} _.
Arguments members {Member} _.

(** What a Python name of [n_series.py] can be bound to: [None], one of the
    classes, or an instance of one. *)
#[warnings="-register-all"]
Inductive PyObj : Type :=
  | PyNone
  | Class (c : CIPClass)
  | Instance (o : CIPDataType_ PyObj).

Abbreviation CIPDataType := (CIPDataType_ PyObj).

End cip_datatypes.
Import cip_datatypes.

(** [isinstance(x, (CIPString, CIPArray, CIPStructure, CIPAbbreviatedStructure))] *)
Definition is_multi_message (x : option CIPDataType) : bool :=
  match x with
  | Some o =>
      match cls o with
      | CIPString | CIPArray | CIPStructure | CIPAbbreviatedStructure => true
      | CIPElementary _ => false
      end
  | None => false
  end.

(** [d.update({k: v})] on a dict, which keeps the order of insertion. *)
Fixpoint dict_update {V : Type} (k : pybytes) (v : V) (d : list (pybytes * V))
    : list (pybytes * V) :=
  match d with
  | [] => [(k, v)]
  | (k', v') :: r =>
      if bool_decide (k' = k) then (k, v) :: r else (k', v') :: dict_update k v r
  end.

Module VariableTypeObjectReply.
Import CIPReply.

Definition __init__ (reply_bytes : pybytes) : CIPReply.t := CIPReply.__init__ reply_bytes.

Definition size_in_memory (self : CIPReply.t) : res Z :=
  struct_unpack 4 (slice (reply_data self) 0 4).

Definition cip_data_type (self : CIPReply.t) : pybytes :=
  slice (reply_data self) 5 6.

Definition cip_data_type_of_array (self : CIPReply.t) : pybytes :=
  slice (reply_data self) 6 7.

Definition array_dimension (self : CIPReply.t) : res Z :=
  struct_unpack 1 (slice (reply_data self) 7 8).

Definition variable_type_name_length (self : CIPReply.t) : res Z :=
  try d0 <- array_dimension self in
  try d1 <- array_dimension self in
  struct_unpack 1 (slice (reply_data self) (16 + d0 * 4) (17 + d1 * 4)).

Definition padding (self : CIPReply.t) : res Z :=
  try l <- variable_type_name_length self in
  if l mod 2 =? 0 then Ok 1 else Ok 0.

Definition variable_type_name (self : CIPReply.t) : res pybytes :=
  try d0 <- array_dimension self in
  try d1 <- array_dimension self in
  try l <- variable_type_name_length self in
  Ok (slice (reply_data self) (17 + d0 * 4) (17 + d1 * 4 + l)).

Definition next_instance_id (self : CIPReply.t) : res pybytes :=
  try p0 <- padding self in
  try d0 <- array_dimension self in
  try l0 <- variable_type_name_length self in
  try p1 <- padding self in
  try d1 <- array_dimension self in
  try l1 <- variable_type_name_length self in
  Ok (slice (reply_data self) (p0 + 17 + d0 * 4 + l0) (p1 + 17 + d1 * 4 + l1 + 4)).

Definition nesting_variable_type_instance_id (self : CIPReply.t) : res pybytes :=
  try p0 <- padding self in
  try d0 <- array_dimension self in
  try l0 <- variable_type_name_length self in
  try p1 <- padding self in
  try d1 <- array_dimension self in
  try l1 <- variable_type_name_length self in
  Ok (slice (reply_data self) (p0 + 21 + d0 * 4 + l0) (p1 + 21 + d1 * 4 + l1 + 4)).

Definition number_of_elements (self : CIPReply.t) : res (list Z) :=
  try d <- array_dimension self in
  res_map (fun i => struct_unpack 4 (slice (reply_data self) (8 + i * 4) (8 + i * 4 + 4)))
    (range d).

Definition number_of_members (self : CIPReply.t) : res Z :=
  try d0 <- array_dimension self in
  try d1 <- array_dimension self in
  struct_unpack 2 (slice (reply_data self) (8 + d0 * 4) (10 + d1 * 4)).

Definition crc_code (self : CIPReply.t) : res Z :=
  try d0 <- array_dimension self in
  try d1 <- array_dimension self in
  struct_unpack 2 (slice (reply_data self) (14 + d0 * 4) (16 + d1 * 4)).

Definition start_array_elements (self : CIPReply.t) : res (list Z) :=
  try d <- array_dimension self in
  res_map
    (fun _ : Z =>
       try p0 <- padding self in
       try d0 <- array_dimension self in
       try l0 <- variable_type_name_length self in
       try p1 <- padding self in
       try d1 <- array_dimension self in
       try l1 <- variable_type_name_length self in
       struct_unpack 4
         (slice (reply_data self) (p0 + 25 + d0 * 4 + l0) (p1 + 25 + d1 * 4 + l1 + 4)))
    (range d).
End VariableTypeObjectReply.

Module VariableObjectReply.
Import CIPReply.

Definition __init__ (reply_bytes : pybytes) : CIPReply.t := CIPReply.__init__ reply_bytes.

Definition size (self : CIPReply.t) : res Z :=
  struct_unpack 4 (slice (reply_data self) 0 4).

Definition cip_data_type (self : CIPReply.t) : pybytes :=
  slice (reply_data self) 4 5.

Definition cip_data_type_of_array (self : CIPReply.t) : pybytes :=
  slice (reply_data self) 5 6.

Definition array_dimension (self : CIPReply.t) : res Z :=
  struct_unpack 1 (slice (reply_data self) 6 7).

Definition number_of_elements (self : CIPReply.t) : res (list Z) :=
  try d <- array_dimension self in
  res_map (fun i => struct_unpack 4 (slice (reply_data self) (8 + i * 4) (8 + i * 4 + 4)))
    (range d).

Definition bit_number (self : CIPReply.t) : res Z :=
  try d0 <- array_dimension self in
  try d1 <- array_dimension self in
  struct_unpack 1 (slice (reply_data self) (16 + d0 * 4) (17 + d1 * 4)).

Definition variable_type_instance_id (self : CIPReply.t) : res pybytes :=
  try d0 <- array_dimension self in
  try d1 <- array_dimension self in
  Ok (slice (reply_data self) (20 + d0 * 4) (24 + d1 * 4)).

Definition start_array_elements (self : CIPReply.t) : res (list Z) :=
  try d <- array_dimension self in
  res_map
    (fun _ : Z =>
       try d0 <- array_dimension self in
       try d1 <- array_dimension self in
       struct_unpack 4 (slice (reply_data self) (24 + d0 * 4) (24 + d1 * 4 + 4)))
    (range d).
End VariableObjectReply.

Module SimpleDataSegmentRequest.
Record t : Type := {
  simple_data_type_code : pybytes;
  segment_length : pybytes;
  offset : Z;
  size : Z
}.

Definition __init__ (offset size : Z) : t :=
  {| simple_data_type_code := [x80];
     segment_length := [x03];
     offset := offset;
     size := size |}.

Definition bytes (self : t) : res pybytes :=
  try o <- struct_pack 4 (offset self) in
  try s <- struct_pack 2 (size self) in
  Ok (simple_data_type_code self ++ segment_length self ++ o ++ s).
End SimpleDataSegmentRequest.

Module NSeriesEIP.
Definition MAXIMUM_LENGTH : Z := 502.

(** The requests that reach the controller, as the services of the
    class receive them. *)
Inductive request : Type :=
  | ReadTag (request_path : pybytes)
  | WriteTag (request_path data_type_code data : pybytes)
  | GetAttributeAll (request_path : pybytes).

Section Collaborators.
(** What [n_series.py] uses and the sources do not contain.  [Value] is
    the type of the Python values read and written; [from_value],
    [from_bytes], [value] and [data_type_code] are methods of the
    classes of [cip_datatypes.py]; [variable_request_path_segment] and
    [address_request_path_segment] build request paths; and the three
    services perform one request and reply exchange with the controller
    each, whose state is a [Controller].  [get_attribute_all_bytes] is
    what [self.get_attribute_all_service(request_path).bytes] evaluates
    to.  The services are taken to return: a failing transport is not
    part of the model. *)
Variable Value : Type.
Variable from_value : Value -> CIPDataType -> res CIPDataType.
Variable from_bytes : pybytes -> CIPDataType -> res CIPDataType.
Variable value : CIPDataType -> res Value.
Variable data_type_code : CIPClass -> pybytes.
Variable variable_request_path_segment : str -> res pybytes.
Variable address_request_path_segment : pybytes -> pybytes -> pybytes.
Variable Controller : Type.
Variable read_tag_reply : pybytes -> Controller -> CIPReply.t * Controller.
Variable write_tag_reply :
  pybytes -> pybytes -> pybytes -> Controller -> CIPReply.t * Controller.
Variable get_attribute_all_bytes : pybytes -> Controller -> pybytes * Controller.

(** [sent] lists the requests made so far, oldest first. *)
Record World : Type := {
  controller : Controller;
  sent : list request
}.

(** A computation that exchanges messages with the controller: it ends
    with a value or an exception, or is still running when its loop
    bound is reached ([None]). *)
Definition M (A : Type) : Type := World -> option (res A) * World.

Definition ret {A : Type} (a : A) : M A := fun w => (Some (Ok a), w).

Definition raise {A : Type} (e : exn) : M A := fun w => (Some (Raise e), w).

Definition lift {A : Type} (r : res A) : M A := fun w => (Some r, w).

Definition bind {A B : Type} (m : M A) (k : A -> M B) : M B :=
  fun w =>
    match m w with
    | (Some (Ok a), w') => k a w'
    | (Some (Raise e), w') => (Some (Raise e), w')
    | (None, w') => (None, w')
    end.

Notation "'do' x <- m 'in' k" := (bind m (fun x => k))
  (at level 10, x name, m at level 100, k at level 200,
   format "'[v' 'do'  x  <-  m  'in' '/' k ']'").

Fixpoint whileM {S : Type} (fuel : nat) (cond : S -> bool)
    (body : S -> M S) (s : S) : M S :=
  if cond s then
    match fuel with
    | O => fun w => (None, w)
    | Datatypes.S f => do s' <- body s in whileM f cond body s'
    end
  else ret s.

Definition read_tag_service (request_path : pybytes) : M CIPReply.t :=
  fun w =>
    let '(reply, c) := read_tag_reply request_path (controller w) in
    (Some (Ok reply),
     {| controller := c; sent := sent w ++ [ReadTag request_path] |}).

Definition write_tag_service (request_path code data : pybytes) : M CIPReply.t :=
  fun w =>
    let '(reply, c) := write_tag_reply request_path code data (controller w) in
    (Some (Ok reply),
     {| controller := c; sent := sent w ++ [WriteTag request_path code data] |}).

Definition get_attribute_all_service_bytes (request_path : pybytes) : M pybytes :=
  fun w =>
    let '(reply_bytes, c) := get_attribute_all_bytes request_path (controller w) in
    (Some (Ok reply_bytes),
     {| controller := c; sent := sent w ++ [GetAttributeAll request_path] |}).

(** The attributes of [self] that the modelled methods use. *)
Record t : Type := {
  variables : gmap str CIPDataType;
  data_type_dictionary : gmap pybytes CIPClass
}.

Definition with_variable (self : t) (name : str) (o : CIPDataType) : t :=
  {| variables := <[name := o]> (variables self);
     data_type_dictionary := data_type_dictionary self |}.

Definition with_data (o : CIPDataType) (d : pybytes) : CIPDataType :=
  {| cls := cls o; size := size o; data := d;
     variable_name := variable_name o; instance_id := instance_id o;
     array_data_type := array_data_type o;
     variable_type_name := variable_type_name o; members := members o |}.

Definition _simple_data_segment_read (cip_datatype_object : CIPDataType)
    (offset read_size : Z) : M CIPReply.t :=
  do request_path <-
    lift (variable_request_path_segment (variable_name cip_datatype_object)) in
  do segment <-
    lift (SimpleDataSegmentRequest.bytes
            (SimpleDataSegmentRequest.__init__ offset read_size)) in
  read_tag_service (request_path ++ segment).

(** The variables of the loop of [_multi_message_variable_read]. *)
Record read_state : Type := {
  r_offset : Z;
  r_data : pybytes
}.

Definition read_more (cip_datatype_object : CIPDataType) (s : read_state) : bool :=
  r_offset s <? size cip_datatype_object.

Definition read_chunk (cip_datatype_object : CIPDataType)
    (max_read_size burn_characters : Z) (s : read_state) : M read_state :=
  let read_size :=
    if size cip_datatype_object - r_offset s >? max_read_size
    then max_read_size
    else size cip_datatype_object - r_offset s in
  do response <- _simple_data_segment_read cip_datatype_object (r_offset s) read_size in
  ret {| r_offset := r_offset s + max_read_size;
         r_data := r_data s ++
                   slice_from (CIPReply.reply_data response) (2 + burn_characters) |}.

(** Returns the value read and the object, whose [data] it has set. *)
Definition _multi_message_variable_read (fuel : nat)
    (cip_datatype_object : CIPDataType) (offset : Z)
    : M (Value * CIPDataType) :=
  let max_read_size := MAXIMUM_LENGTH - 8 in
  let burn_characters :=
    match cls cip_datatype_object with
    | CIPString => 2
    | _ => 0
    end in
  do s <- whileM fuel (read_more cip_datatype_object)
            (read_chunk cip_datatype_object max_read_size burn_characters)
            {| r_offset := offset; r_data := [] |} in
  let cip_datatype_object := with_data cip_datatype_object (r_data s) in
  do v <- lift (value cip_datatype_object) in
  ret (v, cip_datatype_object).

Definition _simple_data_segment_write (cip_datatype_object : CIPDataType)
    (offset write_size : Z) (data : pybytes) : M CIPReply.t :=
  do request_path <-
    lift (variable_request_path_segment (variable_name cip_datatype_object)) in
  do segment <-
    lift (SimpleDataSegmentRequest.bytes
            (SimpleDataSegmentRequest.__init__ offset write_size)) in
  let request_path := request_path ++ segment in
  if bool_decide (data_type_code (cls cip_datatype_object) = data_type_code CIPString)
  then
    do prefix <- lift (struct_pack 2 (len data)) in
    write_tag_service request_path (data_type_code (cls cip_datatype_object))
      (prefix ++ data)
  else if bool_decide (data_type_code (cls cip_datatype_object) = data_type_code CIPArray)
  then
    write_tag_service request_path (array_data_type cip_datatype_object) data
  else raise UnboundLocalError.

Definition write_more (cip_datatype_object : CIPDataType) (offset : Z) : bool :=
  offset <? size cip_datatype_object.

Definition write_chunk (cip_datatype_object : CIPDataType)
    (max_write_size : Z) (offset : Z) : M Z :=
  let write_size :=
    if size cip_datatype_object - offset >? max_write_size
    then max_write_size
    else size cip_datatype_object - offset in
  do response <- _simple_data_segment_write cip_datatype_object offset write_size
                   (slice (data cip_datatype_object) offset (offset + write_size)) in
  ret (offset + max_write_size).

(** Returns the object, which [from_value] has changed. *)
Definition _multi_message_variable_write (fuel : nat)
    (cip_datatype_object : CIPDataType) (data : Value) (offset : Z)
    : M CIPDataType :=
  let max_write_size := 400 in
  do cip_datatype_object <- lift (from_value data cip_datatype_object) in
  do final_offset <- whileM fuel (write_more cip_datatype_object)
            (write_chunk cip_datatype_object max_write_size) offset in
  ret cip_datatype_object.

Definition write_variable (fuel : nat) (self : t) (variable_name : str)
    (data : Value) : M t :=
  do request_path <- lift (variable_request_path_segment variable_name) in
  match variables self !! variable_name with
  | None => raise AttributeError
  | Some cip_datatype_object =>
      do cip_datatype_object <- lift (from_value data cip_datatype_object) in
      if is_multi_message (Some cip_datatype_object) then
        do cip_datatype_object <-
          _multi_message_variable_write fuel cip_datatype_object data 0 in
        ret (with_variable self variable_name cip_datatype_object)
      else
        do response <- write_tag_service request_path
                         (data_type_code (cls cip_datatype_object))
                         (cip_datatypes.data cip_datatype_object) in
        ret (with_variable self variable_name cip_datatype_object)
  end.

Definition read_variable (fuel : nat) (self : t) (variable_name : str)
    : M (Value * t) :=
  do request_path <- lift (variable_request_path_segment variable_name) in
  let cip_datatype_object := variables self !! variable_name in
  if is_multi_message cip_datatype_object then
    match cip_datatype_object with
    | None => raise AttributeError
    | Some cip_datatype_object =>
        do vo <- _multi_message_variable_read fuel cip_datatype_object 0 in
        ret (fst vo, with_variable self variable_name (snd vo))
    end
  else
    do response <- read_tag_service request_path in
    match cip_datatype_object with
    | None => raise AttributeError
    | Some cip_datatype_object =>
        do cip_datatype_object <-
          lift (from_bytes (CIPReply.reply_data response) cip_datatype_object) in
        do v <- lift (value cip_datatype_object) in
        ret (v, with_variable self variable_name cip_datatype_object)
    end.

Definition _get_variable_type_object (instance_id : Z) : M CIPReply.t :=
  do id_bytes <- lift (to_bytes instance_id 2) in
  let request_path := address_request_path_segment [x6c] id_bytes in
  do reply_bytes <- get_attribute_all_service_bytes request_path in
  ret (VariableTypeObjectReply.__init__ reply_bytes).

(** [self.data_type_dictionary.get(code)]: a class, or [None]. *)
Definition dictionary_get (self : t) (code : pybytes) : PyObj :=
  match data_type_dictionary self !! code with
  | Some c => Class c
  | None => PyNone
  end.

Definition with_type_name (o : CIPDataType) (n : pybytes) : CIPDataType :=
  {| cls := cls o; size := size o; data := data o;
     variable_name := variable_name o; instance_id := instance_id o;
     array_data_type := array_data_type o;
     variable_type_name := n; members := members o |}.

Definition with_size (o : CIPDataType) (n : Z) : CIPDataType :=
  {| cls := cls o; size := n; data := data o;
     variable_name := variable_name o; instance_id := instance_id o;
     array_data_type := array_data_type o;
     variable_type_name := variable_type_name o; members := members o |}.

Definition with_member (o : CIPDataType) (k : pybytes) (v : PyObj) : CIPDataType :=
  {| cls := cls o; size := size o; data := data o;
     variable_name := variable_name o; instance_id := instance_id o;
     array_data_type := array_data_type o;
     variable_type_name := variable_type_name o;
     members := dict_update k v (members o) |}.

(** The variables of the loop over the members of a structure. *)
Record walk_state : Type := {
  member_instance_id : Z;
  structure : CIPDataType
}.

Definition walk_more (s : walk_state) : bool :=
  negb (member_instance_id s =? 0).

(** One turn of the loop; [resolve] is the recursive call of
    [get_data_instance]. *)
Definition walk_member (self : t) (resolve : PyObj -> M PyObj) (s : walk_state)
    : M walk_state :=
  do variable_type_object_reply <- _get_variable_type_object (member_instance_id s) in
  let member_cip_datatype_object :=
    dictionary_get self
      (VariableTypeObjectReply.cip_data_type variable_type_object_reply) in
  do member_cip_datatype_instance <- resolve member_cip_datatype_object in
  do name <- lift (VariableTypeObjectReply.variable_type_name variable_type_object_reply) in
  do member <- resolve member_cip_datatype_instance in
  do next <- lift (VariableTypeObjectReply.next_instance_id variable_type_object_reply) in
  ret {| member_instance_id := int_from_bytes next;
         structure := with_member (structure s) name member |}.

(** [fuel] bounds the number of turns of each loop and the depth of the
    recursion. *)
Fixpoint get_data_instance (fuel : nat) (self : t) (cip_datatype_instance : PyObj)
    : M PyObj :=
  match cip_datatype_instance with
  | Instance o =>
      match cls o with
      | CIPArray =>
          do variable_type_object_reply <- _get_variable_type_object (instance_id o) in
          do name <- lift (VariableTypeObjectReply.variable_type_name
                             variable_type_object_reply) in
          let o := with_type_name o name in
          do next <- lift (VariableTypeObjectReply.next_instance_id
                             variable_type_object_reply) in
          do variable_type_object_reply <-
            _get_variable_type_object (int_from_bytes next) in
          let member_cip_datatype_object :=
            dictionary_get self
              (VariableTypeObjectReply.cip_data_type variable_type_object_reply) in
          (* [variable_type_object_reply.size]: the reply has no such attribute *)
          raise AttributeError
      | CIPAbbreviatedStructure => ret PyNone
      | CIPStructure =>
          do variable_type_object_reply <- _get_variable_type_object (instance_id o) in
          do name <- lift (VariableTypeObjectReply.variable_type_name
                             variable_type_object_reply) in
          let o := with_type_name o name in
          do size_in_memory <- lift (VariableTypeObjectReply.size_in_memory
                                       variable_type_object_reply) in
          let o := with_size o size_in_memory in
          do nesting <- lift (VariableTypeObjectReply.nesting_variable_type_instance_id
                                variable_type_object_reply) in
          let nesting_variable_type_instance_id := int_from_bytes nesting in
          let resolve :=
            match fuel with
            | O => fun _ => fun w => (None, w)
            | Datatypes.S f => get_data_instance f self
            end in
          do s <- whileM fuel walk_more (walk_member self resolve)
                    {| member_instance_id := nesting_variable_type_instance_id;
                       structure := o |} in
          ret (Instance (structure s))
      | _ => ret cip_datatype_instance
      end
  | _ => ret cip_datatype_instance
  end.
End Collaborators.

Arguments controller {Controller} _.
Arguments sent {Controller} _.
End NSeriesEIP.

(** ** Vocabulary of the properties *)

(** The bytes of the simple data segment for [size] bytes at [offset]. *)
Definition segment_bytes (offset size : Z) : pybytes :=
  [x80; x03] ++ le_bytes 4 offset ++ le_bytes 2 size.

(** The number of chunks of [c] bytes that cover [s] bytes: [ceil(s / c)]. *)
Definition chunks (s c : Z) : nat := Z.to_nat ((s + c - 1) / c).

(** The variables of the loop of [CommonPacketFormat.from_bytes] after [n]
    items have been decoded from [packet_bytes], if there are that many. *)
Fixpoint after_items (n : nat) (packet_bytes : pybytes)
    (c : CommonPacketFormat.cursor) : option CommonPacketFormat.cursor :=
  match n with
  | O => Some c
  | S k =>
      if CommonPacketFormat.more packet_bytes c then
        match CommonPacketFormat.next_item packet_bytes c with
        | Ok c' => after_items k packet_bytes c'
        | Raise _ => None
        end
      else None
  end.

(** The size declared for chunk [i], from 0, of [s] bytes moved in chunks
    of [c] bytes. *)
Definition chunk_size (s c : Z) (i : nat) : Z := Z.min (s - c * Z.of_nat i) c.

(** The read request for chunk [i] of a variable of [s] bytes. *)
Definition read_request (path : pybytes) (s c : Z) (i : nat) : NSeriesEIP.request :=
  NSeriesEIP.ReadTag (path ++ segment_bytes (c * Z.of_nat i) (chunk_size s c i)).

(** The bytes of the serialized data that chunk [i] of a write carries. *)
Definition chunk_data (o : CIPDataType) (c : Z) (i : nat) : pybytes :=
  slice (data o) (c * Z.of_nat i) (c * Z.of_nat i + chunk_size (size o) c i).

(** The write request for chunk [i] of the data of [o]: a string chunk
    goes with its length before it and under the type code of the object,
    an array chunk as it is and under the type code of the elements. *)
Definition write_request (data_type_code : CIPClass -> pybytes) (o : CIPDataType)
    (path : pybytes) (c : Z) (i : nat) : NSeriesEIP.request :=
  let request_path :=
    path ++ segment_bytes (c * Z.of_nat i) (chunk_size (size o) c i) in
  if bool_decide (data_type_code (cls o) = data_type_code CIPString)
  then NSeriesEIP.WriteTag request_path (data_type_code (cls o))
         (le_bytes 2 (len (chunk_data o c i)) ++ chunk_data o c i)
  else NSeriesEIP.WriteTag request_path (array_data_type o) (chunk_data o c i).

Definition Zsum (l : list Z) : Z := fold_right Z.add 0 l.

(** Collaborators to run the model with: type codes as [CIPDataTypes] has
    them, values that are the serialized bytes themselves, symbolic paths
    for variables, and a controller, of which there is one state, that
    answers every read and write with an empty success reply. *)
Module Sample.
Definition data_type_code (c : CIPClass) : pybytes :=
  match c with
  | CIPString => CIPDataTypes.CIP_STRING
  | CIPArray => CIPDataTypes.CIP_ARRAY
  | CIPStructure => CIPDataTypes.CIP_STRUCT
  | CIPAbbreviatedStructure => CIPDataTypes.CIP_ABBREVIATED_STRUCT
  | CIPElementary code => code
  end.

Definition from_value (v : pybytes) (o : CIPDataType) : res CIPDataType :=
  Ok (NSeriesEIP.with_data o v).

Definition from_bytes (b : pybytes) (o : CIPDataType) : res CIPDataType :=
  Ok (NSeriesEIP.with_data o b).

Definition value (o : CIPDataType) : res pybytes := Ok (data o).

Definition variable_request_path_segment (name : str) : res pybytes :=
  CIPRequest.tag_request_path name.

Definition address_request_path_segment (class_id instance_id : pybytes) : pybytes :=
  [x20] ++ class_id ++ [x25; x00] ++ instance_id.

Definition read_tag_reply (request_path : pybytes) (c : unit) : CIPReply.t * unit :=
  (CIPReply.__init__ [xcc; x00; x00; x00], c).

Definition write_tag_reply (request_path code data : pybytes) (c : unit)
    : CIPReply.t * unit :=
  (CIPReply.__init__ [xcd; x00; x00; x00], c).

Definition world : NSeriesEIP.World unit :=
  {| NSeriesEIP.controller := tt; NSeriesEIP.sent := [] |}.

(** A variable [S] of the given class and declared size, with no data. *)
Definition variable (c : CIPClass) (size : Z) : CIPDataType :=
  {| cls := c; size := size; data := []; variable_name := [83];
     instance_id := 1; array_data_type := [xc3]; variable_type_name := [];
     members := [] |}.
End Sample.

(** The chain of members that the replies of the controller describe.
    [table] gives, for an instance id, the bytes of the reply to the
    request for the attributes of that Variable Type Object. *)
Section Chain.
Variable self : NSeriesEIP.t.
Variable table : Z -> pybytes.

Definition type_reply (id : Z) : CIPReply.t :=
  VariableTypeObjectReply.__init__ (table id).

Definition name_of (id : Z) : pybytes :=
  match VariableTypeObjectReply.variable_type_name (type_reply id) with
  | Ok n => n
  | Raise _ => []
  end.

Definition next_of (id : Z) : Z :=
  match VariableTypeObjectReply.next_instance_id (type_reply id) with
  | Ok b => int_from_bytes b
  | Raise _ => 0
  end.

Definition first_member_of (id : Z) : Z :=
  match VariableTypeObjectReply.nesting_variable_type_instance_id (type_reply id) with
  | Ok b => int_from_bytes b
  | Raise _ => 0
  end.

Definition size_of (id : Z) : Z :=
  match VariableTypeObjectReply.size_in_memory (type_reply id) with
  | Ok n => n
  | Raise _ => 0
  end.

(** The reply for [id] has all the fields that the resolver reads. *)
Definition complete (id : Z) : bool :=
  is_Ok (VariableTypeObjectReply.variable_type_name (type_reply id)) &&
  is_Ok (VariableTypeObjectReply.next_instance_id (type_reply id)) &&
  is_Ok (VariableTypeObjectReply.size_in_memory (type_reply id)) &&
  is_Ok (VariableTypeObjectReply.nesting_variable_type_instance_id (type_reply id)).

(** The instance id after [id] in the chain; the chain stays at zero. *)
Definition link (id : Z) : Z := if id =? 0 then 0 else next_of id.

(** The first [n] instance ids of the chain from [id], up to its end. *)
Fixpoint chain_ids (n : nat) (id : Z) : list Z :=
  match n with
  | O => []
  | S k => if id =? 0 then [] else id :: chain_ids k (next_of id)
  end.

(** A structure after the reply for its own instance id has been read. *)
Definition resolved_header (o : CIPDataType) : CIPDataType :=
  NSeriesEIP.with_size
    (NSeriesEIP.with_type_name o (name_of (instance_id o)))
    (size_of (instance_id o)).

(** The member of instance id [id] entered in the members of [o]. *)
Definition add_member (o : CIPDataType) (id : Z) : CIPDataType :=
  NSeriesEIP.with_member o (name_of id)
    (NSeriesEIP.dictionary_get self
       (VariableTypeObjectReply.cip_data_type (type_reply id))).
End Chain.

(** The controller answers the request for the Variable Type Object [id]
    with the bytes of [table], whatever its state, the reply is complete
    and [id] fits the two bytes of the request path. *)
Definition answered (address_request_path_segment : pybytes -> pybytes -> pybytes)
    (Controller : Type)
    (get_attribute_all_bytes : pybytes -> Controller -> pybytes * Controller)
    (table : Z -> pybytes) (id : Z) : Prop :=
  0 <= id < 65536 /\
  complete table id = true /\
  forall c : Controller,
    fst (get_attribute_all_bytes
           (address_request_path_segment [x6c] (le_bytes 2 id)) c) = table id.

(** A recursive call that is given a class or [None] returns it. *)
Definition returns_classes (Controller : Type)
    (resolve : PyObj -> NSeriesEIP.M Controller PyObj) : Prop :=
  forall (x : PyObj) (w : NSeriesEIP.World Controller),
    (forall o, x <> Instance o) -> resolve x w = (Some (Ok x), w).

Module SampleTypes.
(** The bytes of a reply for a Variable Type Object that is not an array. *)
Definition type_object (size : Z) (code : byte) (name : pybytes) (next nesting : Z)
    : pybytes :=
  [x81; x00; x00; x00] ++
  le_bytes 4 size ++ [x00; code; x00; x00] ++ [x00; x00] ++
  [x00; x00; x00; x00] ++ [x00; x00] ++
  [byte_of_Z (len name)] ++ name ++
  (if len name mod 2 =? 0 then [x00] else []) ++
  le_bytes 4 next ++ le_bytes 4 nesting.

(** A structure [T], instance 1, with the members [A], instance 2, and
    [B], instance 3, after which the chain ends. *)
Definition ended (id : Z) : pybytes :=
  if id =? 1 then type_object 4 xa2 [x54] 0 2
  else if id =? 2 then type_object 2 xc3 [x41] 3 0
  else type_object 2 xc3 [x42] 0 0.

(** The same, but with [A] again after [B]. *)
Definition cyclic (id : Z) : pybytes :=
  if id =? 1 then type_object 4 xa2 [x54] 0 2
  else if id =? 2 then type_object 2 xc3 [x41] 3 0
  else type_object 2 xc3 [x42] 2 0.

(** A controller that answers from a table by the instance id at the end
    of the request path. *)
Definition get_attribute_all_bytes (table : Z -> pybytes) (request_path : pybytes)
    (c : unit) : pybytes * unit :=
  (table (int_from_bytes (slice_from request_path 4)), c).

Definition self : NSeriesEIP.t :=
  {| NSeriesEIP.variables := ∅;
     NSeriesEIP.data_type_dictionary := {[ [xc3] := CIPElementary [xc3] ]} |}.

Definition request (id : Z) : NSeriesEIP.request :=
  NSeriesEIP.GetAttributeAll
    (Sample.address_request_path_segment [x6c] (le_bytes 2 id)).
End SampleTypes.

(** [connects c]: the call is one of [connect_explicit]. *)
Definition connects (c : EIP.call) : bool :=
  match c with EIP.Connect _ => true | _ => false end.

(** An item as [DataAndAddressItem(type_id, data)] builds it from a type
    identifier of two bytes and data that fit the length field. *)
Definition item_ok (i : DataAndAddressItem.t) : Prop :=
  len (DataAndAddressItem.type_id i) = 2 /\
  len (DataAndAddressItem.data i) < 65536 /\
  DataAndAddressItem.length i = le_bytes 2 (len (DataAndAddressItem.data i)).

(** The null address item that [CommonPacketFormat] pads with. *)
Definition null_item : DataAndAddressItem.t :=
  {| DataAndAddressItem.type_id := DataAndAddressItem.NULL_ADDRESS_ITEM;
     DataAndAddressItem.length := [x00; x00];
     DataAndAddressItem.data := [] |}.

(** The command data that carry one CIP message: the interface handle,
    the timeout, the count of two items, the null address item and the
    unconnected-message item with the CIP message as its data. *)
Definition request_command_data (cip_message : pybytes) : pybytes :=
  [x00; x00; x00; x00] ++ [x08; x00] ++ [x02; x00] ++ [x00; x00; x00; x00] ++
  [xb2; x00] ++ le_bytes 2 (len cip_message) ++ cip_message.

(** The SendRRData frame with these command data: command 0x6f, the
    length of the command data, the session handle, and sixteen zero bytes
    of status, sender context and options. *)
Definition request_frame (session_handle_id cip_message : pybytes) : pybytes :=
  [x6f; x00] ++ le_bytes 2 (len (request_command_data cip_message)) ++
  session_handle_id ++
  [x00; x00; x00; x00] ++ [x00; x00; x00; x00; x00; x00; x00; x00] ++
  [x00; x00; x00; x00] ++ request_command_data cip_message.

(** The replies of the controller to read requests with the given
    request paths, made in this order from the state [c] on. *)
Fixpoint read_replies {Controller : Type}
    (read_tag_reply : pybytes -> Controller -> CIPReply.t * Controller)
    (paths : list pybytes) (c : Controller) : list CIPReply.t :=
  match paths with
  | [] => []
  | path :: rest =>
      let '(reply, c') := read_tag_reply path c in
      reply :: read_replies read_tag_reply rest c'
  end.

(** The request path of the read of chunk [i] of a variable of [s] bytes. *)
Definition read_path (path : pybytes) (s c : Z) (i : nat) : pybytes :=
  path ++ segment_bytes (c * Z.of_nat i) (chunk_size s c i).

(** * Properties *)

(** ** Slices and integers *)

Lemma len_nonneg {A : Type} (l : list A) : 0 <= len l.
Proof. unfold len. lia. Qed.

Lemma len_app {A : Type} (l1 l2 : list A) : len (l1 ++ l2) = len l1 + len l2.
Proof. unfold len. rewrite length_app. lia. Qed.

Lemma norm_index_nonneg (n i : Z) : 0 <= i -> norm_index n i = Z.min i n.
Proof. intros Hi. unfold norm_index. destruct (Z.ltb_spec i 0); [lia | reflexivity]. Qed.

Lemma slice_nonneg {A : Type} (b : list A) (i j : Z) :
  0 <= i -> 0 <= j ->
  slice b i j =
  take (Z.to_nat (Z.min j (len b) - Z.min i (len b))) (drop (Z.to_nat (Z.min i (len b))) b).
Proof. intros Hi Hj. unfold slice. rewrite !norm_index_nonneg by assumption. reflexivity. Qed.

Lemma slice_from_nonneg {A : Type} (b : list A) (i : Z) :
  0 <= i -> slice_from b i = drop (Z.to_nat i) b.
Proof.
  intros Hi. unfold slice_from. rewrite norm_index_nonneg by assumption.
  pose proof (len_nonneg b) as Hn. unfold len in *.
  destruct (Z.le_ge_cases i (Z.of_nat (length b))).
  - rewrite Z.min_l by assumption. reflexivity.
  - rewrite Z.min_r by assumption. rewrite Nat2Z.id.
    rewrite !drop_ge by lia. reflexivity.
Qed.

Lemma len_slice {A : Type} (b : list A) (i j : Z) :
  0 <= i <= j -> len (slice b i j) = Z.min j (len b) - Z.min i (len b).
Proof.
  intros Hij. rewrite slice_nonneg by lia.
  pose proof (len_nonneg b) as Hn. unfold len in *.
  rewrite length_take, length_drop. lia.
Qed.

Lemma len_slice_from {A : Type} (b : list A) (i : Z) :
  0 <= i -> len (slice_from b i) = Z.max 0 (len b - i).
Proof.
  intros Hi. rewrite slice_from_nonneg by assumption.
  unfold len. rewrite length_drop. lia.
Qed.

(** Two adjacent slices make up the slice that spans them. *)
Lemma slice_slice_from {A : Type} (b : list A) (i j : Z) :
  0 <= i <= j -> slice b i j ++ slice_from b j = slice_from b i.
Proof.
  intros Hij. rewrite slice_nonneg, !slice_from_nonneg by lia.
  pose proof (len_nonneg b) as Hn. unfold len in *.
  destruct (Z.le_ge_cases (Z.of_nat (length b)) i) as [Hle | Hge].
  - rewrite !drop_ge by lia. rewrite take_nil. reflexivity.
  - rewrite (Z.min_l i) by lia.
    destruct (Z.le_ge_cases (Z.of_nat (length b)) j) as [Hlej | Hgej].
    + rewrite (Z.min_r j) by lia. rewrite (drop_ge b (Z.to_nat j)) by lia.
      rewrite app_nil_r. apply take_ge. rewrite length_drop. lia.
    + rewrite (Z.min_l j) by lia.
      replace (Z.to_nat j) with (Z.to_nat i + Z.to_nat (j - i))%nat by lia.
      rewrite <- drop_drop. apply take_drop.
Qed.

Lemma slice_from_0 {A : Type} (b : list A) : slice_from b 0 = b.
Proof. rewrite slice_from_nonneg by lia. reflexivity. Qed.

Lemma slice_short {A : Type} (b : list A) (i j : Z) :
  0 <= i -> 0 <= j -> len b <= i -> slice b i j = [].
Proof.
  intros Hi Hj Hlen. rewrite slice_nonneg by assumption.
  unfold len in *. rewrite drop_ge by lia. apply take_nil.
Qed.

Lemma slice_from_short {A : Type} (b : list A) (i : Z) :
  0 <= i -> len b <= i -> slice_from b i = [].
Proof.
  intros Hi Hlen. rewrite slice_from_nonneg by assumption.
  unfold len in *. apply drop_ge. lia.
Qed.

Lemma byte_to_Z_range (x : byte) : 0 <= byte_to_Z x < 256.
Proof. unfold byte_to_Z. pose proof (Byte.to_N_bounded x). lia. Qed.

Lemma int_from_bytes_range (b : pybytes) :
  0 <= int_from_bytes b < 256 ^ len b.
Proof.
  induction b as [| x r IH].
  - simpl. unfold len. simpl. lia.
  - cbn [int_from_bytes]. unfold len in *. cbn [length].
    rewrite Nat2Z.inj_succ, Z.pow_succ_r by lia.
    pose proof (byte_to_Z_range x). lia.
Qed.

Lemma len_le_bytes (n : nat) (v : Z) : len (le_bytes n v) = Z.of_nat n.
Proof.
  unfold len. f_equal. revert v.
  induction n as [| n IH]; intros v; simpl; [reflexivity | now rewrite IH].
Qed.

Lemma to_bytes_Ok (v : Z) (n : nat) :
  0 <= v < 256 ^ Z.of_nat n -> to_bytes v n = Ok (le_bytes n v).
Proof.
  intros [Hlo Hhi]. unfold to_bytes.
  destruct (Z.leb_spec 0 v); [| lia].
  destruct (Z.ltb_spec v (256 ^ Z.of_nat n)); [reflexivity | lia].
Qed.

Lemma to_bytes_inv (v : Z) (n : nat) (b : pybytes) :
  to_bytes v n = Ok b -> 0 <= v < 256 ^ Z.of_nat n /\ b = le_bytes n v.
Proof.
  unfold to_bytes.
  destruct (Z.leb_spec 0 v); destruct (Z.ltb_spec v (256 ^ Z.of_nat n));
    simpl; intros Heq; inversion Heq; subst; auto.
Qed.

Lemma struct_pack_Ok (n : nat) (v : Z) :
  0 <= v < 256 ^ Z.of_nat n -> struct_pack n v = Ok (le_bytes n v).
Proof.
  intros [Hlo Hhi]. unfold struct_pack.
  destruct (Z.leb_spec 0 v); [| lia].
  destruct (Z.ltb_spec v (256 ^ Z.of_nat n)); [reflexivity | lia].
Qed.

(** ** Encapsulation messages *)

(** Decoding keeps every byte of the buffer, whatever its length. *)
Lemma EIPMessage_bytes_from_bytes (self : EIPMessage.t) (buf : pybytes) :
  EIPMessage.bytes (EIPMessage.from_bytes self buf) = buf.
Proof.
  unfold EIPMessage.bytes, EIPMessage.from_bytes. cbn.
  rewrite !slice_slice_from by lia. apply slice_from_0.
Qed.

(** A frame of three bytes is decoded into a message whose length field has
    one byte and whose other fields after the command are empty, and
    [send_command] hands that message to its caller. *)
Lemma EIPMessage_from_bytes_short_frame :
  let frame := [x65; x00; x04] in
  let decoded :=
    {| EIPMessage.command := [x65; x00];
       EIPMessage.length := [x04];
       EIPMessage.session_handle_id := [];
       EIPMessage.status := [];
       EIPMessage.sender_context_data := [];
       EIPMessage.command_options := [];
       EIPMessage.command_data := [] |} in
  let connected :=
    {| EIP.session_handle_id := [x00; x00; x00; x00];
       EIP.is_connected_explicit := true;
       EIP.has_session_handle := false;
       EIP.BUFFER_SIZE := 4096 |} in
  len frame < 24 /\
  EIPMessage.from_bytes decoded frame = decoded /\
  fst (EIP.send_command unit (fun _ p => (frame, p)) connected decoded
         {| EIP.peer := tt; EIP.wire := [] |}) = Ok decoded.
Proof. cbv zeta. split; [reflexivity | split; reflexivity]. Qed.

(** A slice between offsets that are not negative is what [take] leaves
    of what [drop] leaves. *)
Lemma slice_take_drop {A : Type} (b : list A) (i j : Z) :
  0 <= i <= j ->
  slice b i j = take (Z.to_nat (j - i)) (drop (Z.to_nat i) b).
Proof.
  intros Hij. rewrite slice_nonneg by lia.
  pose proof (len_nonneg b) as Hn. unfold len in *.
  destruct (Z.le_ge_cases i (Z.of_nat (length b))) as [Hi | Hi].
  - rewrite (Z.min_l i) by lia.
    destruct (Z.le_ge_cases j (Z.of_nat (length b))) as [Hj | Hj].
    + now rewrite (Z.min_l j) by lia.
    + rewrite (Z.min_r j) by lia.
      rewrite !take_ge by (rewrite length_drop; lia). reflexivity.
  - rewrite !(Z.min_r _ (Z.of_nat (length b))) by lia.
    rewrite !drop_ge by lia. now rewrite !take_nil.
Qed.

(** C5, as the code has it: decoding an encapsulation message from a buffer
    of fewer than 24 bytes does not fail.  It yields the message whose
    header fields are the slices of the buffer at the fixed offsets 0, 2,
    4, 8, 12 and 20, of 2, 2, 4, 4, 8 and 4 bytes, cut short or empty
    where the buffer ends, and whose payload is empty: the six header
    fields together hold exactly the bytes of the buffer, and the options
    have fewer than four bytes. *)
Theorem EIPMessage_from_bytes_short (self : EIPMessage.t) (buf : pybytes) :
  len buf < 24 ->
  EIPMessage.from_bytes self buf =
    {| EIPMessage.command := take 2 buf;
       EIPMessage.length := take 2 (drop 2 buf);
       EIPMessage.session_handle_id := take 4 (drop 4 buf);
       EIPMessage.status := take 4 (drop 8 buf);
       EIPMessage.sender_context_data := take 8 (drop 12 buf);
       EIPMessage.command_options := take 4 (drop 20 buf);
       EIPMessage.command_data := [] |} /\
  EIPMessage.command_data (EIPMessage.from_bytes self buf) = [] /\
  EIPMessage.command (EIPMessage.from_bytes self buf) ++
  EIPMessage.length (EIPMessage.from_bytes self buf) ++
  EIPMessage.session_handle_id (EIPMessage.from_bytes self buf) ++
  EIPMessage.status (EIPMessage.from_bytes self buf) ++
  EIPMessage.sender_context_data (EIPMessage.from_bytes self buf) ++
  EIPMessage.command_options (EIPMessage.from_bytes self buf) = buf /\
  len (EIPMessage.command_options (EIPMessage.from_bytes self buf)) < 4.
Proof.
  intros Hshort.
  assert (Hdata : EIPMessage.command_data (EIPMessage.from_bytes self buf) = []).
  { cbn. apply slice_from_short; lia. }
  split; [| split; [exact Hdata |]; split].
  - unfold EIPMessage.from_bytes.
    rewrite !slice_take_drop by lia.
    rewrite (slice_from_short buf 24) by lia. reflexivity.
  - pose proof (EIPMessage_bytes_from_bytes self buf) as Hall.
    unfold EIPMessage.bytes in Hall. rewrite Hdata, app_nil_r in Hall. exact Hall.
  - cbn. rewrite len_slice by lia. pose proof (len_nonneg buf). lia.
Qed.

Lemma EIPMessage_from_bytes_short_witness :
  let self :=
    {| EIPMessage.command := []; EIPMessage.length := [];
       EIPMessage.session_handle_id := []; EIPMessage.status := [];
       EIPMessage.sender_context_data := []; EIPMessage.command_options := [];
       EIPMessage.command_data := [] |} in
  let buf := [x65; x00; x04; x00; x11; x22; x33; x44; xaa] in
  len buf < 24 /\
  (EIPMessage.from_bytes self buf =
     {| EIPMessage.command := take 2 buf;
        EIPMessage.length := take 2 (drop 2 buf);
        EIPMessage.session_handle_id := take 4 (drop 4 buf);
        EIPMessage.status := take 4 (drop 8 buf);
        EIPMessage.sender_context_data := take 8 (drop 12 buf);
        EIPMessage.command_options := take 4 (drop 20 buf);
        EIPMessage.command_data := [] |} /\
   EIPMessage.command_data (EIPMessage.from_bytes self buf) = [] /\
   EIPMessage.command (EIPMessage.from_bytes self buf) ++
   EIPMessage.length (EIPMessage.from_bytes self buf) ++
   EIPMessage.session_handle_id (EIPMessage.from_bytes self buf) ++
   EIPMessage.status (EIPMessage.from_bytes self buf) ++
   EIPMessage.sender_context_data (EIPMessage.from_bytes self buf) ++
   EIPMessage.command_options (EIPMessage.from_bytes self buf) = buf /\
   len (EIPMessage.command_options (EIPMessage.from_bytes self buf)) < 4).
Proof.
  cbv zeta. split; [reflexivity |].
  apply EIPMessage_from_bytes_short. reflexivity.
Defined.

(** With 24 bytes or more the header fields have their fixed sizes and the
    payload is what follows the 24th byte. *)
Lemma EIPMessage_from_bytes_full (self : EIPMessage.t) (buf : pybytes) :
  24 <= len buf ->
  len (EIPMessage.command (EIPMessage.from_bytes self buf)) = 2 /\
  len (EIPMessage.length (EIPMessage.from_bytes self buf)) = 2 /\
  len (EIPMessage.session_handle_id (EIPMessage.from_bytes self buf)) = 4 /\
  len (EIPMessage.status (EIPMessage.from_bytes self buf)) = 4 /\
  len (EIPMessage.sender_context_data (EIPMessage.from_bytes self buf)) = 8 /\
  len (EIPMessage.command_options (EIPMessage.from_bytes self buf)) = 4 /\
  EIPMessage.command_data (EIPMessage.from_bytes self buf) = drop 24 buf.
Proof.
  intros Hfull. cbn. rewrite !len_slice by lia.
  repeat split; try lia. apply (slice_from_nonneg buf 24). lia.
Qed.

(** ** CIP replies *)

Lemma slice_3_4 (buf : pybytes) (b : byte) :
  buf !! 3%nat = Some b -> slice buf 3 4 = [b].
Proof.
  intros Hb. destruct buf as [| b0 [| b1 [| b2 [| b3 r]]]]; try discriminate.
  cbn in Hb. injection Hb as ->.
  rewrite slice_nonneg by lia.
  assert (Hlen : 4 <= len (b0 :: b1 :: b2 :: b :: r)).
  { unfold len. cbn [length]. lia. }
  rewrite !Z.min_l by lia. reflexivity.
Qed.

Lemma int_from_bytes_1 (b : byte) : int_from_bytes [b] = byte_to_Z b.
Proof. cbn [int_from_bytes]. lia. Qed.

(** A reply of four bytes that announces one word of extended status is
    decoded, with empty reply data, although it is shorter than the six
    bytes at which its reply data start. *)
Lemma CIPReply_init_short_reply :
  let reply_bytes := [xcc; x00; x00; x01] in
  reply_bytes !! 3%nat = Some x01 /\
  len reply_bytes < 4 + 2 * byte_to_Z x01 /\
  CIPReply.__init__ reply_bytes =
    {| CIPReply.reply_service := [xcc];
       CIPReply.reserved := [x00];
       CIPReply.general_status := [x00];
       CIPReply.extended_status_size := [x01];
       CIPReply.extended_status := [];
       CIPReply.reply_data := [] |}.
Proof. cbv zeta. repeat split. Qed.

(** The extended status is sliced up to byte [2k], not up to byte [4 + 2k]:
    with one word of extended status it comes out empty. *)
Lemma CIPReply_init_extended_status :
  CIPReply.extended_status
    (CIPReply.__init__ [xcc; x00; x05; x01; xaa; xbb; x11; x22]) = [] /\
  CIPReply.reply_data
    (CIPReply.__init__ [xcc; x00; x05; x01; xaa; xbb; x11; x22]) = [x11; x22].
Proof. split; reflexivity. Qed.

(** C2, as the code has it: for every CIP reply buffer whose
    extended-status-size byte equals k, decoding does not reject the buffer
    and yields as reply data the bytes from byte offset 4 + 2k on, which
    are no bytes at all when the buffer has 4 + 2k bytes or fewer. *)
Theorem CIPReply_init_reply_data (reply_bytes : pybytes) (b : byte) :
  reply_bytes !! 3%nat = Some b ->
  CIPReply.extended_status_size (CIPReply.__init__ reply_bytes) = [b] /\
  CIPReply.reply_data (CIPReply.__init__ reply_bytes) =
    drop (Z.to_nat (4 + 2 * byte_to_Z b)) reply_bytes /\
  len (CIPReply.reply_data (CIPReply.__init__ reply_bytes)) =
    Z.max 0 (len reply_bytes - (4 + 2 * byte_to_Z b)).
Proof.
  intros Hb. pose proof (byte_to_Z_range b) as Hk.
  cbn [CIPReply.__init__ CIPReply.extended_status_size CIPReply.reply_data].
  rewrite (slice_3_4 _ _ Hb), int_from_bytes_1.
  replace (4 + byte_to_Z b * 2) with (4 + 2 * byte_to_Z b) by lia.
  split; [reflexivity |]. split.
  - apply slice_from_nonneg. lia.
  - apply len_slice_from. lia.
Qed.

Lemma CIPReply_init_reply_data_witness :
  let reply_bytes := [xcc; x00; x00; x01; xaa; xbb; x2a; x00] in
  reply_bytes !! 3%nat = Some x01 /\
  (CIPReply.extended_status_size (CIPReply.__init__ reply_bytes) = [x01] /\
   CIPReply.reply_data (CIPReply.__init__ reply_bytes) =
     drop (Z.to_nat (4 + 2 * byte_to_Z x01)) reply_bytes /\
   len (CIPReply.reply_data (CIPReply.__init__ reply_bytes)) =
     Z.max 0 (len reply_bytes - (4 + 2 * byte_to_Z x01))).
Proof.
  cbv zeta. split; [reflexivity |].
  apply CIPReply_init_reply_data. reflexivity.
Defined.

(** ** Common Packet Format *)

Lemma while_done {S : Type} (fuel : nat) (cond : S -> bool) (body : S -> res S) (s : S) :
  cond s = false -> while fuel cond body s = Some (Ok s).
Proof. intros Hc. destruct fuel; cbn [while]; now rewrite Hc. Qed.

Lemma while_step {S : Type} (fuel : nat) (cond : S -> bool) (body : S -> res S)
    (s s' : S) :
  cond s = true -> body s = Ok s' ->
  while (Datatypes.S fuel) cond body s = while fuel cond body s'.
Proof. intros Hc Hb. cbn [while]. now rewrite Hc, Hb. Qed.

Lemma while_raise {S : Type} (fuel : nat) (cond : S -> bool) (body : S -> res S)
    (s : S) (e : exn) :
  cond s = true -> body s = Raise e ->
  while (Datatypes.S fuel) cond body s = Some (Raise e).
Proof. intros Hc Hb. cbn [while]. now rewrite Hc, Hb. Qed.

Lemma DataAndAddressItem_init_Ok (type_id data : pybytes) :
  len data < 65536 ->
  DataAndAddressItem.__init__ type_id data =
    Ok {| DataAndAddressItem.type_id := type_id;
          DataAndAddressItem.length := le_bytes 2 (len data);
          DataAndAddressItem.data := data |}.
Proof.
  intros Hlen. unfold DataAndAddressItem.__init__.
  rewrite to_bytes_Ok; [reflexivity |].
  pose proof (len_nonneg data). change (256 ^ Z.of_nat 2) with 65536. lia.
Qed.

Lemma list_assign_Ok {A : Type} (l : list A) (i : Z) (x : A) :
  0 <= i < len l -> list_assign l i x = Ok (<[Z.to_nat i := x]> l).
Proof.
  intros [Hlo Hhi]. unfold list_assign.
  destruct (Z.ltb_spec i 0); [lia |].
  destruct (Z.leb_spec 0 i); [| lia].
  destruct (Z.ltb_spec i (len l)); [reflexivity | lia].
Qed.

(** The item length read from the buffer fits the two bytes it is read from. *)
Lemma item_length_range (packet_bytes : pybytes) (o : Z) :
  0 <= o ->
  0 <= int_from_bytes (slice packet_bytes (o + 2) (o + 4)) < 65536.
Proof.
  intros Ho.
  pose proof (int_from_bytes_range (slice packet_bytes (o + 2) (o + 4))) as Hr.
  pose proof (len_slice packet_bytes (o + 2) (o + 4)) as Hl.
  pose proof (len_nonneg (slice packet_bytes (o + 2) (o + 4))) as Hn.
  assert (Hle : len (slice packet_bytes (o + 2) (o + 4)) <= 2) by lia.
  assert (Hpow : 256 ^ len (slice packet_bytes (o + 2) (o + 4)) <= 256 ^ 2).
  { apply Z.pow_le_mono_r; lia. }
  change (256 ^ 2) with 65536 in Hpow. lia.
Qed.

(** One turn of the decoding loop, when the slot for the item exists. *)
Lemma next_item_Ok (packet_bytes : pybytes) (c : CommonPacketFormat.cursor) :
  0 <= CommonPacketFormat.packet_offset c ->
  0 <= CommonPacketFormat.packet_index c < len (CommonPacketFormat.slots c) ->
  let o := CommonPacketFormat.packet_offset c in
  let l := int_from_bytes (slice packet_bytes (o + 2) (o + 4)) in
  let d := slice packet_bytes (o + 4) (o + l + 4) in
  CommonPacketFormat.next_item packet_bytes c =
    Ok {| CommonPacketFormat.packet_offset := o + l + 4;
          CommonPacketFormat.packet_index := CommonPacketFormat.packet_index c + 1;
          CommonPacketFormat.slots :=
            <[Z.to_nat (CommonPacketFormat.packet_index c) :=
                {| DataAndAddressItem.type_id := slice packet_bytes o (o + 2);
                   DataAndAddressItem.length := le_bytes 2 (len d);
                   DataAndAddressItem.data := d |}]>
              (CommonPacketFormat.slots c) |}.
Proof.
  intros Ho Hi o l d. unfold CommonPacketFormat.next_item.
  fold o. fold l. fold d.
  pose proof (item_length_range packet_bytes o Ho) as Hl. fold l in Hl.
  assert (Hd : len d < 65536).
  { unfold d. rewrite len_slice by lia. pose proof (len_nonneg packet_bytes). lia. }
  rewrite (DataAndAddressItem_init_Ok _ _ Hd). cbn [res_bind].
  rewrite list_assign_Ok by assumption. reflexivity.
Qed.

(** The first item of this buffer declares five bytes of data and the
    buffer has one: the decoder yields the item with that one byte. *)
Lemma CommonPacketFormat_from_bytes_truncated_item :
  let buf := [x01; x00; xb2; x00; x05; x00; x41] in
  let null := {| DataAndAddressItem.type_id := [x00; x00];
                 DataAndAddressItem.length := [x00; x00];
                 DataAndAddressItem.data := [] |} in
  let reply_packet := {| CommonPacketFormat.packets := [null; null];
                         CommonPacketFormat.item_count := 2;
                         CommonPacketFormat.packet_bytes := [x00; x00; x00; x00;
                                                             x00; x00; x00; x00] |} in
  CommonPacketFormat.__init__ [] = Ok reply_packet /\
  int_from_bytes (slice (slice_from buf 2) 2 4) = 5 /\
  len (slice_from (slice_from buf 2) 4) = 1 /\
  CommonPacketFormat.from_bytes 1 reply_packet buf =
    Some (Ok {| CommonPacketFormat.packets :=
                  [ {| DataAndAddressItem.type_id := [xb2; x00];
                       DataAndAddressItem.length := [x01; x00];
                       DataAndAddressItem.data := [x41] |}; null ];
                CommonPacketFormat.item_count := 1;
                CommonPacketFormat.packet_bytes := [xb2; x00; x05; x00; x41] |}).
Proof. cbv zeta. repeat split. Qed.

(** What a turn that raises nothing does to the variables of the loop. *)
Lemma next_item_inv (packet_bytes : pybytes) (c c' : CommonPacketFormat.cursor) :
  CommonPacketFormat.next_item packet_bytes c = Ok c' ->
  CommonPacketFormat.packet_offset c' =
    CommonPacketFormat.packet_offset c +
    int_from_bytes (slice packet_bytes (CommonPacketFormat.packet_offset c + 2)
                      (CommonPacketFormat.packet_offset c + 4)) + 4 /\
  CommonPacketFormat.packet_index c' = CommonPacketFormat.packet_index c + 1 /\
  length (CommonPacketFormat.slots c') = length (CommonPacketFormat.slots c).
Proof.
  unfold CommonPacketFormat.next_item.
  destruct (DataAndAddressItem.__init__ _ _) as [item |]; [| discriminate].
  cbn [res_bind]. unfold list_assign.
  destruct (_ && _); [| discriminate].
  cbn [res_bind]. intros [= <-]. cbn. now rewrite length_insert.
Qed.

Lemma after_items_inv (n : nat) (packet_bytes : pybytes) :
  forall c0 c : CommonPacketFormat.cursor,
  after_items n packet_bytes c0 = Some c ->
  0 <= CommonPacketFormat.packet_offset c0 ->
  0 <= CommonPacketFormat.packet_offset c /\
  CommonPacketFormat.packet_index c =
    CommonPacketFormat.packet_index c0 + Z.of_nat n /\
  length (CommonPacketFormat.slots c) = length (CommonPacketFormat.slots c0).
Proof.
  induction n as [| n IH]; intros c0 c Hn Ho.
  - injection Hn as <-. repeat split; [assumption | lia].
  - cbn [after_items] in Hn.
    destruct (CommonPacketFormat.more packet_bytes c0); [| discriminate].
    destruct (CommonPacketFormat.next_item packet_bytes c0) as [c1 |] eqn:Hturn;
      [| discriminate].
    apply next_item_inv in Hturn as (Hoff & Hidx & Hslots).
    pose proof (item_length_range packet_bytes _ Ho) as Hl.
    destruct (IH c1 c Hn ltac:(lia)) as (Ho' & Hidx' & Hslots').
    repeat split; [assumption | lia | congruence].
Qed.

Lemma while_after_items (n fuel : nat) (packet_bytes : pybytes) :
  forall c0 c : CommonPacketFormat.cursor,
  after_items n packet_bytes c0 = Some c ->
  while (n + fuel) (CommonPacketFormat.more packet_bytes)
    (CommonPacketFormat.next_item packet_bytes) c0 =
  while fuel (CommonPacketFormat.more packet_bytes)
    (CommonPacketFormat.next_item packet_bytes) c.
Proof.
  induction n as [| n IH]; intros c0 c Hn.
  - now injection Hn as <-.
  - cbn [after_items] in Hn. cbn [Nat.add while].
    destruct (CommonPacketFormat.more packet_bytes c0); [| discriminate].
    destruct (CommonPacketFormat.next_item packet_bytes c0) as [c1 |];
      [| discriminate].
    now apply IH.
Qed.

(** The loop of the decoder ends within as many turns as the buffer has
    bytes: every turn advances the offset by four bytes or more. *)
Lemma from_bytes_loop_ends (packet_bytes : pybytes) (fuel : nat) :
  forall c : CommonPacketFormat.cursor,
  0 <= CommonPacketFormat.packet_offset c ->
  len packet_bytes - CommonPacketFormat.packet_offset c <= Z.of_nat fuel ->
  is_Some (while fuel (CommonPacketFormat.more packet_bytes)
             (CommonPacketFormat.next_item packet_bytes) c).
Proof.
  induction fuel as [| fuel IH]; intros c Ho Hfuel.
  - rewrite while_done; [eauto |]. apply Z.ltb_ge. lia.
  - cbn [while].
    destruct (CommonPacketFormat.more packet_bytes c); [| eauto].
    destruct (CommonPacketFormat.next_item packet_bytes c) as [c1 | e] eqn:Hturn;
      [| eauto].
    apply next_item_inv in Hturn as (Hoff & _ & _).
    pose proof (item_length_range packet_bytes _ Ho) as Hl.
    apply IH; lia.
Qed.

Lemma from_bytes_ends (self : CommonPacketFormat.t) (buf : pybytes) :
  is_Some (CommonPacketFormat.from_bytes (length buf) self buf).
Proof.
  unfold CommonPacketFormat.from_bytes.
  destruct (from_bytes_loop_ends (slice_from buf 2) (length buf)
              {| CommonPacketFormat.packet_offset := 0;
                 CommonPacketFormat.packet_index := 0;
                 CommonPacketFormat.slots := CommonPacketFormat.packets self |})
    as [r Hr].
  - cbn. lia.
  - cbn [CommonPacketFormat.packet_offset]. rewrite len_slice_from by lia.
    unfold len. lia.
  - rewrite Hr. destruct r; eauto.
Qed.

(** C6, as the code has it: decoding iterates the data region advancing by
    4 + item_length per item and raises no error for an item whose
    declared length would read past the end of the buffer.  When the
    decoder has decoded [n] items, the four bytes of type and length of a
    further item are in the buffer, the data that the item declares are not
    all there, and the list of packets has a place for it, the turn of the
    loop for that item advances the offset by 4 + item_length, and the
    decoder returns with that item, which has the bytes that the buffer has
    left as its data, fewer than it declares. *)
Theorem CommonPacketFormat_truncated_item_yielded
    (n fuel : nat) (self : CommonPacketFormat.t) (buf : pybytes)
    (c : CommonPacketFormat.cursor) :
  after_items n (slice_from buf 2)
    {| CommonPacketFormat.packet_offset := 0;
       CommonPacketFormat.packet_index := 0;
       CommonPacketFormat.slots := CommonPacketFormat.packets self |} = Some c ->
  (n < length (CommonPacketFormat.packets self))%nat ->
  CommonPacketFormat.packet_offset c + 4 <= len (slice_from buf 2) ->
  len (slice_from buf 2) <
    CommonPacketFormat.packet_offset c + 4 +
    int_from_bytes (slice (slice_from buf 2) (CommonPacketFormat.packet_offset c + 2)
                      (CommonPacketFormat.packet_offset c + 4)) ->
  exists item,
    CommonPacketFormat.next_item (slice_from buf 2) c =
      Ok {| CommonPacketFormat.packet_offset :=
              CommonPacketFormat.packet_offset c +
              int_from_bytes
                (slice (slice_from buf 2) (CommonPacketFormat.packet_offset c + 2)
                   (CommonPacketFormat.packet_offset c + 4)) + 4;
            CommonPacketFormat.packet_index := Z.of_nat n + 1;
            CommonPacketFormat.slots :=
              <[n := item]> (CommonPacketFormat.slots c) |} /\
    CommonPacketFormat.from_bytes (n + S fuel) self buf =
      Some (Ok {| CommonPacketFormat.packets :=
                    <[n := item]> (CommonPacketFormat.slots c);
                  CommonPacketFormat.item_count := int_from_bytes (slice buf 0 2);
                  CommonPacketFormat.packet_bytes := slice_from buf 2 |}) /\
    DataAndAddressItem.type_id item =
      slice (slice_from buf 2) (CommonPacketFormat.packet_offset c)
        (CommonPacketFormat.packet_offset c + 2) /\
    DataAndAddressItem.data item =
      slice_from (slice_from buf 2) (CommonPacketFormat.packet_offset c + 4) /\
    len (DataAndAddressItem.data item) <
      int_from_bytes (slice (slice_from buf 2) (CommonPacketFormat.packet_offset c + 2)
                        (CommonPacketFormat.packet_offset c + 4)).
Proof.
  intros Hn Hplace Hhead Hpast.
  destruct (after_items_inv _ _ _ _ Hn ltac:(cbn; lia)) as (Ho & Hidx & Hslots).
  cbn [CommonPacketFormat.packet_index CommonPacketFormat.slots] in Hidx, Hslots.
  set (pb := slice_from buf 2) in *.
  set (o := CommonPacketFormat.packet_offset c) in *.
  set (l := int_from_bytes (slice pb (o + 2) (o + 4))) in *.
  pose proof (item_length_range pb o Ho) as Hl. fold l in Hl.
  pose proof (next_item_Ok pb c Ho ltac:(unfold len; lia)) as Hturn.
  cbv zeta in Hturn. fold o in Hturn. fold l in Hturn.
  replace (Z.to_nat (CommonPacketFormat.packet_index c)) with n in Hturn by lia.
  replace (CommonPacketFormat.packet_index c + 1) with (Z.of_nat n + 1) in Hturn
    by lia.
  assert (Hdata : slice pb (o + 4) (o + l + 4) = slice_from pb (o + 4)).
  { rewrite <- (slice_slice_from pb (o + 4) (o + l + 4)) by lia.
    rewrite (slice_from_short pb (o + l + 4)) by lia.
    now rewrite app_nil_r. }
  eexists. split; [exact Hturn |]. split; [| split; [| split]].
  - unfold CommonPacketFormat.from_bytes. fold pb.
    rewrite (while_after_items _ _ _ _ _ Hn).
    rewrite (while_step fuel (CommonPacketFormat.more pb) _ c _
               (proj2 (Z.ltb_lt o (len pb)) ltac:(lia)) Hturn).
    rewrite while_done; [reflexivity |].
    apply Z.ltb_ge. cbn. lia.
  - reflexivity.
  - cbn [DataAndAddressItem.data]. exact Hdata.
  - cbn [DataAndAddressItem.data]. rewrite Hdata.
    rewrite len_slice_from by lia. lia.
Qed.

Lemma CommonPacketFormat_truncated_item_yielded_witness :
  let buf := [x02; x00; x00; x00; x00; x00; xb2; x00; x05; x00; x41] in
  let null := {| DataAndAddressItem.type_id := [x00; x00];
                 DataAndAddressItem.length := [x00; x00];
                 DataAndAddressItem.data := [] |} in
  let self := {| CommonPacketFormat.packets := [null; null];
                 CommonPacketFormat.item_count := 2;
                 CommonPacketFormat.packet_bytes := [x00; x00; x00; x00;
                                                     x00; x00; x00; x00] |} in
  let c := {| CommonPacketFormat.packet_offset := 4;
              CommonPacketFormat.packet_index := 1;
              CommonPacketFormat.slots := [null; null] |} in
  (after_items 1 (slice_from buf 2)
     {| CommonPacketFormat.packet_offset := 0;
        CommonPacketFormat.packet_index := 0;
        CommonPacketFormat.slots := CommonPacketFormat.packets self |} = Some c /\
   (1 < length (CommonPacketFormat.packets self))%nat /\
   4 + 4 <= len (slice_from buf 2) /\
   len (slice_from buf 2) <
     4 + 4 + int_from_bytes (slice (slice_from buf 2) (4 + 2) (4 + 4))) /\
  exists item,
    CommonPacketFormat.next_item (slice_from buf 2) c =
      Ok {| CommonPacketFormat.packet_offset :=
              4 + int_from_bytes (slice (slice_from buf 2) (4 + 2) (4 + 4)) + 4;
            CommonPacketFormat.packet_index := Z.of_nat 1 + 1;
            CommonPacketFormat.slots := <[1%nat := item]> [null; null] |} /\
    CommonPacketFormat.from_bytes (1 + 1) self buf =
      Some (Ok {| CommonPacketFormat.packets := <[1%nat := item]> [null; null];
                  CommonPacketFormat.item_count := int_from_bytes (slice buf 0 2);
                  CommonPacketFormat.packet_bytes := slice_from buf 2 |}) /\
    DataAndAddressItem.type_id item = slice (slice_from buf 2) 4 (4 + 2) /\
    DataAndAddressItem.data item = slice_from (slice_from buf 2) (4 + 4) /\
    len (DataAndAddressItem.data item) <
      int_from_bytes (slice (slice_from buf 2) (4 + 2) (4 + 4)).
Proof.
  cbv zeta. split.
  - split; [reflexivity |]. split; [cbn; lia |].
    split; [vm_compute; discriminate | reflexivity].
  - apply (CommonPacketFormat_truncated_item_yielded 1 0
             {| CommonPacketFormat.packets :=
                  [ {| DataAndAddressItem.type_id := [x00; x00];
                       DataAndAddressItem.length := [x00; x00];
                       DataAndAddressItem.data := [] |};
                    {| DataAndAddressItem.type_id := [x00; x00];
                       DataAndAddressItem.length := [x00; x00];
                       DataAndAddressItem.data := [] |} ];
                CommonPacketFormat.item_count := 2;
                CommonPacketFormat.packet_bytes := [x00; x00; x00; x00;
                                                    x00; x00; x00; x00] |}
             [x02; x00; x00; x00; x00; x00; xb2; x00; x05; x00; x41]
             {| CommonPacketFormat.packet_offset := 4;
                CommonPacketFormat.packet_index := 1;
                CommonPacketFormat.slots :=
                  [ {| DataAndAddressItem.type_id := [x00; x00];
                       DataAndAddressItem.length := [x00; x00];
                       DataAndAddressItem.data := [] |};
                    {| DataAndAddressItem.type_id := [x00; x00];
                       DataAndAddressItem.length := [x00; x00];
                       DataAndAddressItem.data := [] |} ] |}).
    + reflexivity.
    + cbn. lia.
    + vm_compute. discriminate.
    + reflexivity.
Defined.

(** Two well-formed items are decoded into the two places that
    [CommonPacketFormat([])] has. *)
Lemma CommonPacketFormat_from_bytes_two_items :
  let null := {| DataAndAddressItem.type_id := [x00; x00];
                 DataAndAddressItem.length := [x00; x00];
                 DataAndAddressItem.data := [] |} in
  let reply_packet := {| CommonPacketFormat.packets := [null; null];
                         CommonPacketFormat.item_count := 2;
                         CommonPacketFormat.packet_bytes := [x00; x00; x00; x00;
                                                             x00; x00; x00; x00] |} in
  CommonPacketFormat.from_bytes 2 reply_packet
    [x02; x00; x00; x00; x00; x00; xb2; x00; x02; x00; xaa; xbb] =
    Some (Ok {| CommonPacketFormat.packets :=
                  [ null;
                    {| DataAndAddressItem.type_id := [xb2; x00];
                       DataAndAddressItem.length := [x02; x00];
                       DataAndAddressItem.data := [xaa; xbb] |} ];
                CommonPacketFormat.item_count := 2;
                CommonPacketFormat.packet_bytes :=
                  [x00; x00; x00; x00; xb2; x00; x02; x00; xaa; xbb] |}).
Proof. reflexivity. Qed.

(** C7: with three well-formed items in the buffer, a null address item, an
    unconnected message of two bytes and a sequenced address item of one
    byte, the decoder of [CommonPacketFormat([])] does not produce the
    three items.  The assignment of the third item to [packets[2]] raises
    [IndexError], whatever the number of turns the loop is given: with
    fewer than three it has not finished. *)
Theorem CommonPacketFormat_from_bytes_third_item :
  let buf := [x03; x00;
              x00; x00; x00; x00;
              xb2; x00; x02; x00; xaa; xbb;
              x02; x80; x01; x00; x07] in
  exists reply_packet,
    CommonPacketFormat.__init__ [] = Ok reply_packet /\
    len (CommonPacketFormat.packets reply_packet) = 2 /\
    CommonPacketFormat.from_bytes 2 reply_packet buf = None /\
    forall fuel, CommonPacketFormat.from_bytes (3 + fuel) reply_packet buf =
                 Some (Raise IndexError).
Proof.
  cbv zeta. eexists. split; [reflexivity |]. split; [reflexivity |].
  split; [reflexivity |]. intros fuel. reflexivity.
Qed.

(** ** Symbolic request paths *)

(** The path has an even number of bytes whenever it can be built. *)
Lemma tag_request_path_even (tag_name : str) (path : pybytes) :
  CIPRequest.tag_request_path tag_name = Ok path -> len path mod 2 = 0.
Proof.
  unfold CIPRequest.tag_request_path.
  destruct (to_bytes (len tag_name) 1) as [n |]; [| discriminate].
  destruct (encode_utf8 tag_name) as [name |]; [| discriminate].
  cbn [res_bind].
  destruct (Z.eqb_spec (len ([x91] ++ n ++ name) mod 2) 0) as [Heven | Hodd];
    cbn [negb]; intros Hp; injection Hp as <-.
  - exact Heven.
  - change (len (([x91] ++ n ++ name) ++ [x00]) mod 2 = 0).
    rewrite len_app. change (len [x00]) with 1.
    pose proof (Z.mod_pos_bound (len ([x91] ++ n ++ name)) 2 ltac:(lia)) as Hb.
    rewrite Z.add_mod by lia.
    replace (len ([x91] ++ n ++ name) mod 2) with 1 by lia.
    reflexivity.
Qed.

(** The second byte of the path is the number of code points of the name. *)
Lemma tag_request_path_length_byte (tag_name : str) (path : pybytes) :
  CIPRequest.tag_request_path tag_name = Ok path ->
  len tag_name <= 255 /\ path !! 1%nat = Some (byte_of_Z (len tag_name)).
Proof.
  unfold CIPRequest.tag_request_path.
  destruct (to_bytes (len tag_name) 1) as [n |] eqn:Hn; [| discriminate].
  apply to_bytes_inv in Hn as [Hrange ->].
  destruct (encode_utf8 tag_name) as [name |]; [| discriminate].
  cbn [res_bind]. change (256 ^ Z.of_nat 1) with 256 in Hrange.
  assert (Hmod : len tag_name mod 256 = len tag_name) by (apply Z.mod_small; lia).
  destruct (negb _); intros Hp; injection Hp as <-;
    (split; [lia | cbn; now rewrite Hmod]).
Qed.

Lemma encode_utf8_ascii (s : str) :
  Forall (fun c => 0 <= c < 128) s ->
  encode_utf8 s = Ok (map byte_of_Z s).
Proof.
  induction 1 as [| c r Hc _ IH]; [reflexivity |].
  cbn [encode_utf8 map]. unfold utf8_char.
  destruct (Z.ltb_spec c 0); [lia |].
  destruct (Z.ltb_spec 1114111 c); [lia |].
  destruct (Z.ltb_spec c 128); [| lia].
  cbn. now rewrite IH.
Qed.

(** For a name of ASCII characters the length byte is the number of bytes
    of the name. *)
Lemma tag_request_path_ascii (tag_name : str) (path name : pybytes) :
  Forall (fun c => 0 <= c < 128) tag_name ->
  CIPRequest.tag_request_path tag_name = Ok path ->
  encode_utf8 tag_name = Ok name ->
  path !! 1%nat = Some (byte_of_Z (len name)).
Proof.
  intros Hascii Hpath Hname.
  rewrite (encode_utf8_ascii _ Hascii) in Hname. injection Hname as <-.
  unfold len. rewrite length_map.
  exact (proj2 (tag_request_path_length_byte _ _ Hpath)).
Qed.

(** C9: the name of the single character U+00E9 is two bytes long in
    UTF-8, and the length byte of its path is 1, the number of
    characters, although the path is of even length. *)
Theorem tag_request_path_non_ascii_name :
  encode_utf8 [0xE9] = Ok [xc3; xa9] /\
  CIPRequest.tag_request_path [0xE9] = Ok [x91; x01; xc3; xa9].
Proof. split; reflexivity. Qed.

(** ** The session handle before registration *)

Section SessionHandle.
Variable Peer : Type.
Variable connect : str -> Peer -> bool * Peer.
Variable recv_after : pybytes -> Peer -> pybytes * Peer.

Lemma exec_keeps_session_handle (c : EIP.call) (sw : EIP.t * EIP.World Peer) :
  EIP.registers c = false ->
  EIP.session_handle_id (fst (EIP.exec Peer connect recv_after c sw)) =
  EIP.session_handle_id (fst sw).
Proof.
  intros Hc. destruct sw as [self w].
  destruct c; try discriminate; cbn [EIP.exec fst]; try reflexivity.
  unfold EIP.connect_explicit. destruct (connect host (EIP.peer w)). reflexivity.
Qed.

Lemma run_keeps_session_handle (calls : list EIP.call) (sw : EIP.t * EIP.World Peer) :
  Forall (fun c => EIP.registers c = false) calls ->
  EIP.session_handle_id (fst (EIP.run Peer connect recv_after calls sw)) =
  EIP.session_handle_id (fst sw).
Proof.
  intros Hcalls. revert sw.
  induction Hcalls as [| c calls Hc _ IH]; intros sw; [reflexivity |].
  cbn [EIP.run fold_left]. unfold EIP.run in IH. rewrite IH.
  now apply exec_keeps_session_handle.
Qed.

Lemma EIPMessage_init_Ok (command command_data session_handle_id : pybytes) :
  len command_data < 65536 ->
  EIPMessage.__init__ command command_data session_handle_id =
    Ok {| EIPMessage.command := command;
          EIPMessage.length := le_bytes 2 (len command_data);
          EIPMessage.session_handle_id := session_handle_id;
          EIPMessage.status := [x00; x00; x00; x00];
          EIPMessage.sender_context_data := [x00; x00; x00; x00; x00; x00; x00; x00];
          EIPMessage.command_options := [x00; x00; x00; x00];
          EIPMessage.command_data := command_data |}.
Proof.
  intros Hlen. unfold EIPMessage.__init__.
  rewrite to_bytes_Ok; [reflexivity |].
  pose proof (len_nonneg command_data). change (256 ^ Z.of_nat 2) with 65536. lia.
Qed.

(** What [send_rr_data] writes to the socket: the message it builds, when
    the client is connected. *)
Lemma send_rr_data_wire (fuel : nat) (self : EIP.t) (command_specific_data : pybytes)
    (w : EIP.World Peer) (eip_message : EIPMessage.t) :
  EIPMessage.__init__ [x6f; x00] command_specific_data (EIP.session_handle_id self) =
    Ok eip_message ->
  EIP.wire (snd (EIP.send_rr_data Peer recv_after fuel self command_specific_data w)) =
  EIP.wire w ++
  (if EIP.is_connected_explicit self then [EIPMessage.bytes eip_message] else []).
Proof.
  intros Hinit. unfold EIP.send_rr_data. rewrite Hinit.
  unfold EIP.send_command. change EIPMessage.default with
    (Ok {| EIPMessage.command := [x00; x00];
           EIPMessage.length := [x00; x00];
           EIPMessage.session_handle_id := [x00; x00; x00; x00];
           EIPMessage.status := [x00; x00; x00; x00];
           EIPMessage.sender_context_data := [x00; x00; x00; x00; x00; x00; x00; x00];
           EIPMessage.command_options := [x00; x00; x00; x00];
           EIPMessage.command_data := [] |}).
  change (CommonPacketFormat.__init__ []) with
    (Ok {| CommonPacketFormat.packets :=
             [ {| DataAndAddressItem.type_id := [x00; x00];
                  DataAndAddressItem.length := [x00; x00];
                  DataAndAddressItem.data := [] |};
               {| DataAndAddressItem.type_id := [x00; x00];
                  DataAndAddressItem.length := [x00; x00];
                  DataAndAddressItem.data := [] |} ];
           CommonPacketFormat.item_count := 2;
           CommonPacketFormat.packet_bytes :=
             [x00; x00; x00; x00; x00; x00; x00; x00] |}).
  destruct (EIP.is_connected_explicit self).
  - destruct (recv_after _ (EIP.peer w)) as [ready p]. reflexivity.
  - cbn [snd]. now rewrite app_nil_r.
Qed.

(** [register_session] ends the state of the constructor: the handle it
    stores is cut from bytes 4 to 8 of the reply, or is the four zero bytes
    of an empty message when the client is not connected. *)
Lemma register_session_handle (self : EIP.t) (command_data : pybytes)
    (w : EIP.World Peer) :
  len command_data < 65536 ->
  len (EIP.session_handle_id
         (snd (fst (EIP.register_session Peer recv_after self command_data w)))) <= 4.
Proof.
  intros Hlen. unfold EIP.register_session.
  rewrite (EIPMessage_init_Ok _ _ _ Hlen).
  unfold EIP.send_command. change EIPMessage.default with
    (Ok {| EIPMessage.command := [x00; x00];
           EIPMessage.length := [x00; x00];
           EIPMessage.session_handle_id := [x00; x00; x00; x00];
           EIPMessage.status := [x00; x00; x00; x00];
           EIPMessage.sender_context_data := [x00; x00; x00; x00; x00; x00; x00; x00];
           EIPMessage.command_options := [x00; x00; x00; x00];
           EIPMessage.command_data := [] |}).
  destruct (EIP.is_connected_explicit self).
  - destruct (recv_after _ (EIP.peer w)) as [ready p].
    cbn [fst snd EIP.session_handle_id EIPMessage.from_bytes
         EIPMessage.session_handle_id].
    rewrite len_slice by lia.
    match goal with |- context [len ?b] => pose proof (len_nonneg b) end. lia.
  - cbn [fst snd EIP.session_handle_id EIPMessage.session_handle_id].
    unfold len. cbn [length]. lia.
Qed.

(** C10: as long as no call of [register_session] has been made on a
    client since its construction, its session handle is the eight zero
    bytes of the constructor rather than four.  The message that
    [send_rr_data] then builds, and writes to the socket when the client is
    connected, serializes to a frame with 28 bytes before the payload
    instead of 24: the handle fills bytes 4 to 12, so that the status is at
    bytes 12 to 16, the sender context at bytes 16 to 24, the options at
    bytes 24 to 28, and the payload starts at byte 28. *)
Theorem send_rr_data_before_register_session
    (calls : list EIP.call) (w0 w : EIP.World Peer) (self : EIP.t)
    (fuel : nat) (command_specific_data : pybytes) :
  Forall (fun c => EIP.registers c = false) calls ->
  EIP.run Peer connect recv_after calls (EIP.__init__, w0) = (self, w) ->
  len command_specific_data < 65536 ->
  len (EIP.session_handle_id self) = 8 /\
  exists eip_message,
    EIPMessage.__init__ [x6f; x00] command_specific_data (EIP.session_handle_id self) =
      Ok eip_message /\
    EIP.wire (snd (EIP.send_rr_data Peer recv_after fuel self command_specific_data w)) =
      EIP.wire w ++
      (if EIP.is_connected_explicit self then [EIPMessage.bytes eip_message] else []) /\
    len (EIPMessage.bytes eip_message) = 28 + len command_specific_data /\
    slice (EIPMessage.bytes eip_message) 4 12 = EIP.session_handle_id self /\
    slice (EIPMessage.bytes eip_message) 12 16 = EIPMessage.status eip_message /\
    slice (EIPMessage.bytes eip_message) 16 24 =
      EIPMessage.sender_context_data eip_message /\
    slice (EIPMessage.bytes eip_message) 24 28 =
      EIPMessage.command_options eip_message /\
    slice_from (EIPMessage.bytes eip_message) 28 = command_specific_data.
Proof.
  intros Hcalls Hrun Hlen.
  pose proof (run_keeps_session_handle calls (EIP.__init__, w0) Hcalls) as Hkeep.
  rewrite Hrun in Hkeep. cbn [fst EIP.__init__ EIP.session_handle_id] in Hkeep.
  split; [rewrite Hkeep; reflexivity |].
  eexists. split; [apply (EIPMessage_init_Ok _ _ _ Hlen) |].
  split; [apply send_rr_data_wire, (EIPMessage_init_Ok _ _ _ Hlen) |].
  unfold EIPMessage.bytes.
  cbn [EIPMessage.command EIPMessage.length
       EIPMessage.session_handle_id EIPMessage.status
       EIPMessage.sender_context_data EIPMessage.command_options
       EIPMessage.command_data].
  rewrite Hkeep. cbn [le_bytes app].
  pose proof (len_nonneg command_specific_data) as Hn.
  assert (Hframe : forall b0 b1 b2 b3 b4 b5 b6 b7 b8 b9 b10 b11 b12 b13 b14 b15
                          b16 b17 b18 b19 b20 b21 b22 b23 b24 b25 b26 b27 : byte,
             len (b0 :: b1 :: b2 :: b3 :: b4 :: b5 :: b6 :: b7 :: b8 :: b9 ::
                  b10 :: b11 :: b12 :: b13 :: b14 :: b15 :: b16 :: b17 :: b18 ::
                  b19 :: b20 :: b21 :: b22 :: b23 :: b24 :: b25 :: b26 :: b27 ::
                  command_specific_data) = 28 + len command_specific_data).
  { intros. unfold len. cbn [length]. lia. }
  split; [apply Hframe |].
  repeat split.
  - rewrite slice_nonneg by lia. rewrite Hframe, !Z.min_l by lia. reflexivity.
  - rewrite slice_nonneg by lia. rewrite Hframe, !Z.min_l by lia. reflexivity.
  - rewrite slice_nonneg by lia. rewrite Hframe, !Z.min_l by lia. reflexivity.
  - rewrite slice_nonneg by lia. rewrite Hframe, !Z.min_l by lia. reflexivity.
  - rewrite slice_from_nonneg by lia. reflexivity.
Qed.
End SessionHandle.

Lemma send_rr_data_before_register_session_witness :
  let connect := fun (_ : str) (p : unit) => (true, p) in
  let recv_after := fun (_ : pybytes) (p : unit) => (@nil byte, p) in
  let calls := [EIP.Connect [49; 48; 46; 48; 46; 48; 46; 49]; EIP.ListServices] in
  let w0 := {| EIP.peer := tt; EIP.wire := [] |} in
  let self := fst (EIP.run unit connect recv_after calls (EIP.__init__, w0)) in
  let w := snd (EIP.run unit connect recv_after calls (EIP.__init__, w0)) in
  let command_specific_data := [x00; x00; x00; x00; x08; x00; x02; x00] in
  (Forall (fun c => EIP.registers c = false) calls /\
   len command_specific_data < 65536) /\
  len (EIP.session_handle_id self) = 8 /\
  exists eip_message,
    EIPMessage.__init__ [x6f; x00] command_specific_data (EIP.session_handle_id self) =
      Ok eip_message /\
    EIP.wire (snd (EIP.send_rr_data unit recv_after 1 self command_specific_data w)) =
      EIP.wire w ++
      (if EIP.is_connected_explicit self then [EIPMessage.bytes eip_message] else []) /\
    len (EIPMessage.bytes eip_message) = 28 + len command_specific_data /\
    slice (EIPMessage.bytes eip_message) 4 12 = EIP.session_handle_id self /\
    slice (EIPMessage.bytes eip_message) 12 16 = EIPMessage.status eip_message /\
    slice (EIPMessage.bytes eip_message) 16 24 =
      EIPMessage.sender_context_data eip_message /\
    slice (EIPMessage.bytes eip_message) 24 28 =
      EIPMessage.command_options eip_message /\
    slice_from (EIPMessage.bytes eip_message) 28 = command_specific_data.
Proof.
  cbv zeta. split.
  - split; [repeat constructor | reflexivity].
  - apply (send_rr_data_before_register_session unit
             (fun _ p => (true, p)) (fun _ p => ([], p))
             [EIP.Connect [49; 48; 46; 48; 46; 48; 46; 49]; EIP.ListServices]
             {| EIP.peer := tt; EIP.wire := [] |}).
    + repeat constructor.
    + reflexivity.
    + reflexivity.
Defined.

(** The frame of a first [send_rr_data] on a connected client, after the
    frame of [list_services]: 36 bytes for a payload of 8. *)
Lemma send_rr_data_first_frame :
  EIP.wire
    (snd (EIP.run unit (fun _ p => (true, p)) (fun _ p => ([], p))
            [ EIP.Connect [49; 48; 46; 48; 46; 48; 46; 49];
              EIP.SendRRData 1 [x00; x00; x00; x00; x08; x00; x02; x00] ]
            (EIP.__init__, {| EIP.peer := tt; EIP.wire := [] |}))) =
  [ [x6f; x00; x08; x00] ++
    [x00; x00; x00; x00; x00; x00; x00; x00] ++
    [x00; x00; x00; x00] ++
    [x00; x00; x00; x00; x00; x00; x00; x00] ++
    [x00; x00; x00; x00] ++
    [x00; x00; x00; x00; x08; x00; x02; x00] ].
Proof. reflexivity. Qed.

(** ** Segmented transfers *)

Section Transfers.
Variable Value : Type.
Variable from_value : Value -> CIPDataType -> res CIPDataType.
Variable from_bytes : pybytes -> CIPDataType -> res CIPDataType.
Variable value : CIPDataType -> res Value.
Variable data_type_code : CIPClass -> pybytes.
Variable variable_request_path_segment : str -> res pybytes.
Variable Controller : Type.
Variable read_tag_reply : pybytes -> Controller -> CIPReply.t * Controller.
Variable write_tag_reply :
  pybytes -> pybytes -> pybytes -> Controller -> CIPReply.t * Controller.

Local Abbreviation World := (NSeriesEIP.World Controller).
Local Abbreviation read_chunk :=
  (NSeriesEIP.read_chunk variable_request_path_segment Controller read_tag_reply).
Local Abbreviation _multi_message_variable_read :=
  (NSeriesEIP._multi_message_variable_read Value value
     variable_request_path_segment Controller read_tag_reply).

Lemma chunks_spec (s c : Z) :
  0 < s -> 0 < c ->
  c * (Z.of_nat (chunks s c) - 1) < s <= c * Z.of_nat (chunks s c).
Proof.
  intros Hs Hc. unfold chunks.
  assert (Hq : 0 <= (s + c - 1) / c) by (apply Z.div_pos; lia).
  rewrite Z2Nat.id by assumption.
  pose proof (Z.div_mod (s + c - 1) c ltac:(lia)) as Hdm.
  pose proof (Z.mod_pos_bound (s + c - 1) c Hc) as Hm.
  nia.
Qed.

Lemma SimpleDataSegmentRequest_bytes_Ok (offset size : Z) :
  0 <= offset < 2 ^ 32 -> 0 <= size < 65536 ->
  SimpleDataSegmentRequest.bytes (SimpleDataSegmentRequest.__init__ offset size) =
    Ok (segment_bytes offset size).
Proof.
  intros Ho Hs. unfold SimpleDataSegmentRequest.bytes, SimpleDataSegmentRequest.__init__.
  cbn [SimpleDataSegmentRequest.offset SimpleDataSegmentRequest.size
       SimpleDataSegmentRequest.simple_data_type_code
       SimpleDataSegmentRequest.segment_length].
  rewrite (struct_pack_Ok 4) by (change (256 ^ Z.of_nat 4) with (2 ^ 32); lia).
  rewrite (struct_pack_Ok 2) by (change (256 ^ Z.of_nat 2) with 65536; lia).
  reflexivity.
Qed.

(** The size that a turn of a transfer loop asks for. *)
Lemma chunk_size_min (s o c : Z) :
  (if s - o >? c then c else s - o) = Z.min (s - o) c.
Proof. destruct (Z.gtb_spec (s - o) c); lia. Qed.

(** One turn of the read loop: one read request for the chunk at the
    offset, and the offset advanced by the full chunk ceiling. *)
Lemma read_chunk_turn (o : CIPDataType) (burn : Z) (path : pybytes)
    (s : NSeriesEIP.read_state) (w : World) :
  variable_request_path_segment (variable_name o) = Ok path ->
  0 <= NSeriesEIP.r_offset s < size o -> size o < 2 ^ 32 ->
  exists d c,
    read_chunk o (NSeriesEIP.MAXIMUM_LENGTH - 8) burn s w =
      (Some (Ok {| NSeriesEIP.r_offset := NSeriesEIP.r_offset s + 494;
                   NSeriesEIP.r_data := d |}),
       {| NSeriesEIP.controller := c;
          NSeriesEIP.sent :=
            NSeriesEIP.sent w ++
            [NSeriesEIP.ReadTag
               (path ++ segment_bytes (NSeriesEIP.r_offset s)
                          (Z.min (size o - NSeriesEIP.r_offset s) 494))] |}).
Proof.
  intros Hpath Hoff Hsize.
  unfold NSeriesEIP.read_chunk, NSeriesEIP._simple_data_segment_read,
    NSeriesEIP.bind, NSeriesEIP.lift, NSeriesEIP.ret, NSeriesEIP.read_tag_service.
  change (NSeriesEIP.MAXIMUM_LENGTH - 8) with 494.
  rewrite Hpath, chunk_size_min.
  rewrite SimpleDataSegmentRequest_bytes_Ok by lia.
  destruct (read_tag_reply _ (NSeriesEIP.controller w)) as [reply c].
  eexists _, c. reflexivity.
Qed.

Lemma whileM_done {S : Type} (fuel : nat) (cond : S -> bool)
    (body : S -> NSeriesEIP.M Controller S) (s : S) (w : World) :
  cond s = false ->
  NSeriesEIP.whileM Controller fuel cond body s w = (Some (Ok s), w).
Proof. intros Hc. destruct fuel; cbn [NSeriesEIP.whileM]; now rewrite Hc. Qed.

Lemma whileM_turn {S : Type} (fuel : nat) (cond : S -> bool)
    (body : S -> NSeriesEIP.M Controller S) (s s' : S) (w w' : World) :
  cond s = true -> body s w = (Some (Ok s'), w') ->
  NSeriesEIP.whileM Controller (Datatypes.S fuel) cond body s w =
  NSeriesEIP.whileM Controller fuel cond body s' w'.
Proof.
  intros Hc Hb. cbn [NSeriesEIP.whileM]. rewrite Hc.
  unfold NSeriesEIP.bind. now rewrite Hb.
Qed.

Lemma whileM_raise {S : Type} (fuel : nat) (cond : S -> bool)
    (body : S -> NSeriesEIP.M Controller S) (s : S) (e : exn) (w w' : World) :
  cond s = true -> body s w = (Some (Raise e), w') ->
  NSeriesEIP.whileM Controller (Datatypes.S fuel) cond body s w =
  (Some (Raise e), w').
Proof.
  intros Hc Hb. cbn [NSeriesEIP.whileM]. rewrite Hc.
  unfold NSeriesEIP.bind. now rewrite Hb.
Qed.

Lemma whileM_out {S : Type} (cond : S -> bool)
    (body : S -> NSeriesEIP.M Controller S) (s : S) (w : World) :
  cond s = true ->
  NSeriesEIP.whileM Controller 0 cond body s w = (None, w).
Proof. intros Hc. cbn [NSeriesEIP.whileM]. now rewrite Hc. Qed.

Section ReadLoop.
Variable o : CIPDataType.
Variable burn : Z.
Variable path : pybytes.
Hypothesis Hpath : variable_request_path_segment (variable_name o) = Ok path.
Hypothesis Hsize : 0 < size o < 2 ^ 32.

Lemma read_more_iff (k : nat) (d : pybytes) :
  NSeriesEIP.read_more o {| NSeriesEIP.r_offset := 494 * Z.of_nat k;
                            NSeriesEIP.r_data := d |} = true <->
  (k < chunks (size o) 494)%nat.
Proof.
  unfold NSeriesEIP.read_more. cbn [NSeriesEIP.r_offset].
  pose proof (chunks_spec (size o) 494 ltac:(lia) ltac:(lia)) as Hn.
  rewrite Z.ltb_lt. split; intros Hk; nia.
Qed.

(** With enough turns allowed the loop ends, after one request per chunk
    that is left, at the offset of the first chunk past the end. *)
Lemma read_loop_ends (m : nat) :
  forall (k fuel : nat) (d : pybytes) (w : World),
  (k + m = chunks (size o) 494)%nat -> (m <= fuel)%nat ->
  exists d' w',
    NSeriesEIP.whileM Controller fuel (NSeriesEIP.read_more o)
      (read_chunk o (NSeriesEIP.MAXIMUM_LENGTH - 8) burn)
      {| NSeriesEIP.r_offset := 494 * Z.of_nat k; NSeriesEIP.r_data := d |} w =
      (Some (Ok {| NSeriesEIP.r_offset := 494 * Z.of_nat (k + m);
                   NSeriesEIP.r_data := d' |}), w') /\
    NSeriesEIP.sent w' =
      NSeriesEIP.sent w ++ map (read_request path (size o) 494) (seq k m).
Proof.
  induction m as [| m IH]; intros k fuel d w Hkm Hfuel.
  - exists d, w. split.
    + rewrite Nat.add_0_r. apply whileM_done.
      apply not_true_is_false. rewrite read_more_iff. lia.
    + cbn. now rewrite app_nil_r.
  - destruct fuel as [| fuel]; [lia |].
    assert (Hk : (k < chunks (size o) 494)%nat) by lia.
    pose proof (proj2 (read_more_iff k d) Hk) as Hmore.
    assert (Hoff : 0 <= 494 * Z.of_nat k < size o).
    { unfold NSeriesEIP.read_more in Hmore. cbn in Hmore.
      apply Z.ltb_lt in Hmore. lia. }
    destruct (read_chunk_turn o burn path
                {| NSeriesEIP.r_offset := 494 * Z.of_nat k; NSeriesEIP.r_data := d |}
                w Hpath Hoff (proj2 Hsize)) as (d1 & c1 & Hturn).
    cbn [NSeriesEIP.r_offset] in Hturn.
    replace (494 * Z.of_nat k + 494) with (494 * Z.of_nat (S k)) in Hturn by lia.
    rewrite (whileM_turn _ _ _ _ _ _ _ Hmore Hturn).
    set (w1 := {| NSeriesEIP.controller := c1; NSeriesEIP.sent := _ |}).
    destruct (IH (S k) fuel d1 w1 ltac:(lia) ltac:(lia)) as (d' & w' & Hloop & Hsent).
    exists d', w'. split.
    + replace (k + S m)%nat with (S k + m)%nat by lia. exact Hloop.
    + rewrite Hsent. unfold w1. cbn [NSeriesEIP.sent seq map].
      rewrite <- app_assoc. reflexivity.
Qed.

(** With fewer turns allowed than chunks are left the loop has not ended. *)
Lemma read_loop_short (fuel : nat) :
  forall (k m : nat) (d : pybytes) (w : World),
  (k + m = chunks (size o) 494)%nat -> (fuel < m)%nat ->
  fst (NSeriesEIP.whileM Controller fuel (NSeriesEIP.read_more o)
         (read_chunk o (NSeriesEIP.MAXIMUM_LENGTH - 8) burn)
         {| NSeriesEIP.r_offset := 494 * Z.of_nat k; NSeriesEIP.r_data := d |} w) = None.
Proof.
  induction fuel as [| fuel IH]; intros k m d w Hkm Hfuel;
    assert (Hk : (k < chunks (size o) 494)%nat) by lia;
    pose proof (proj2 (read_more_iff k d) Hk) as Hmore.
  - now rewrite whileM_out.
  - assert (Hoff : 0 <= 494 * Z.of_nat k < size o).
    { unfold NSeriesEIP.read_more in Hmore. cbn in Hmore.
      apply Z.ltb_lt in Hmore. lia. }
    destruct (read_chunk_turn o burn path
                {| NSeriesEIP.r_offset := 494 * Z.of_nat k; NSeriesEIP.r_data := d |}
                w Hpath Hoff (proj2 Hsize)) as (d1 & c1 & Hturn).
    cbn [NSeriesEIP.r_offset] in Hturn.
    replace (494 * Z.of_nat k + 494) with (494 * Z.of_nat (S k)) in Hturn by lia.
    rewrite (whileM_turn _ _ _ _ _ _ _ Hmore Hturn).
    destruct m as [| m]; [lia |].
    apply (IH (S k) m); lia.
Qed.
End ReadLoop.

Lemma bind_fst_None {A B : Type} (m : NSeriesEIP.M Controller A)
    (k : A -> NSeriesEIP.M Controller B) (w : World) :
  fst (m w) = None -> fst (NSeriesEIP.bind Controller m k w) = None.
Proof.
  unfold NSeriesEIP.bind. destruct (m w) as [[[a | e] |] w']; cbn; congruence.
Qed.

(** C3: for every variable of declared size S > 0, a size that fits the
    four bytes of the offset of a request, the segmented read loop, with
    chunk ceiling C = 502 - 8 = 494, performs exactly ceil(S / C) read
    round trips: it ends when allowed that many turns and has not ended
    when allowed one fewer.  Round trip i, from 0, requests min(S - i * C, C)
    bytes at offset i * C, so the offset advances by C after every round
    trip, whatever the chunk requested, and is ceil(S / C) * C when the loop
    ends. *)
Theorem multi_message_variable_read_round_trips
    (o : CIPDataType) (path : pybytes) (fuel : nat) (w : World) :
  variable_request_path_segment (variable_name o) = Ok path ->
  0 < size o < 2 ^ 32 ->
  (chunks (size o) 494 <= fuel)%nat ->
  NSeriesEIP.MAXIMUM_LENGTH - 8 = 494 /\
  is_Some (fst (_multi_message_variable_read fuel o 0 w)) /\
  NSeriesEIP.sent (snd (_multi_message_variable_read fuel o 0 w)) =
    NSeriesEIP.sent w ++
    map (read_request path (size o) 494) (seq 0 (chunks (size o) 494)) /\
  (exists d w',
     NSeriesEIP.whileM Controller fuel (NSeriesEIP.read_more o)
       (read_chunk o (NSeriesEIP.MAXIMUM_LENGTH - 8)
          match cls o with CIPString => 2 | _ => 0 end)
       {| NSeriesEIP.r_offset := 0; NSeriesEIP.r_data := [] |} w =
     (Some (Ok {| NSeriesEIP.r_offset := 494 * Z.of_nat (chunks (size o) 494);
                  NSeriesEIP.r_data := d |}), w')) /\
  fst (_multi_message_variable_read (chunks (size o) 494 - 1) o 0 w) = None.
Proof.
  intros Hpath Hsize Hfuel.
  set (burn := match cls o with CIPString => 2 | _ => 0 end).
  destruct (read_loop_ends o burn path Hpath Hsize (chunks (size o) 494)
              0%nat fuel [] w eq_refl Hfuel) as (d & w' & Hloop & Hsent).
  change (494 * Z.of_nat 0) with 0 in Hloop. cbn [Nat.add] in Hloop.
  split; [reflexivity |].
  assert (Hrun : exists r,
             _multi_message_variable_read fuel o 0 w = (Some r, w')).
  { unfold NSeriesEIP._multi_message_variable_read, NSeriesEIP.bind.
    fold burn. rewrite Hloop. unfold NSeriesEIP.lift, NSeriesEIP.ret.
    destruct (value _); eexists; reflexivity. }
  destruct Hrun as [r Hrun].
  split; [rewrite Hrun; cbn; eauto |].
  split; [rewrite Hrun; exact Hsent |].
  split; [exists d, w'; exact Hloop |].
  unfold NSeriesEIP._multi_message_variable_read. apply bind_fst_None.
  fold burn.
  pose proof (chunks_spec (size o) 494 ltac:(lia) ltac:(lia)) as Hn.
  change 0 with (494 * Z.of_nat 0) at 1.
  apply (read_loop_short o burn path Hpath Hsize _ 0%nat (chunks (size o) 494));
    lia.
Qed.

Local Abbreviation write_chunk :=
  (NSeriesEIP.write_chunk data_type_code variable_request_path_segment
     Controller write_tag_reply).
Local Abbreviation _multi_message_variable_write :=
  (NSeriesEIP._multi_message_variable_write Value from_value data_type_code
     variable_request_path_segment Controller write_tag_reply).

Lemma Zsum_app (l1 l2 : list Z) : Zsum (l1 ++ l2) = Zsum l1 + Zsum l2.
Proof. unfold Zsum. induction l1 as [| x l1 IH]; cbn; [reflexivity | rewrite IH; lia]. Qed.

(** Every chunk before the last is a full chunk. *)
Lemma chunk_size_full (s c : Z) (i : nat) :
  0 < s -> 0 < c -> (S i < chunks s c)%nat -> chunk_size s c i = c.
Proof.
  intros Hs Hc Hi. pose proof (chunks_spec s c Hs Hc) as Hn.
  unfold chunk_size. apply Z.min_r. nia.
Qed.

Lemma chunk_size_last (s c : Z) (i : nat) :
  0 < s -> 0 < c -> S i = chunks s c -> chunk_size s c i = s - c * Z.of_nat i.
Proof.
  intros Hs Hc Hi. pose proof (chunks_spec s c Hs Hc) as Hn.
  unfold chunk_size. apply Z.min_l. nia.
Qed.

Lemma chunk_size_range (s c : Z) (i : nat) :
  0 < s -> 0 < c -> (i < chunks s c)%nat -> 0 < chunk_size s c i <= c.
Proof.
  intros Hs Hc Hi. pose proof (chunks_spec s c Hs Hc) as Hn.
  unfold chunk_size. split; [apply Z.min_glb_lt; nia | apply Z.le_min_r].
Qed.

Lemma Zsum_full_chunks (s c : Z) (k : nat) :
  0 < s -> 0 < c -> (k < chunks s c)%nat ->
  Zsum (map (chunk_size s c) (seq 0 k)) = c * Z.of_nat k.
Proof.
  intros Hs Hc. induction k as [| k IH]; intros Hk; [cbn; lia |].
  rewrite seq_S, map_app, Zsum_app, IH by lia. cbn [Nat.add map Zsum fold_right].
  rewrite chunk_size_full by (assumption || lia). lia.
Qed.

(** The declared sizes of the chunks add up to the declared size. *)
Lemma Zsum_chunk_sizes (s c : Z) :
  0 < s -> 0 < c -> Zsum (map (chunk_size s c) (seq 0 (chunks s c))) = s.
Proof.
  intros Hs Hc. pose proof (chunks_spec s c Hs Hc) as Hn.
  destruct (chunks s c) as [| k] eqn:Hk; [lia |].
  rewrite seq_S, map_app, Zsum_app, Zsum_full_chunks by (assumption || lia).
  cbn [Nat.add map Zsum fold_right].
  rewrite chunk_size_last by (assumption || lia). lia.
Qed.

Section WriteLoop.
Variable o : CIPDataType.
Variable path : pybytes.
Hypothesis Hpath : variable_request_path_segment (variable_name o) = Ok path.
Hypothesis Hsize : 0 < size o < 2 ^ 32.
Hypothesis Hcls : cls o = CIPString \/ cls o = CIPArray.

Lemma write_more_iff (k : nat) :
  NSeriesEIP.write_more o (400 * Z.of_nat k) = true <->
  (k < chunks (size o) 400)%nat.
Proof.
  unfold NSeriesEIP.write_more.
  pose proof (chunks_spec (size o) 400 ltac:(lia) ltac:(lia)) as Hn.
  rewrite Z.ltb_lt. split; intros Hk; nia.
Qed.

(** One turn of the write loop: one write request for the chunk at the
    offset, and the offset advanced by the full chunk ceiling. *)
Lemma write_chunk_turn (k : nat) (w : World) :
  (k < chunks (size o) 400)%nat ->
  exists c,
    write_chunk o 400 (400 * Z.of_nat k) w =
      (Some (Ok (400 * Z.of_nat k + 400)),
       {| NSeriesEIP.controller := c;
          NSeriesEIP.sent :=
            NSeriesEIP.sent w ++ [write_request data_type_code o path 400 k] |}).
Proof.
  intros Hk.
  pose proof (chunk_size_range (size o) 400 k ltac:(lia) ltac:(lia) Hk) as Hchunk.
  pose proof (chunks_spec (size o) 400 ltac:(lia) ltac:(lia)) as Hn.
  assert (Hoff : 0 <= 400 * Z.of_nat k < size o) by nia.
  unfold NSeriesEIP.write_chunk, NSeriesEIP._simple_data_segment_write,
    NSeriesEIP.bind, NSeriesEIP.lift, NSeriesEIP.ret, NSeriesEIP.raise,
    NSeriesEIP.write_tag_service, write_request.
  rewrite Hpath, chunk_size_min. fold (chunk_size (size o) 400 k).
  rewrite SimpleDataSegmentRequest_bytes_Ok by lia.
  fold (chunk_data o 400 k).
  assert (Hlen : 0 <= len (chunk_data o 400 k) < 65536).
  { unfold chunk_data. rewrite len_slice by lia.
    pose proof (len_nonneg (data o)). lia. }
  destruct (bool_decide (data_type_code (cls o) = data_type_code CIPString)) eqn:Hs.
  - rewrite struct_pack_Ok by (change (256 ^ Z.of_nat 2) with 65536; lia).
    destruct (write_tag_reply _ _ _ (NSeriesEIP.controller w)) as [reply c].
    exists c. reflexivity.
  - destruct Hcls as [Hstr | Harr].
    + rewrite Hstr in Hs. now rewrite bool_decide_eq_true_2 in Hs.
    + rewrite Harr. rewrite bool_decide_eq_true_2 by reflexivity.
      destruct (write_tag_reply _ _ _ (NSeriesEIP.controller w)) as [reply c].
      exists c. reflexivity.
Qed.

Lemma write_loop_ends (m : nat) :
  forall (k fuel : nat) (w : World),
  (k + m = chunks (size o) 400)%nat -> (m <= fuel)%nat ->
  exists w',
    NSeriesEIP.whileM Controller fuel (NSeriesEIP.write_more o)
      (write_chunk o 400) (400 * Z.of_nat k) w =
      (Some (Ok (400 * Z.of_nat (k + m))), w') /\
    NSeriesEIP.sent w' =
      NSeriesEIP.sent w ++ map (write_request data_type_code o path 400) (seq k m).
Proof.
  induction m as [| m IH]; intros k fuel w Hkm Hfuel.
  - exists w. split.
    + rewrite Nat.add_0_r. apply whileM_done.
      apply not_true_is_false. rewrite write_more_iff. lia.
    + cbn. now rewrite app_nil_r.
  - destruct fuel as [| fuel]; [lia |].
    assert (Hk : (k < chunks (size o) 400)%nat) by lia.
    destruct (write_chunk_turn k w Hk) as (c1 & Hturn).
    replace (400 * Z.of_nat k + 400) with (400 * Z.of_nat (S k)) in Hturn by lia.
    rewrite (whileM_turn _ _ _ _ _ _ _ (proj2 (write_more_iff k) Hk) Hturn).
    set (w1 := {| NSeriesEIP.controller := c1; NSeriesEIP.sent := _ |}).
    destruct (IH (S k) fuel w1 ltac:(lia) ltac:(lia)) as (w' & Hloop & Hsent).
    exists w'. split.
    + replace (k + S m)%nat with (S k + m)%nat by lia. exact Hloop.
    + rewrite Hsent. unfold w1. cbn [NSeriesEIP.sent seq map].
      rewrite <- app_assoc. reflexivity.
Qed.
End WriteLoop.

(** C4, as the code has it: for every segmented write of a string or array
    value whose declared size S > 0 fits the four bytes of the offset of a
    request, the write loop uses a fixed chunk ceiling of 400 bytes.  It
    makes ceil(S / 400) write requests; request i, from 0, is for offset
    400 * i, so the offset advances by 400 each iteration whatever the
    size of the chunk, and declares min(S - 400 * i, 400) bytes.  Every
    chunk except the last declares exactly 400 bytes and carries the bytes
    of the serialized data from its offset up to 400 of them: as many as
    the data has there, which is 400 only where the serialized data reach
    that far.  The declared sizes of all chunks add up to S. *)
Theorem multi_message_variable_write_chunks
    (o o' : CIPDataType) (v : Value) (path : pybytes) (fuel : nat) (w : World) :
  from_value v o = Ok o' ->
  cls o' = CIPString \/ cls o' = CIPArray ->
  variable_request_path_segment (variable_name o') = Ok path ->
  0 < size o' < 2 ^ 32 ->
  (chunks (size o') 400 <= fuel)%nat ->
  is_Some (fst (_multi_message_variable_write fuel o v 0 w)) /\
  NSeriesEIP.sent (snd (_multi_message_variable_write fuel o v 0 w)) =
    NSeriesEIP.sent w ++
    map (write_request data_type_code o' path 400) (seq 0 (chunks (size o') 400)) /\
  Forall (fun i =>
            chunk_size (size o') 400 i = 400 /\
            len (chunk_data o' 400 i) =
              Z.min 400 (Z.max 0 (len (data o') - 400 * Z.of_nat i)))
    (seq 0 (chunks (size o') 400 - 1)) /\
  Zsum (map (chunk_size (size o') 400) (seq 0 (chunks (size o') 400))) = size o' /\
  exists w',
    NSeriesEIP.whileM Controller fuel (NSeriesEIP.write_more o')
      (write_chunk o' 400) 0 w =
    (Some (Ok (400 * Z.of_nat (chunks (size o') 400))), w').
Proof.
  intros Hfrom Hcls Hpath Hsize Hfuel.
  destruct (write_loop_ends o' path Hpath Hsize Hcls (chunks (size o') 400)
              0%nat fuel w eq_refl Hfuel) as (w' & Hloop & Hsent).
  change (400 * Z.of_nat 0) with 0 in Hloop. cbn [Nat.add] in Hloop.
  assert (Hrun : _multi_message_variable_write fuel o v 0 w = (Some (Ok o'), w')).
  { unfold NSeriesEIP._multi_message_variable_write, NSeriesEIP.bind, NSeriesEIP.lift.
    rewrite Hfrom, Hloop. reflexivity. }
  rewrite Hrun. cbn [fst snd].
  split; [eauto |]. split; [exact Hsent |]. split; [| split].
  - apply Forall_forall. intros i Hi. apply elem_of_seq in Hi.
    assert (Hfull : chunk_size (size o') 400 i = 400).
    { apply chunk_size_full; lia. }
    split; [exact Hfull |].
    unfold chunk_data. rewrite Hfull, len_slice by lia.
    pose proof (len_nonneg (data o')). lia.
  - apply Zsum_chunk_sizes; lia.
  - exists w'. exact Hloop.
Qed.
End Transfers.

(** A string of declared size 1000 holds the five bytes of HELLO.  The
    write takes three chunks, and the first, which is not the last,
    carries the five bytes that the serialized data has, after the two
    bytes of their length, not 400. *)
Lemma multi_message_variable_write_short_data :
  let o := Sample.variable CIPString 1000 in
  let hello := [x48; x45; x4c; x4c; x4f] in
  let path := [x91; x01; x53; x00] in
  Sample.from_value hello o = Ok (NSeriesEIP.with_data o hello) /\
  NSeriesEIP._multi_message_variable_write pybytes Sample.from_value
    Sample.data_type_code Sample.variable_request_path_segment unit
    Sample.write_tag_reply 3 o hello 0 Sample.world =
    (Some (Ok (NSeriesEIP.with_data o hello)),
     {| NSeriesEIP.controller := tt;
        NSeriesEIP.sent :=
          [ NSeriesEIP.WriteTag
              (path ++ [x80; x03; x00; x00; x00; x00; x90; x01])
              [xd0] ([x05; x00] ++ hello);
            NSeriesEIP.WriteTag
              (path ++ [x80; x03; x90; x01; x00; x00; x90; x01])
              [xd0] [x00; x00];
            NSeriesEIP.WriteTag
              (path ++ [x80; x03; x20; x03; x00; x00; xc8; x00])
              [xd0] [x00; x00] ] |}).
Proof. cbv zeta. split; reflexivity. Qed.

(** The same five bytes written to a string of declared size 12 go in one
    chunk, which declares 12 bytes and carries the length and the five. *)
Lemma multi_message_variable_write_hello :
  NSeriesEIP.sent
    (snd (NSeriesEIP._multi_message_variable_write pybytes Sample.from_value
            Sample.data_type_code Sample.variable_request_path_segment unit
            Sample.write_tag_reply 1 (Sample.variable CIPString 12)
            [x48; x45; x4c; x4c; x4f] 0 Sample.world)) =
  [ NSeriesEIP.WriteTag
      ([x91; x01; x53; x00] ++ [x80; x03; x00; x00; x00; x00; x0c; x00])
      [xd0] [x05; x00; x48; x45; x4c; x4c; x4f] ].
Proof. reflexivity. Qed.

(** A structure is sent to the segmented write by [write_variable], and
    its first chunk raises [UnboundLocalError] with no request made: the
    chunk is passed on for strings and for arrays only. *)
Lemma multi_message_variable_write_structure :
  NSeriesEIP._multi_message_variable_write pybytes Sample.from_value
    Sample.data_type_code Sample.variable_request_path_segment unit
    Sample.write_tag_reply 1 (Sample.variable CIPStructure 8)
    [x01; x00; x02; x00; x03; x00; x04; x00] 0 Sample.world =
  (Some (Raise UnboundLocalError), Sample.world).
Proof. reflexivity. Qed.

Lemma multi_message_variable_write_chunks_witness :
  let o := Sample.variable CIPArray 900 in
  let v := repeat x2a 900 in
  let o' := NSeriesEIP.with_data o v in
  let path := [x91; x01; x53; x00] in
  (Sample.from_value v o = Ok o' /\
   (cls o' = CIPString \/ cls o' = CIPArray) /\
   Sample.variable_request_path_segment (variable_name o') = Ok path /\
   0 < size o' < 2 ^ 32 /\
   (chunks (size o') 400 <= 3)%nat) /\
  (is_Some (fst (NSeriesEIP._multi_message_variable_write pybytes Sample.from_value
                   Sample.data_type_code Sample.variable_request_path_segment unit
                   Sample.write_tag_reply 3 o v 0 Sample.world)) /\
   NSeriesEIP.sent
     (snd (NSeriesEIP._multi_message_variable_write pybytes Sample.from_value
             Sample.data_type_code Sample.variable_request_path_segment unit
             Sample.write_tag_reply 3 o v 0 Sample.world)) =
     NSeriesEIP.sent Sample.world ++
     map (write_request Sample.data_type_code o' path 400)
       (seq 0 (chunks (size o') 400)) /\
   Forall (fun i =>
             chunk_size (size o') 400 i = 400 /\
             len (chunk_data o' 400 i) =
               Z.min 400 (Z.max 0 (len (data o') - 400 * Z.of_nat i)))
     (seq 0 (chunks (size o') 400 - 1)) /\
   Zsum (map (chunk_size (size o') 400) (seq 0 (chunks (size o') 400))) = size o' /\
   exists w',
     NSeriesEIP.whileM unit 3 (NSeriesEIP.write_more o')
       (NSeriesEIP.write_chunk Sample.data_type_code
          Sample.variable_request_path_segment unit Sample.write_tag_reply o' 400)
       0 Sample.world =
     (Some (Ok (400 * Z.of_nat (chunks (size o') 400))), w')).
Proof.
  cbv zeta. split.
  - split; [reflexivity |]. split; [right; reflexivity |].
    split; [reflexivity |]. split; [split; reflexivity |].
    vm_compute. lia.
  - apply multi_message_variable_write_chunks.
    + reflexivity.
    + right. reflexivity.
    + reflexivity.
    + split; reflexivity.
    + vm_compute. lia.
Defined.

Lemma multi_message_variable_read_round_trips_witness :
  let o := Sample.variable CIPString 1000 in
  let path := [x91; x01; x53; x00] in
  (Sample.variable_request_path_segment (variable_name o) = Ok path /\
   0 < size o < 2 ^ 32 /\
   (chunks (size o) 494 <= 3)%nat) /\
  (NSeriesEIP.MAXIMUM_LENGTH - 8 = 494 /\
   is_Some (fst (NSeriesEIP._multi_message_variable_read pybytes Sample.value
                   Sample.variable_request_path_segment unit Sample.read_tag_reply
                   3 o 0 Sample.world)) /\
   NSeriesEIP.sent
     (snd (NSeriesEIP._multi_message_variable_read pybytes Sample.value
             Sample.variable_request_path_segment unit Sample.read_tag_reply
             3 o 0 Sample.world)) =
     NSeriesEIP.sent Sample.world ++
     map (read_request path (size o) 494) (seq 0 (chunks (size o) 494)) /\
   (exists d w',
      NSeriesEIP.whileM unit 3 (NSeriesEIP.read_more o)
        (NSeriesEIP.read_chunk Sample.variable_request_path_segment unit
           Sample.read_tag_reply o (NSeriesEIP.MAXIMUM_LENGTH - 8)
           match cls o with CIPString => 2 | _ => 0 end)
        {| NSeriesEIP.r_offset := 0; NSeriesEIP.r_data := [] |} Sample.world =
      (Some (Ok {| NSeriesEIP.r_offset := 494 * Z.of_nat (chunks (size o) 494);
                   NSeriesEIP.r_data := d |}), w')) /\
   fst (NSeriesEIP._multi_message_variable_read pybytes Sample.value
          Sample.variable_request_path_segment unit Sample.read_tag_reply
          (chunks (size o) 494 - 1) o 0 Sample.world) = None).
Proof.
  cbv zeta. split.
  - split; [reflexivity |]. split; [split; reflexivity |]. vm_compute. lia.
  - apply multi_message_variable_read_round_trips.
    + reflexivity.
    + split; reflexivity.
    + vm_compute. lia.
Defined.

(** The three read requests for a string of 1000 bytes: 494 bytes at
    offsets 0 and 494, and the 12 bytes that are left at offset 988. *)
Lemma multi_message_variable_read_1000 :
  let path := [x91; x01; x53; x00] in
  NSeriesEIP.sent
    (snd (NSeriesEIP._multi_message_variable_read pybytes Sample.value
            Sample.variable_request_path_segment unit Sample.read_tag_reply
            3 (Sample.variable CIPString 1000) 0 Sample.world)) =
  [ NSeriesEIP.ReadTag (path ++ [x80; x03; x00; x00; x00; x00; xee; x01]);
    NSeriesEIP.ReadTag (path ++ [x80; x03; xee; x01; x00; x00; xee; x01]);
    NSeriesEIP.ReadTag (path ++ [x80; x03; xdc; x03; x00; x00; x0c; x00]) ].
Proof. reflexivity. Qed.

(** ** Variables that the registry does not have *)

Section Registry.
Variable Value : Type.
Variable from_value : Value -> CIPDataType -> res CIPDataType.
Variable from_bytes : pybytes -> CIPDataType -> res CIPDataType.
Variable value : CIPDataType -> res Value.
Variable data_type_code : CIPClass -> pybytes.
Variable variable_request_path_segment : str -> res pybytes.
Variable Controller : Type.
Variable read_tag_reply : pybytes -> Controller -> CIPReply.t * Controller.
Variable write_tag_reply :
  pybytes -> pybytes -> pybytes -> Controller -> CIPReply.t * Controller.

(** C8, as the code has it: for every variable name absent from the
    registry, the lookup gives [None], which no branch of [read_variable] or
    [write_variable] tests for.  [write_variable] raises [AttributeError] at
    the call of [from_value] on it, before any request is made;
    [read_variable] makes one read request for the path of the name and
    raises [AttributeError] at the call of [from_bytes].  The exception
    reaches the caller as it is. *)
Theorem variable_not_in_registry
    (self : NSeriesEIP.t) (name : str) (path : pybytes) (v : Value) (fuel : nat)
    (w : NSeriesEIP.World Controller) :
  NSeriesEIP.variables self !! name = None ->
  variable_request_path_segment name = Ok path ->
  NSeriesEIP.write_variable Value from_value data_type_code
    variable_request_path_segment Controller write_tag_reply fuel self name v w =
    (Some (Raise AttributeError), w) /\
  NSeriesEIP.read_variable Value from_bytes value variable_request_path_segment
    Controller read_tag_reply fuel self name w =
    (Some (Raise AttributeError),
     {| NSeriesEIP.controller := snd (read_tag_reply path (NSeriesEIP.controller w));
        NSeriesEIP.sent := NSeriesEIP.sent w ++ [NSeriesEIP.ReadTag path] |}).
Proof.
  intros Habsent Hpath. split.
  - unfold NSeriesEIP.write_variable, NSeriesEIP.bind, NSeriesEIP.lift.
    rewrite Hpath, Habsent. reflexivity.
  - unfold NSeriesEIP.read_variable, NSeriesEIP.bind, NSeriesEIP.lift,
      NSeriesEIP.read_tag_service.
    rewrite Hpath, Habsent. cbn [is_multi_message].
    destruct (read_tag_reply path (NSeriesEIP.controller w)) as [reply c].
    reflexivity.
Qed.
End Registry.

(** The registry has the variable [S] only, and the name asked for is [T]:
    the write raises [AttributeError] with nothing sent, and the read
    raises it after its request has been sent. *)
Lemma variable_not_in_registry_attribute_error :
  let self :=
    {| NSeriesEIP.variables := {[ [83] := Sample.variable (CIPElementary [xc3]) 2 ]};
       NSeriesEIP.data_type_dictionary := ∅ |} in
  let path := [x91; x01; x54; x00] in
  NSeriesEIP.variables self !! [84] = None /\
  NSeriesEIP.write_variable pybytes Sample.from_value Sample.data_type_code
    Sample.variable_request_path_segment unit Sample.write_tag_reply
    1 self [84] [x2a; x00] Sample.world =
    (Some (Raise AttributeError), Sample.world) /\
  NSeriesEIP.read_variable pybytes Sample.from_bytes Sample.value
    Sample.variable_request_path_segment unit Sample.read_tag_reply
    1 self [84] Sample.world =
    (Some (Raise AttributeError),
     {| NSeriesEIP.controller := tt;
        NSeriesEIP.sent := [NSeriesEIP.ReadTag path] |}).
Proof.
  cbv zeta.
  assert (Habsent :
    ({[ [83] := Sample.variable (CIPElementary [xc3]) 2 ]} : gmap str CIPDataType)
      !! [84] = None).
  { vm_compute. reflexivity. }
  split; [exact Habsent |].
  unfold NSeriesEIP.write_variable, NSeriesEIP.read_variable, NSeriesEIP.bind,
    NSeriesEIP.lift.
  cbn [NSeriesEIP.variables]. rewrite Habsent. split; reflexivity.
Qed.

Lemma variable_not_in_registry_witness :
  let self :=
    {| NSeriesEIP.variables := (∅ : gmap str CIPDataType);
       NSeriesEIP.data_type_dictionary := ∅ |} in
  let path := [x91; x01; x54; x00] in
  (NSeriesEIP.variables self !! [84] = None /\
   Sample.variable_request_path_segment [84] = Ok path) /\
  (NSeriesEIP.write_variable pybytes Sample.from_value Sample.data_type_code
     Sample.variable_request_path_segment unit Sample.write_tag_reply
     1 self [84] [x2a; x00] Sample.world =
     (Some (Raise AttributeError), Sample.world) /\
   NSeriesEIP.read_variable pybytes Sample.from_bytes Sample.value
     Sample.variable_request_path_segment unit Sample.read_tag_reply
     1 self [84] Sample.world =
     (Some (Raise AttributeError),
      {| NSeriesEIP.controller :=
           snd (Sample.read_tag_reply path (NSeriesEIP.controller Sample.world));
         NSeriesEIP.sent :=
           NSeriesEIP.sent Sample.world ++ [NSeriesEIP.ReadTag path] |})).
Proof.
  cbv zeta. split.
  - split; reflexivity.
  - apply variable_not_in_registry; reflexivity.
Defined.

(** ** Resolution of the members of a structure *)

Section Resolver.
Variable address_request_path_segment : pybytes -> pybytes -> pybytes.
Variable Controller : Type.
Variable get_attribute_all_bytes : pybytes -> Controller -> pybytes * Controller.
Variable self : NSeriesEIP.t.
Variable table : Z -> pybytes.

Local Abbreviation World := (NSeriesEIP.World Controller).
Local Abbreviation M := (NSeriesEIP.M Controller).
Local Abbreviation answers :=
  (answered address_request_path_segment Controller get_attribute_all_bytes table).
Local Abbreviation request_for id :=
  (NSeriesEIP.GetAttributeAll (address_request_path_segment [x6c] (le_bytes 2 id))).
Local Abbreviation _get_variable_type_object :=
  (NSeriesEIP._get_variable_type_object address_request_path_segment Controller
     get_attribute_all_bytes).
Local Abbreviation walk_member :=
  (NSeriesEIP.walk_member address_request_path_segment Controller
     get_attribute_all_bytes self).
Local Abbreviation get_data_instance :=
  (NSeriesEIP.get_data_instance address_request_path_segment Controller
     get_attribute_all_bytes).
Local Abbreviation returns_classes := (returns_classes Controller).

Lemma get_data_instance_returns_classes (fuel : nat) :
  returns_classes (get_data_instance fuel self).
Proof.
  intros x w Hx. destruct x as [| c | o]; [| | now destruct (Hx o)];
    destruct fuel; reflexivity.
Qed.

Lemma dictionary_get_class (code : pybytes) (o : CIPDataType) :
  NSeriesEIP.dictionary_get self code <> Instance o.
Proof. unfold NSeriesEIP.dictionary_get. destruct (_ !! code); discriminate. Qed.

Lemma get_variable_type_object_answered (id : Z) (w : World) :
  answers id ->
  exists c,
    _get_variable_type_object id w =
      (Some (Ok (type_reply table id)),
       {| NSeriesEIP.controller := c;
          NSeriesEIP.sent := NSeriesEIP.sent w ++ [request_for id] |}).
Proof.
  intros (Hid & _ & Hreply).
  unfold NSeriesEIP._get_variable_type_object, NSeriesEIP.bind, NSeriesEIP.lift,
    NSeriesEIP.ret, NSeriesEIP.get_attribute_all_service_bytes.
  rewrite to_bytes_Ok by (change (256 ^ Z.of_nat 2) with 65536; lia).
  specialize (Hreply (NSeriesEIP.controller w)).
  destruct (get_attribute_all_bytes _ (NSeriesEIP.controller w)) as [reply_bytes c].
  cbn [fst] in Hreply. subst reply_bytes. exists c. reflexivity.
Qed.

Lemma complete_inv (id : Z) :
  complete table id = true ->
  VariableTypeObjectReply.variable_type_name (type_reply table id) =
    Ok (name_of table id) /\
  (exists b, VariableTypeObjectReply.next_instance_id (type_reply table id) = Ok b /\
             int_from_bytes b = next_of table id) /\
  VariableTypeObjectReply.size_in_memory (type_reply table id) =
    Ok (size_of table id) /\
  (exists b, VariableTypeObjectReply.nesting_variable_type_instance_id
               (type_reply table id) = Ok b /\
             int_from_bytes b = first_member_of table id).
Proof.
  unfold complete, name_of, next_of, size_of, first_member_of.
  destruct (VariableTypeObjectReply.variable_type_name _); [| discriminate].
  destruct (VariableTypeObjectReply.next_instance_id _); [| discriminate].
  destruct (VariableTypeObjectReply.size_in_memory _); [| discriminate].
  destruct (VariableTypeObjectReply.nesting_variable_type_instance_id _);
    [| discriminate].
  intros _. eauto 10.
Qed.

(** One turn of the loop over the members: one request, the member
    entered under its name, and the next instance id read from the reply. *)
Lemma walk_member_turn (resolve : PyObj -> M PyObj) (id : Z) (o : CIPDataType)
    (w : World) :
  returns_classes resolve -> answers id ->
  exists c,
    walk_member resolve
      {| NSeriesEIP.member_instance_id := id; NSeriesEIP.structure := o |} w =
      (Some (Ok {| NSeriesEIP.member_instance_id := next_of table id;
                   NSeriesEIP.structure := add_member self table o id |}),
       {| NSeriesEIP.controller := c;
          NSeriesEIP.sent := NSeriesEIP.sent w ++ [request_for id] |}).
Proof.
  intros Hres Hid.
  destruct (get_variable_type_object_answered id w Hid) as (c & Hfetch).
  destruct Hid as (_ & Hcomplete & _).
  destruct (complete_inv id Hcomplete) as (Hname & (b & Hnext & Hb) & _).
  exists c. unfold NSeriesEIP.walk_member, NSeriesEIP.bind.
  cbn [NSeriesEIP.member_instance_id NSeriesEIP.structure].
  rewrite Hfetch.
  rewrite Hres by apply dictionary_get_class.
  unfold NSeriesEIP.lift at 1. rewrite Hname.
  rewrite Hres by apply dictionary_get_class.
  unfold NSeriesEIP.lift, NSeriesEIP.ret. rewrite Hnext, Hb. reflexivity.
Qed.

Lemma iter_link_0 (n : nat) : Nat.iter n (link table) 0 = 0.
Proof. induction n as [| n IH]; [reflexivity |]. now rewrite Nat.iter_succ, IH. Qed.

(** The loop over the members follows the chain: allowed [fuel] turns, it
    has made the requests for the first [fuel] members of the chain, and
    it has returned if the chain has ended by then. *)
Lemma walk_follows_chain (resolve : PyObj -> M PyObj) (fuel : nat) :
  forall (id : Z) (o : CIPDataType) (w : World),
  fuel = 0%nat \/ returns_classes resolve ->
  Forall answers (chain_ids table fuel id) ->
  if Nat.iter fuel (link table) id =? 0 then
    exists w',
      NSeriesEIP.whileM Controller fuel NSeriesEIP.walk_more (walk_member resolve)
        {| NSeriesEIP.member_instance_id := id; NSeriesEIP.structure := o |} w =
        (Some (Ok {| NSeriesEIP.member_instance_id := 0;
                     NSeriesEIP.structure :=
                       fold_left (add_member self table) (chain_ids table fuel id) o |}),
         w') /\
      NSeriesEIP.sent w' =
        NSeriesEIP.sent w ++ map (fun i => request_for i) (chain_ids table fuel id)
  else
    fst (NSeriesEIP.whileM Controller fuel NSeriesEIP.walk_more (walk_member resolve)
           {| NSeriesEIP.member_instance_id := id; NSeriesEIP.structure := o |} w) =
    None.
Proof.
  induction fuel as [| fuel IH]; intros id o w Hres Hans.
  - cbn [Nat.iter nat_rect chain_ids fold_left map].
    destruct (Z.eqb_spec id 0) as [-> | Hid].
    + exists w. split; [reflexivity | now rewrite app_nil_r].
    + rewrite whileM_out; [reflexivity |].
      unfold NSeriesEIP.walk_more. cbn. now apply negb_true_iff, Z.eqb_neq.
  - destruct Hres as [Hres | Hres]; [discriminate |].
    rewrite Nat.iter_succ_r. unfold link at 2. cbn [chain_ids] in *.
    destruct (Z.eqb_spec id 0) as [-> | Hid].
    + rewrite iter_link_0. cbn [Z.eqb fold_left map].
      exists w. split; [reflexivity | now rewrite app_nil_r].
    + apply Forall_cons in Hans as [Hid_ans Hrest].
      destruct (walk_member_turn resolve id o w Hres Hid_ans) as (c & Hturn).
      assert (Hmore : NSeriesEIP.walk_more
                {| NSeriesEIP.member_instance_id := id;
                   NSeriesEIP.structure := o |} = true).
      { unfold NSeriesEIP.walk_more. cbn. now apply negb_true_iff, Z.eqb_neq. }
      rewrite (whileM_turn _ _ _ _ _ _ _ _ Hmore Hturn).
      set (w1 := {| NSeriesEIP.controller := c; NSeriesEIP.sent := _ |}).
      specialize (IH (next_of table id) (add_member self table o id) w1
                    (or_intror Hres) Hrest).
      destruct (Nat.iter fuel (link table) (next_of table id) =? 0).
      * destruct IH as (w' & Hloop & Hsent). exists w'. split; [exact Hloop |].
        rewrite Hsent. unfold w1. cbn [NSeriesEIP.sent map].
        now rewrite <- app_assoc.
      * exact IH.
Qed.

Lemma bind_Ok {A B : Type} (m : M A) (k : A -> M B) (a : A) (w w' : World) :
  m w = (Some (Ok a), w') -> NSeriesEIP.bind Controller m k w = k a w'.
Proof. intros Hm. unfold NSeriesEIP.bind. now rewrite Hm. Qed.

Lemma bind_lift_Ok {A B : Type} (r : res A) (k : A -> M B) (a : A) (w : World) :
  r = Ok a -> NSeriesEIP.bind Controller (NSeriesEIP.lift Controller r) k w = k a w.
Proof. intros ->. reflexivity. Qed.

(** The resolution of a structure, after the request for its own type
    object, is the loop over its members. *)
Lemma get_data_instance_structure (fuel : nat) (o : CIPDataType) (w : World) :
  cls o = CIPStructure -> answers (instance_id o) ->
  exists c,
    get_data_instance fuel self (Instance o) w =
    NSeriesEIP.bind Controller
      (NSeriesEIP.whileM Controller fuel NSeriesEIP.walk_more
         (walk_member
            match fuel with
            | O => fun _ w => (None, w)
            | S f => get_data_instance f self
            end)
         {| NSeriesEIP.member_instance_id := first_member_of table (instance_id o);
            NSeriesEIP.structure := resolved_header table o |})
      (fun s => NSeriesEIP.ret Controller (Instance (NSeriesEIP.structure s)))
      {| NSeriesEIP.controller := c;
         NSeriesEIP.sent := NSeriesEIP.sent w ++ [request_for (instance_id o)] |}.
Proof.
  intros Hcls Hans.
  destruct (get_variable_type_object_answered _ w Hans) as (c & Hfetch).
  destruct Hans as (_ & Hcomplete & _).
  destruct (complete_inv _ Hcomplete) as (Hname & _ & Hsize & (b & Hnest & Hb)).
  exists c.
  destruct fuel; cbn [NSeriesEIP.get_data_instance]; rewrite Hcls;
    rewrite (bind_Ok _ _ _ _ _ Hfetch);
    rewrite (bind_lift_Ok _ _ _ _ Hname);
    rewrite (bind_lift_Ok _ _ _ _ Hsize);
    rewrite (bind_lift_Ok _ _ _ _ Hnest);
    rewrite Hb; reflexivity.
Qed.

(** C1, as the code has it: the walk of the member chain of a structure
    variable imposes no maximum chain length and raises no error for a
    long or cyclic chain.  It follows [next_instance_id] from the first
    member, with one request for each member, until it reads zero.  For a
    chain whose instance ids fit the two bytes of a request path (they are
    below 65536) and whose replies are complete, when it is allowed [fuel]
    turns of its loop it has returned, with the members of the whole chain
    entered in chain order, if the chain reaches the zero terminator
    within [fuel] members, however many that is; and it is still running
    if the chain does not: for a chain that never reaches zero it runs
    forever. *)
Theorem get_data_instance_follows_member_chain
    (fuel : nat) (o : CIPDataType) (w : World) :
  cls o = CIPStructure ->
  Forall answers
    (instance_id o :: chain_ids table fuel (first_member_of table (instance_id o))) ->
  if Nat.iter fuel (link table) (first_member_of table (instance_id o)) =? 0 then
    exists w',
      get_data_instance fuel self (Instance o) w =
        (Some (Ok (Instance
                     (fold_left (add_member self table)
                        (chain_ids table fuel (first_member_of table (instance_id o)))
                        (resolved_header table o)))),
         w') /\
      NSeriesEIP.sent w' =
        NSeriesEIP.sent w ++
        map (fun i => request_for i)
          (instance_id o ::
           chain_ids table fuel (first_member_of table (instance_id o)))
  else
    fst (get_data_instance fuel self (Instance o) w) = None.
Proof.
  intros Hcls Hans. apply Forall_cons in Hans as [Hhead Hchain].
  destruct (get_data_instance_structure fuel o w Hcls Hhead) as (c & ->).
  set (w1 := {| NSeriesEIP.controller := c; NSeriesEIP.sent := _ |}).
  assert (Hres : fuel = 0%nat \/
                 returns_classes
                   match fuel with
                   | O => fun _ w => (None, w)
                   | S f => get_data_instance f self
                   end).
  { destruct fuel; [now left | right].
    apply get_data_instance_returns_classes. }
  pose proof (walk_follows_chain _ fuel (first_member_of table (instance_id o))
                (resolved_header table o) w1 Hres Hchain) as Hwalk.
  destruct (Nat.iter fuel (link table) (first_member_of table (instance_id o)) =? 0).
  - destruct Hwalk as (w' & Hloop & Hsent). exists w'. split.
    + rewrite (bind_Ok _ _ _ _ _ Hloop). reflexivity.
    + rewrite Hsent. unfold w1. cbn [NSeriesEIP.sent map].
      now rewrite <- app_assoc.
  - now apply bind_fst_None.
Qed.
End Resolver.

Lemma get_data_instance_follows_member_chain_witness :
  let o := Sample.variable CIPStructure 0 in
  let get_attribute_all_bytes := SampleTypes.get_attribute_all_bytes SampleTypes.ended in
  (cls o = CIPStructure /\
   Forall (answered Sample.address_request_path_segment unit get_attribute_all_bytes
             SampleTypes.ended)
     (instance_id o ::
      chain_ids SampleTypes.ended 2 (first_member_of SampleTypes.ended (instance_id o)))) /\
  if Nat.iter 2 (link SampleTypes.ended)
       (first_member_of SampleTypes.ended (instance_id o)) =? 0 then
    exists w',
      NSeriesEIP.get_data_instance Sample.address_request_path_segment unit
        get_attribute_all_bytes 2 SampleTypes.self (Instance o) Sample.world =
        (Some (Ok (Instance
                     (fold_left (add_member SampleTypes.self SampleTypes.ended)
                        (chain_ids SampleTypes.ended 2
                           (first_member_of SampleTypes.ended (instance_id o)))
                        (resolved_header SampleTypes.ended o)))),
         w') /\
      NSeriesEIP.sent w' =
        NSeriesEIP.sent Sample.world ++
        map (fun i => NSeriesEIP.GetAttributeAll
                        (Sample.address_request_path_segment [x6c] (le_bytes 2 i)))
          (instance_id o ::
           chain_ids SampleTypes.ended 2
             (first_member_of SampleTypes.ended (instance_id o)))
  else
    fst (NSeriesEIP.get_data_instance Sample.address_request_path_segment unit
           get_attribute_all_bytes 2 SampleTypes.self (Instance o) Sample.world) =
    None.
Proof.
  cbv zeta.
  assert (Hans :
    Forall (answered Sample.address_request_path_segment unit
              (SampleTypes.get_attribute_all_bytes SampleTypes.ended)
              SampleTypes.ended)
      (instance_id (Sample.variable CIPStructure 0) ::
       chain_ids SampleTypes.ended 2
         (first_member_of SampleTypes.ended
            (instance_id (Sample.variable CIPStructure 0))))).
  { change (Forall (answered Sample.address_request_path_segment unit
                      (SampleTypes.get_attribute_all_bytes SampleTypes.ended)
                      SampleTypes.ended) [1; 2; 3]).
    repeat (apply Forall_cons; split;
            [split; [lia | split; [reflexivity | intros c; reflexivity]] |]).
    constructor. }
  split; [split; [reflexivity | exact Hans] |].
  apply (get_data_instance_follows_member_chain Sample.address_request_path_segment
           unit (SampleTypes.get_attribute_all_bytes SampleTypes.ended)
           SampleTypes.self SampleTypes.ended 2
           (Sample.variable CIPStructure 0) Sample.world).
  - reflexivity.
  - exact Hans.
Defined.

(** The structure [T] with its two members, in the order of the chain. *)
Lemma get_data_instance_two_members :
  NSeriesEIP.get_data_instance Sample.address_request_path_segment unit
    (SampleTypes.get_attribute_all_bytes SampleTypes.ended) 2 SampleTypes.self
    (Instance (Sample.variable CIPStructure 0)) Sample.world =
  (Some (Ok (Instance
               {| cls := CIPStructure; size := 4; data := [];
                  variable_name := [83]; instance_id := 1;
                  array_data_type := [xc3]; variable_type_name := [x54];
                  members := [ ([x41], Class (CIPElementary [xc3]));
                               ([x42], Class (CIPElementary [xc3])) ] |})),
   {| NSeriesEIP.controller := tt;
      NSeriesEIP.sent := [SampleTypes.request 1; SampleTypes.request 2;
                          SampleTypes.request 3] |}).
Proof. vm_compute. reflexivity. Qed.

Section Cyclic.
Let table := SampleTypes.cyclic.
Let answers :=
  answered Sample.address_request_path_segment unit
    (SampleTypes.get_attribute_all_bytes SampleTypes.cyclic) SampleTypes.cyclic.

Lemma cyclic_answers_2 : answers 2.
Proof. split; [lia | split; [reflexivity | intros c; reflexivity]]. Qed.

Lemma cyclic_answers_3 : answers 3.
Proof. split; [lia | split; [reflexivity | intros c; reflexivity]]. Qed.

Lemma cyclic_chain_answered (n : nat) :
  forall id, id = 2 \/ id = 3 -> Forall answers (chain_ids table n id).
Proof.
  induction n as [| n IH]; intros id Hid; [constructor |].
  destruct Hid as [-> | ->]; cbn [chain_ids Z.eqb]; apply Forall_cons; split.
  - exact cyclic_answers_2.
  - apply IH. right. reflexivity.
  - exact cyclic_answers_3.
  - apply IH. left. reflexivity.
Qed.

Lemma cyclic_chain_goes_on (n : nat) :
  forall id, id = 2 \/ id = 3 ->
  Nat.iter n (link table) id = 2 \/ Nat.iter n (link table) id = 3.
Proof.
  induction n as [| n IH]; intros id Hid; [exact Hid |].
  rewrite Nat.iter_succ_r. apply IH.
  destruct Hid as [-> | ->]; [right | left]; reflexivity.
Qed.
End Cyclic.

(** The chain of the members of [T] goes from [A] to [B] and back to [A].
    The resolution of [T] never returns, whatever number of turns its loop
    is allowed: it does not end with an error. *)
Lemma get_data_instance_cyclic_chain :
  ~ exists (fuel : nat) (r : res PyObj),
      fst (NSeriesEIP.get_data_instance Sample.address_request_path_segment unit
             (SampleTypes.get_attribute_all_bytes SampleTypes.cyclic) fuel
             SampleTypes.self (Instance (Sample.variable CIPStructure 0))
             Sample.world) = Some r.
Proof.
  intros (fuel & r & Hr).
  destruct (get_data_instance_structure Sample.address_request_path_segment unit
              (SampleTypes.get_attribute_all_bytes SampleTypes.cyclic)
              SampleTypes.self SampleTypes.cyclic fuel
              (Sample.variable CIPStructure 0) Sample.world eq_refl)
    as (c & Hrun).
  { split; [cbn; lia | split; [reflexivity | intros c; reflexivity]]. }
  rewrite Hrun in Hr. clear Hrun.
  match type of Hr with
  | fst (NSeriesEIP.bind _ (NSeriesEIP.whileM _ _ _ (_ ?resolve) ?s) _ ?w1) = _ =>
      pose proof (walk_follows_chain Sample.address_request_path_segment unit
                    (SampleTypes.get_attribute_all_bytes SampleTypes.cyclic)
                    SampleTypes.self SampleTypes.cyclic resolve fuel
                    2 (NSeriesEIP.structure s) w1) as Hwalk
  end.
  assert (Hres : fuel = 0%nat \/
                 returns_classes unit
                   match fuel with
                   | O => fun _ w => (None, w)
                   | S f =>
                       NSeriesEIP.get_data_instance Sample.address_request_path_segment
                         unit (SampleTypes.get_attribute_all_bytes SampleTypes.cyclic)
                         f SampleTypes.self
                   end).
  { destruct fuel; [now left | right].
    apply get_data_instance_returns_classes. }
  specialize (Hwalk Hres (cyclic_chain_answered fuel 2 (or_introl eq_refl))).
  destruct (cyclic_chain_goes_on fuel 2 (or_introl eq_refl)) as [Hiter | Hiter];
    rewrite Hiter in Hwalk; cbn [Z.eqb] in Hwalk;
    apply (bind_fst_None unit) with
      (k := fun s => NSeriesEIP.ret unit (Instance (NSeriesEIP.structure s)))
      in Hwalk;
    change (first_member_of SampleTypes.cyclic
              (instance_id (Sample.variable CIPStructure 0))) with 2 in Hr;
    cbn [NSeriesEIP.structure] in Hwalk;
    rewrite Hwalk in Hr; discriminate.
Qed.

(** An instance id that does not fit the two bytes of the request path
    is not asked for: [to_bytes] raises [OverflowError] and nothing is
    sent. *)
Lemma get_variable_type_object_overflow
    (address_request_path_segment : pybytes -> pybytes -> pybytes)
    (Controller : Type)
    (get_attribute_all_bytes : pybytes -> Controller -> pybytes * Controller)
    (id : Z) (w : NSeriesEIP.World Controller) :
  65536 <= id ->
  NSeriesEIP._get_variable_type_object address_request_path_segment Controller
    get_attribute_all_bytes id w = (Some (Raise OverflowError), w).
Proof.
  intros Hid.
  unfold NSeriesEIP._get_variable_type_object, NSeriesEIP.bind, NSeriesEIP.lift,
    to_bytes.
  change (256 ^ Z.of_nat 2) with 65536.
  destruct (Z.ltb_spec id 65536); [lia |].
  now rewrite andb_false_r.
Qed.

(** The first member [A] of the structure [T] names 70000 as the next
    instance id, which its four bytes can hold.  The resolution of [T]
    ends with [OverflowError] after the requests for [T] and [A]: the
    chain is outside the instance ids that the walk can ask for. *)
Lemma get_data_instance_id_overflow :
  let table := fun id : Z =>
    if id =? 1 then SampleTypes.type_object 4 xa2 [x54] 0 2
    else SampleTypes.type_object 2 xc3 [x41] 70000 0 in
  next_of table 2 = 70000 /\
  NSeriesEIP.get_data_instance Sample.address_request_path_segment unit
    (SampleTypes.get_attribute_all_bytes table) 2 SampleTypes.self
    (Instance (Sample.variable CIPStructure 0)) Sample.world =
  (Some (Raise OverflowError),
   {| NSeriesEIP.controller := tt;
      NSeriesEIP.sent := [SampleTypes.request 1; SampleTypes.request 2] |}).
Proof. cbv zeta. split; vm_compute; reflexivity. Qed.

(** * Further properties *)

(** ** Integers and slices of concatenations *)

Lemma byte_to_of_Z (z : Z) : 0 <= z < 256 -> byte_to_Z (byte_of_Z z) = z.
Proof.
  intros Hz. unfold byte_to_Z, byte_of_Z.
  pose proof (Byte.to_of_N_option_map (Z.to_N z)) as Hmap.
  destruct (N.leb_spec (Z.to_N z) 255) as [_ | Hbig]; [| lia].
  destruct (Byte.of_N (Z.to_N z)) as [b |]; [| discriminate].
  cbn in Hmap. injection Hmap as ->. lia.
Qed.

Lemma byte_of_to_Z (b : byte) : byte_of_Z (byte_to_Z b) = b.
Proof.
  unfold byte_to_Z, byte_of_Z. rewrite N2Z.id. now rewrite Byte.of_to_N.
Qed.

Lemma int_from_le_bytes (n : nat) :
  forall v, 0 <= v < 256 ^ Z.of_nat n -> int_from_bytes (le_bytes n v) = v.
Proof.
  induction n as [| n IH]; intros v Hv.
  - cbn in *. lia.
  - rewrite Nat2Z.inj_succ, Z.pow_succ_r in Hv by lia.
    cbn [le_bytes int_from_bytes].
    rewrite byte_to_of_Z by (apply Z.mod_pos_bound; lia).
    rewrite IH.
    + pose proof (Z.div_mod v 256 ltac:(lia)). lia.
    + split; [apply Z.div_pos; lia | apply Z.div_lt_upper_bound; lia].
Qed.

Lemma le_bytes_int_from (b : pybytes) : le_bytes (length b) (int_from_bytes b) = b.
Proof.
  induction b as [| x r IH]; [reflexivity |].
  cbn [length le_bytes int_from_bytes].
  pose proof (byte_to_Z_range x) as Hx.
  replace ((byte_to_Z x + 256 * int_from_bytes r) mod 256) with (byte_to_Z x).
  - replace ((byte_to_Z x + 256 * int_from_bytes r) / 256) with (int_from_bytes r).
    + now rewrite byte_of_to_Z, IH.
    + symmetry. rewrite (Z.mul_comm 256), Z.div_add by lia.
      rewrite Z.div_small by lia. lia.
  - symmetry. rewrite (Z.mul_comm 256), Z.mod_add by lia.
    apply Z.mod_small. lia.
Qed.

Lemma slice_all {A : Type} (b : list A) : slice b 0 (len b) = b.
Proof.
  rewrite slice_nonneg by (pose proof (len_nonneg b); lia).
  pose proof (len_nonneg b). rewrite Z.min_id, Z.min_l by lia.
  unfold len. rewrite Z.sub_0_r, Nat2Z.id. cbn [Z.to_nat drop]. apply take_ge. lia.
Qed.

(** A slice that ends within the first part of a concatenation. *)
Lemma slice_app_l {A : Type} (a b : list A) (i j : Z) :
  0 <= i -> 0 <= j <= len a -> slice (a ++ b) i j = slice a i j.
Proof.
  intros Hi Hj. rewrite !slice_nonneg by lia. rewrite len_app.
  pose proof (len_nonneg a). pose proof (len_nonneg b).
  rewrite !(Z.min_l j) by lia.
  destruct (Z.le_ge_cases i (len a)) as [Hle | Hge].
  - rewrite !(Z.min_l i) by lia.
    unfold len in *. rewrite drop_app_le by lia.
    rewrite take_app_le; [reflexivity |]. rewrite length_drop. lia.
  - replace (Z.to_nat (j - Z.min i (len a + len b))) with 0%nat by lia.
    replace (Z.to_nat (j - Z.min i (len a))) with 0%nat by lia.
    reflexivity.
Qed.

(** A slice that starts after the first part of a concatenation. *)
Lemma slice_app_r {A : Type} (a b : list A) (i j : Z) :
  0 <= i -> 0 <= j -> slice (a ++ b) (len a + i) (len a + j) = slice b i j.
Proof.
  intros Hi Hj. pose proof (len_nonneg a). pose proof (len_nonneg b).
  rewrite !slice_nonneg by lia. rewrite len_app.
  replace (Z.min (len a + j) (len a + len b)) with (len a + Z.min j (len b)) by lia.
  replace (Z.min (len a + i) (len a + len b)) with (len a + Z.min i (len b)) by lia.
  replace (len a + Z.min j (len b) - (len a + Z.min i (len b)))
    with (Z.min j (len b) - Z.min i (len b)) by lia.
  f_equal. unfold len in *.
  replace (Z.to_nat (Z.of_nat (length a) + Z.min i (Z.of_nat (length b))))
    with (length a + Z.to_nat (Z.min i (Z.of_nat (length b))))%nat by lia.
  apply drop_app_add.
Qed.

Lemma slice_from_app_r {A : Type} (a b : list A) (i : Z) :
  0 <= i -> slice_from (a ++ b) (len a + i) = slice_from b i.
Proof.
  intros Hi. pose proof (len_nonneg a).
  rewrite !slice_from_nonneg by lia. unfold len in *.
  replace (Z.to_nat (Z.of_nat (length a) + i)) with (length a + Z.to_nat i)%nat by lia.
  apply drop_app_add.
Qed.

(** The first part of a concatenation, and what follows it. *)
Lemma slice_app_first {A : Type} (a b : list A) : slice (a ++ b) 0 (len a) = a.
Proof.
  pose proof (len_nonneg a). rewrite slice_app_l by lia. apply slice_all.
Qed.

Lemma slice_from_app_rest {A : Type} (a b : list A) : slice_from (a ++ b) (len a) = b.
Proof.
  replace (len a) with (len a + 0) by lia.
  rewrite slice_from_app_r by lia. apply slice_from_0.
Qed.

Lemma slice_app_second {A : Type} (a b c : list A) :
  slice (a ++ b ++ c) (len a) (len a + len b) = b.
Proof.
  pose proof (len_nonneg b).
  replace (len a) with (len a + 0) at 1 by lia.
  rewrite slice_app_r by lia. apply slice_app_first.
Qed.

Lemma len_cons {A : Type} (x : A) (l : list A) : len (x :: l) = 1 + len l.
Proof. unfold len. cbn [length]. lia. Qed.

Lemma len_nil {A : Type} : len (@nil A) = 0.
Proof. reflexivity. Qed.

Lemma len_2_inv {A : Type} (l : list A) : len l = 2 -> exists a b, l = [a; b].
Proof.
  destruct l as [| a [| b [| c r]]]; rewrite ?len_cons, ?len_nil;
    try (pose proof (len_nonneg r)); try lia. eauto.
Qed.

Lemma len_4_inv {A : Type} (l : list A) :
  len l = 4 -> exists a b c d, l = [a; b; c; d].
Proof.
  destruct l as [| a [| b [| c [| d [| e r]]]]]; rewrite ?len_cons, ?len_nil;
    try (pose proof (len_nonneg r)); try lia. eauto 6.
Qed.

Lemma len_8_inv {A : Type} (l : list A) :
  len l = 8 -> exists a b c d e f g h, l = [a; b; c; d; e; f; g; h].
Proof.
  destruct l as [| a [| b [| c [| d [| e [| f [| g [| h [| i r]]]]]]]]];
    rewrite ?len_cons, ?len_nil; try (pose proof (len_nonneg r)); try lia.
  eauto 10.
Qed.

(** Slices at fixed offsets of a list that begins with known elements. *)
Ltac slice_prefix :=
  repeat match goal with
         | |- context [slice ?b ?i ?j] =>
             rewrite (slice_nonneg b i j) by lia
         | |- context [slice_from ?b ?i] =>
             rewrite (slice_from_nonneg b i) by lia
         end;
  rewrite ?len_cons, ?len_nil;
  repeat match goal with
         | |- context [Z.min ?a ?b] =>
             first [rewrite (Z.min_l a b) by lia | rewrite (Z.min_r a b) by lia]
         end.

(** ** Encapsulation messages, encoded and decoded *)

(** A message built with a command of two bytes and a session handle of
    four is decoded from its bytes as it was built, and its length field
    reads as the number of bytes of its payload. *)
Theorem EIPMessage_round_trip
    (self m : EIPMessage.t) (command command_data session_handle_id : pybytes) :
  len command = 2 ->
  len session_handle_id = 4 ->
  EIPMessage.__init__ command command_data session_handle_id = Ok m ->
  EIPMessage.from_bytes self (EIPMessage.bytes m) = m /\
  int_from_bytes (EIPMessage.length m) = len command_data.
Proof.
  intros Hc Hs Hm. unfold EIPMessage.__init__ in Hm.
  destruct (to_bytes (len command_data) 2) as [l |] eqn:Hl; [| discriminate].
  apply to_bytes_inv in Hl as [Hrange ->]. injection Hm as <-.
  destruct (len_2_inv _ Hc) as (c0 & c1 & ->).
  destruct (len_4_inv _ Hs) as (s0 & s1 & s2 & s3 & ->).
  pose proof (len_nonneg command_data) as Hn.
  split; [| exact (int_from_le_bytes 2 _ Hrange)].
  unfold EIPMessage.from_bytes, EIPMessage.bytes.
  cbn [EIPMessage.command EIPMessage.length EIPMessage.session_handle_id
       EIPMessage.status EIPMessage.sender_context_data EIPMessage.command_options
       EIPMessage.command_data le_bytes app].
  f_equal; slice_prefix; reflexivity.
Qed.

Lemma EIPMessage_round_trip_witness :
  let command := [x6f; x00] in
  let command_data := [x00; x00; x00; x00; x08; x00] in
  let session_handle_id := [x11; x22; x33; x44] in
  let m :=
    {| EIPMessage.command := command;
       EIPMessage.length := [x06; x00];
       EIPMessage.session_handle_id := session_handle_id;
       EIPMessage.status := [x00; x00; x00; x00];
       EIPMessage.sender_context_data := [x00; x00; x00; x00; x00; x00; x00; x00];
       EIPMessage.command_options := [x00; x00; x00; x00];
       EIPMessage.command_data := command_data |} in
  (len command = 2 /\ len session_handle_id = 4 /\
   EIPMessage.__init__ command command_data session_handle_id = Ok m) /\
  (EIPMessage.from_bytes m (EIPMessage.bytes m) = m /\
   int_from_bytes (EIPMessage.length m) = len command_data).
Proof.
  cbv zeta. split; [repeat split |].
  apply (EIPMessage_round_trip _ _ [x6f; x00] [x00; x00; x00; x00; x08; x00]
           [x11; x22; x33; x44]); reflexivity.
Defined.

(** With a session handle of eight bytes, as the client has until a
    session is registered, the frame does not decode to the message: the
    decoder takes the first four bytes of the handle as the handle, the
    other four as the status, and finds the four bytes of the options
    before the payload. *)
Theorem EIPMessage_eight_byte_handle
    (self m : EIPMessage.t) (command command_data session_handle_id : pybytes) :
  len command = 2 ->
  len session_handle_id = 8 ->
  EIPMessage.__init__ command command_data session_handle_id = Ok m ->
  EIPMessage.session_handle_id (EIPMessage.from_bytes self (EIPMessage.bytes m)) =
    take 4 session_handle_id /\
  EIPMessage.status (EIPMessage.from_bytes self (EIPMessage.bytes m)) =
    drop 4 session_handle_id /\
  EIPMessage.command_data (EIPMessage.from_bytes self (EIPMessage.bytes m)) =
    EIPMessage.command_options m ++ command_data /\
  EIPMessage.from_bytes self (EIPMessage.bytes m) <> m.
Proof.
  intros Hc Hs Hm. unfold EIPMessage.__init__ in Hm.
  destruct (to_bytes (len command_data) 2) as [l |] eqn:Hl; [| discriminate].
  apply to_bytes_inv in Hl as [Hrange ->]. injection Hm as <-.
  destruct (len_2_inv _ Hc) as (c0 & c1 & ->).
  destruct (len_8_inv _ Hs) as (s0 & s1 & s2 & s3 & s4 & s5 & s6 & s7 & ->).
  pose proof (len_nonneg command_data) as Hn.
  unfold EIPMessage.from_bytes, EIPMessage.bytes.
  cbn [EIPMessage.command EIPMessage.length EIPMessage.session_handle_id
       EIPMessage.status EIPMessage.sender_context_data EIPMessage.command_options
       EIPMessage.command_data le_bytes app].
  assert (Hhandle :
    slice (c0 :: c1 :: byte_of_Z (len command_data mod 256) ::
           byte_of_Z (len command_data / 256 mod 256) ::
           s0 :: s1 :: s2 :: s3 :: s4 :: s5 :: s6 :: s7 ::
           x00 :: x00 :: x00 :: x00 ::
           x00 :: x00 :: x00 :: x00 :: x00 :: x00 :: x00 :: x00 ::
           x00 :: x00 :: x00 :: x00 :: command_data) 4 8 = [s0; s1; s2; s3]).
  { slice_prefix. reflexivity. }
  repeat split.
  - exact Hhandle.
  - slice_prefix. reflexivity.
  - slice_prefix. reflexivity.
  - intros Heq. apply (f_equal EIPMessage.session_handle_id) in Heq.
    cbn [EIPMessage.session_handle_id] in Heq. rewrite Hhandle in Heq.
    discriminate.
Qed.

Lemma EIPMessage_eight_byte_handle_witness :
  let command := [x6f; x00] in
  let command_data := [xaa; xbb] in
  let session_handle_id := [x00; x00; x00; x00; x00; x00; x00; x00] in
  let m :=
    {| EIPMessage.command := command;
       EIPMessage.length := [x02; x00];
       EIPMessage.session_handle_id := session_handle_id;
       EIPMessage.status := [x00; x00; x00; x00];
       EIPMessage.sender_context_data := [x00; x00; x00; x00; x00; x00; x00; x00];
       EIPMessage.command_options := [x00; x00; x00; x00];
       EIPMessage.command_data := command_data |} in
  (len command = 2 /\ len session_handle_id = 8 /\
   EIPMessage.__init__ command command_data session_handle_id = Ok m) /\
  (EIPMessage.session_handle_id (EIPMessage.from_bytes m (EIPMessage.bytes m)) =
     take 4 session_handle_id /\
   EIPMessage.status (EIPMessage.from_bytes m (EIPMessage.bytes m)) =
     drop 4 session_handle_id /\
   EIPMessage.command_data (EIPMessage.from_bytes m (EIPMessage.bytes m)) =
     EIPMessage.command_options m ++ command_data /\
   EIPMessage.from_bytes m (EIPMessage.bytes m) <> m).
Proof.
  cbv zeta. split; [repeat split |].
  apply (EIPMessage_eight_byte_handle _ _ [x6f; x00] [xaa; xbb]
           [x00; x00; x00; x00; x00; x00; x00; x00]); reflexivity.
Defined.

(** ** The client and its socket *)

Section Client.
Variable Peer : Type.
Variable connect : str -> Peer -> bool * Peer.
Variable recv_after : pybytes -> Peer -> pybytes * Peer.

Lemma EIPMessage_default_Ok :
  EIPMessage.default =
  Ok {| EIPMessage.command := [x00; x00];
        EIPMessage.length := [x00; x00];
        EIPMessage.session_handle_id := [x00; x00; x00; x00];
        EIPMessage.status := [x00; x00; x00; x00];
        EIPMessage.sender_context_data := [x00; x00; x00; x00; x00; x00; x00; x00];
        EIPMessage.command_options := [x00; x00; x00; x00];
        EIPMessage.command_data := [] |}.
Proof. reflexivity. Qed.

(** [send_command] on a connected client writes the frame of the command,
    and only that, and the message it returns holds the bytes received, up
    to [BUFFER_SIZE] of them, with none lost or changed: encoded again it
    gives them back. *)
Theorem send_command_connected
    (self : EIP.t) (eip_command : EIPMessage.t) (w : EIP.World Peer) :
  EIP.is_connected_explicit self = true ->
  exists reply,
    fst (EIP.send_command Peer recv_after self eip_command w) = Ok reply /\
    EIP.wire (snd (EIP.send_command Peer recv_after self eip_command w)) =
      EIP.wire w ++ [EIPMessage.bytes eip_command] /\
    EIPMessage.bytes reply =
      take (Z.to_nat (EIP.BUFFER_SIZE self))
        (fst (recv_after (EIPMessage.bytes eip_command) (EIP.peer w))).
Proof.
  intros Hconn. unfold EIP.send_command. rewrite EIPMessage_default_Ok, Hconn.
  destruct (recv_after _ (EIP.peer w)) as [ready p]. cbn [fst snd EIP.wire].
  eexists. split; [reflexivity |]. split; [reflexivity |].
  apply EIPMessage_bytes_from_bytes.
Qed.

Lemma send_command_unconnected
    (self : EIP.t) (eip_command : EIPMessage.t) (w : EIP.World Peer) :
  EIP.is_connected_explicit self = false ->
  EIP.send_command Peer recv_after self eip_command w = (EIPMessage.default, w).
Proof.
  intros Hconn. unfold EIP.send_command. rewrite EIPMessage_default_Ok, Hconn.
  reflexivity.
Qed.

Lemma CommonPacketFormat_init_nil :
  CommonPacketFormat.__init__ [] =
  Ok {| CommonPacketFormat.packets :=
          [ {| DataAndAddressItem.type_id := [x00; x00];
               DataAndAddressItem.length := [x00; x00];
               DataAndAddressItem.data := [] |};
            {| DataAndAddressItem.type_id := [x00; x00];
               DataAndAddressItem.length := [x00; x00];
               DataAndAddressItem.data := [] |} ];
        CommonPacketFormat.item_count := 2;
        CommonPacketFormat.packet_bytes :=
          [x00; x00; x00; x00; x00; x00; x00; x00] |}.
Proof. reflexivity. Qed.

(** A call other than [connect_explicit] on a client that is not connected
    leaves it so and writes nothing to the socket. *)
Lemma exec_unconnected (c : EIP.call) (self : EIP.t) (w : EIP.World Peer) :
  connects c = false ->
  EIP.is_connected_explicit self = false ->
  EIP.is_connected_explicit (fst (EIP.exec Peer connect recv_after c (self, w))) = false /\
  snd (EIP.exec Peer connect recv_after c (self, w)) = w.
Proof.
  intros Hc Hconn. destruct c; try discriminate; cbn [EIP.exec fst snd].
  - split; reflexivity.
  - split; [assumption |].
    unfold EIP.list_services, EIP.list_command.
    destruct (EIPMessage.__init__ _ _ _); [| reflexivity].
    rewrite send_command_unconnected, EIPMessage_default_Ok by assumption.
    reflexivity.
  - split; [assumption |].
    unfold EIP.list_identity, EIP.list_command.
    destruct (EIPMessage.__init__ _ _ _); [| reflexivity].
    rewrite send_command_unconnected, EIPMessage_default_Ok by assumption.
    reflexivity.
  - split; [assumption |].
    unfold EIP.list_interfaces, EIP.list_command.
    destruct (EIPMessage.__init__ _ _ _); [| reflexivity].
    rewrite send_command_unconnected, EIPMessage_default_Ok by assumption.
    reflexivity.
  - split; [assumption |].
    unfold EIP.send_rr_data.
    destruct (EIPMessage.__init__ _ _ _); [| reflexivity].
    rewrite send_command_unconnected, EIPMessage_default_Ok by assumption.
    rewrite CommonPacketFormat_init_nil. reflexivity.
  - unfold EIP.register_session.
    destruct (EIPMessage.__init__ _ _ _); [| split; [assumption | reflexivity]].
    rewrite send_command_unconnected, EIPMessage_default_Ok by assumption.
    split; [assumption | reflexivity].
Qed.

(** Nothing is written to the socket before [connect_explicit] is called:
    whatever calls other than [connect_explicit] are made on a client that
    is not connected, in whatever order, the frames written stay as they
    were and the client stays unconnected. *)
Theorem nothing_sent_unconnected
    (calls : list EIP.call) (self : EIP.t) (w : EIP.World Peer) :
  Forall (fun c => connects c = false) calls ->
  EIP.is_connected_explicit self = false ->
  EIP.is_connected_explicit
    (fst (EIP.run Peer connect recv_after calls (self, w))) = false /\
  snd (EIP.run Peer connect recv_after calls (self, w)) = w.
Proof.
  intros Hcalls. revert self.
  induction Hcalls as [| c calls Hc _ IH]; intros self Hconn; [auto |].
  cbn [EIP.run fold_left]. unfold EIP.run in IH.
  destruct (exec_unconnected c self w Hc Hconn) as [Hconn' Hw].
  destruct (EIP.exec Peer connect recv_after c (self, w)) as [self' w'].
  cbn [fst snd] in Hconn', Hw. subst w'. now apply IH.
Qed.

(** [register_session] sets [has_session_handle] whether or not a reply
    was received.  On a connected client it writes one frame of 24 bytes
    and the payload, in which the session handle is zero, and stores bytes
    4 to 8 of what it receives; on a client that is not connected it
    writes nothing and stores four zero bytes. *)
Theorem register_session_outcome
    (self : EIP.t) (command_data : pybytes) (w : EIP.World Peer) :
  len command_data < 65536 ->
  let frame :=
    [x65; x00] ++ le_bytes 2 (len command_data) ++
    [x00; x00; x00; x00] ++ [x00; x00; x00; x00] ++
    [x00; x00; x00; x00; x00; x00; x00; x00] ++ [x00; x00; x00; x00] ++
    command_data in
  let result := EIP.register_session Peer recv_after self command_data w in
  EIP.has_session_handle (snd (fst result)) = true /\
  EIP.is_connected_explicit (snd (fst result)) = EIP.is_connected_explicit self /\
  if EIP.is_connected_explicit self then
    EIP.wire (snd result) = EIP.wire w ++ [frame] /\
    EIP.session_handle_id (snd (fst result)) =
      slice (take (Z.to_nat (EIP.BUFFER_SIZE self))
               (fst (recv_after frame (EIP.peer w)))) 4 8
  else
    snd result = w /\
    EIP.session_handle_id (snd (fst result)) = [x00; x00; x00; x00].
Proof.
  intros Hlen. cbv zeta. unfold EIP.register_session.
  rewrite (EIPMessage_init_Ok _ _ _ Hlen).
  destruct (EIP.is_connected_explicit self) eqn:Hconn.
  - unfold EIP.send_command. rewrite EIPMessage_default_Ok, Hconn.
    unfold EIPMessage.bytes.
    cbn [EIPMessage.command EIPMessage.length EIPMessage.session_handle_id
         EIPMessage.status EIPMessage.sender_context_data
         EIPMessage.command_options EIPMessage.command_data].
    destruct (recv_after _ (EIP.peer w)) as [ready p].
    repeat split.
  - rewrite send_command_unconnected, EIPMessage_default_Ok by assumption.
    repeat split.
Qed.
End Client.

Lemma send_command_connected_witness :
  let self :=
    {| EIP.session_handle_id := [x00; x00; x00; x00];
       EIP.is_connected_explicit := true;
       EIP.has_session_handle := false;
       EIP.BUFFER_SIZE := 4 |} in
  let recv_after := fun (_ : pybytes) (p : unit) => ([x65; x00; x04; x00; x01], p) in
  let eip_command :=
    {| EIPMessage.command := [x65; x00]; EIPMessage.length := [x00; x00];
       EIPMessage.session_handle_id := []; EIPMessage.status := [];
       EIPMessage.sender_context_data := []; EIPMessage.command_options := [];
       EIPMessage.command_data := [] |} in
  let w := {| EIP.peer := tt; EIP.wire := [] |} in
  EIP.is_connected_explicit self = true /\
  exists reply,
    fst (EIP.send_command unit recv_after self eip_command w) = Ok reply /\
    EIP.wire (snd (EIP.send_command unit recv_after self eip_command w)) =
      EIP.wire w ++ [EIPMessage.bytes eip_command] /\
    EIPMessage.bytes reply =
      take (Z.to_nat (EIP.BUFFER_SIZE self))
        (fst (recv_after (EIPMessage.bytes eip_command) (EIP.peer w))).
Proof.
  cbv zeta. split; [reflexivity |].
  apply send_command_connected. reflexivity.
Defined.

Lemma nothing_sent_unconnected_witness :
  let connect := fun (_ : str) (p : unit) => (true, p) in
  let recv_after := fun (_ : pybytes) (p : unit) => ([x65; x00], p) in
  let calls := [EIP.ListServices; EIP.RegisterSession [x01; x00; x00; x00];
                EIP.SendRRData 1 [x00]; EIP.Close] in
  let w := {| EIP.peer := tt; EIP.wire := [] |} in
  (Forall (fun c => connects c = false) calls /\
   EIP.is_connected_explicit EIP.__init__ = false) /\
  (EIP.is_connected_explicit
     (fst (EIP.run unit connect recv_after calls (EIP.__init__, w))) = false /\
   snd (EIP.run unit connect recv_after calls (EIP.__init__, w)) = w).
Proof.
  cbv zeta. split; [split; [repeat constructor | reflexivity] |].
  apply nothing_sent_unconnected; [repeat constructor | reflexivity].
Defined.

Lemma register_session_outcome_witness :
  let self :=
    {| EIP.session_handle_id := [x00; x00; x00; x00; x00; x00; x00; x00];
       EIP.is_connected_explicit := true;
       EIP.has_session_handle := false;
       EIP.BUFFER_SIZE := 4096 |} in
  let recv_after :=
    fun (_ : pybytes) (p : unit) =>
      ([x65; x00; x04; x00; x0a; x0b; x0c; x0d; x00; x00; x00; x00], p) in
  let w := {| EIP.peer := tt; EIP.wire := [] |} in
  len [x01; x00; x00; x00] < 65536 /\
  EIP.session_handle_id
    (snd (fst (EIP.register_session unit recv_after self [x01; x00; x00; x00] w))) =
  [x0a; x0b; x0c; x0d].
Proof.
  cbv zeta. split; [reflexivity |].
  exact (proj2 (proj2 (proj2
    (register_session_outcome unit
       (fun _ p => ([x65; x00; x04; x00; x0a; x0b; x0c; x0d; x00; x00; x00; x00], p))
       {| EIP.session_handle_id := [x00; x00; x00; x00; x00; x00; x00; x00];
          EIP.is_connected_explicit := true;
          EIP.has_session_handle := false;
          EIP.BUFFER_SIZE := 4096 |}
       [x01; x00; x00; x00] {| EIP.peer := tt; EIP.wire := [] |}
       eq_refl)))).
Defined.

(** ** Packet items and the Common Packet Format, encoded and decoded *)

(** An item built from a type identifier of two bytes is decoded from its
    bytes as it was built; its length field reads as the number of bytes
    of its data, and its encoding is four bytes longer than its data. *)
Theorem DataAndAddressItem_round_trip
    (self item : DataAndAddressItem.t) (type_id data : pybytes) :
  len type_id = 2 ->
  DataAndAddressItem.__init__ type_id data = Ok item ->
  DataAndAddressItem.from_bytes self (DataAndAddressItem.bytes item) = item /\
  int_from_bytes (DataAndAddressItem.length item) = len data /\
  len (DataAndAddressItem.bytes item) = 4 + len data /\
  item_ok item.
Proof.
  intros Hid Hitem. unfold DataAndAddressItem.__init__ in Hitem.
  destruct (to_bytes (len data) 2) as [l |] eqn:Hl; [| discriminate].
  apply to_bytes_inv in Hl as [Hrange ->]. injection Hitem as <-.
  destruct (len_2_inv _ Hid) as (t0 & t1 & ->).
  pose proof (len_nonneg data) as Hn.
  change (256 ^ Z.of_nat 2) with 65536 in Hrange.
  split; [| split; [| split]].
  - unfold DataAndAddressItem.from_bytes, DataAndAddressItem.bytes.
    cbn [DataAndAddressItem.type_id DataAndAddressItem.length
         DataAndAddressItem.data le_bytes app].
    f_equal; slice_prefix; reflexivity.
  - apply (int_from_le_bytes 2). exact Hrange.
  - unfold DataAndAddressItem.bytes.
    cbn [DataAndAddressItem.type_id DataAndAddressItem.length
         DataAndAddressItem.data le_bytes app].
    rewrite !len_cons. lia.
  - repeat split. cbn. lia.
Qed.

Lemma DataAndAddressItem_round_trip_witness :
  let item :=
    {| DataAndAddressItem.type_id := [xb2; x00];
       DataAndAddressItem.length := [x03; x00];
       DataAndAddressItem.data := [x4c; x02; x91] |} in
  (len [xb2; x00] = 2 /\
   DataAndAddressItem.__init__ [xb2; x00] [x4c; x02; x91] = Ok item) /\
  (DataAndAddressItem.from_bytes item (DataAndAddressItem.bytes item) = item /\
   int_from_bytes (DataAndAddressItem.length item) = len [x4c; x02; x91] /\
   len (DataAndAddressItem.bytes item) = 4 + len [x4c; x02; x91] /\
   item_ok item).
Proof.
  cbv zeta. split; [split; reflexivity |].
  apply (DataAndAddressItem_round_trip _ _ [xb2; x00] [x4c; x02; x91]); reflexivity.
Defined.

Lemma null_item_ok : item_ok null_item.
Proof. repeat split. Qed.

(** [CommonPacketFormat(packets)] never raises.  It puts null address items
    before the packets it is given until there are two, counts the items
    it then has, and concatenates their bytes. *)
Theorem CommonPacketFormat_init_pads (packets : list DataAndAddressItem.t) :
  exists cpf,
    CommonPacketFormat.__init__ packets = Ok cpf /\
    CommonPacketFormat.packets cpf =
      repeat null_item (2 - length packets) ++ packets /\
    CommonPacketFormat.item_count cpf = Z.max 2 (len packets) /\
    CommonPacketFormat.item_count cpf = len (CommonPacketFormat.packets cpf) /\
    CommonPacketFormat.packet_bytes cpf =
      concat (map DataAndAddressItem.bytes (CommonPacketFormat.packets cpf)).
Proof.
  unfold CommonPacketFormat.__init__.
  change (DataAndAddressItem.__init__ DataAndAddressItem.NULL_ADDRESS_ITEM [])
    with (Ok null_item).
  cbn [res_bind]. eexists. split; [reflexivity |].
  cbn [CommonPacketFormat.packets CommonPacketFormat.item_count
       CommonPacketFormat.packet_bytes].
  destruct packets as [| p [| q r]].
  - repeat split.
  - repeat split.
  - cbn [length Nat.sub repeat app]. rewrite !len_cons.
    pose proof (len_nonneg r). repeat split. lia.
Qed.

(** What the constructor makes of well-formed items. *)
Lemma CommonPacketFormat_init_inv
    (packets : list DataAndAddressItem.t) (cpf : CommonPacketFormat.t) :
  Forall item_ok packets ->
  CommonPacketFormat.__init__ packets = Ok cpf ->
  Forall item_ok (CommonPacketFormat.packets cpf) /\
  CommonPacketFormat.item_count cpf = len (CommonPacketFormat.packets cpf) /\
  CommonPacketFormat.packet_bytes cpf =
    concat (map DataAndAddressItem.bytes (CommonPacketFormat.packets cpf)) /\
  len (CommonPacketFormat.packets cpf) = Z.max 2 (len packets).
Proof.
  intros Hok. unfold CommonPacketFormat.__init__.
  change (DataAndAddressItem.__init__ DataAndAddressItem.NULL_ADDRESS_ITEM [])
    with (Ok null_item).
  cbn [res_bind]. intros [= <-].
  cbn [CommonPacketFormat.packets CommonPacketFormat.item_count
       CommonPacketFormat.packet_bytes].
  pose proof null_item_ok as Hnull.
  destruct packets as [| p [| q r]].
  - repeat split. repeat (apply Forall_cons; split; [assumption |]). constructor.
  - apply Forall_cons in Hok as [Hp _]. repeat split.
    repeat (apply Forall_cons; split; [assumption |]). constructor.
  - repeat split; [assumption |]. rewrite !len_cons. pose proof (len_nonneg r). lia.
Qed.

Lemma len_item_bytes (x : DataAndAddressItem.t) :
  item_ok x ->
  len (DataAndAddressItem.bytes x) = 4 + len (DataAndAddressItem.data x).
Proof.
  intros (Hid & _ & Hlen). unfold DataAndAddressItem.bytes.
  rewrite !len_app, Hid, Hlen, len_le_bytes. lia.
Qed.

(** One turn of the decoding loop at the encoding of a well-formed item:
    the item is stored as it was encoded and the offset is after it. *)
Lemma next_item_encoded (pre rest : pybytes) (x : DataAndAddressItem.t)
    (idx : nat) (s : list DataAndAddressItem.t) :
  item_ok x -> (idx < length s)%nat ->
  CommonPacketFormat.next_item (pre ++ DataAndAddressItem.bytes x ++ rest)
    {| CommonPacketFormat.packet_offset := len pre;
       CommonPacketFormat.packet_index := Z.of_nat idx;
       CommonPacketFormat.slots := s |} =
  Ok {| CommonPacketFormat.packet_offset := len (pre ++ DataAndAddressItem.bytes x);
        CommonPacketFormat.packet_index := Z.of_nat (S idx);
        CommonPacketFormat.slots := <[idx := x]> s |}.
Proof.
  intros Hx Hidx. pose proof (len_item_bytes x Hx) as Hbytes.
  destruct Hx as (Hid & Hdata & Hlen).
  pose proof (len_nonneg pre) as Hpre.
  pose proof (len_nonneg (DataAndAddressItem.data x)) as Hd.
  rewrite next_item_Ok;
    cbn [CommonPacketFormat.packet_offset CommonPacketFormat.packet_index
         CommonPacketFormat.slots]; [| lia | unfold len; lia].
  unfold DataAndAddressItem.bytes. rewrite <- !app_assoc.
  set (tail := DataAndAddressItem.data x ++ rest).
  assert (Hl : slice (pre ++ DataAndAddressItem.type_id x ++
                      DataAndAddressItem.length x ++ tail)
                 (len pre + 2) (len pre + 4) = DataAndAddressItem.length x).
  { rewrite slice_app_r by lia. rewrite <- Hid at 1.
    replace 4 with (len (DataAndAddressItem.type_id x) +
                    len (DataAndAddressItem.length x))
      by (rewrite Hid, Hlen, len_le_bytes; lia).
    apply slice_app_second. }
  rewrite Hl.
  assert (Hn : int_from_bytes (DataAndAddressItem.length x) =
               len (DataAndAddressItem.data x)).
  { rewrite Hlen. apply (int_from_le_bytes 2).
    change (256 ^ Z.of_nat 2) with 65536. lia. }
  rewrite Hn.
  assert (Ht : slice (pre ++ DataAndAddressItem.type_id x ++
                      DataAndAddressItem.length x ++ tail)
                 (len pre) (len pre + 2) = DataAndAddressItem.type_id x).
  { replace (len pre) with (len pre + 0) at 1 by lia.
    rewrite slice_app_r by lia. rewrite <- Hid. apply slice_app_first. }
  rewrite Ht.
  assert (Hdt : slice (pre ++ DataAndAddressItem.type_id x ++
                       DataAndAddressItem.length x ++ tail)
                  (len pre + 4) (len pre + len (DataAndAddressItem.data x) + 4) =
                DataAndAddressItem.data x).
  { assert (Hlen2 : len (DataAndAddressItem.length x) = 2)
      by (rewrite Hlen, len_le_bytes; lia).
    replace (len pre + len (DataAndAddressItem.data x) + 4)
      with (len pre + (len (DataAndAddressItem.type_id x) +
                       (len (DataAndAddressItem.length x) +
                        len (DataAndAddressItem.data x)))) by lia.
    replace (len pre + 4)
      with (len pre + (len (DataAndAddressItem.type_id x) +
                       (len (DataAndAddressItem.length x) + 0))) by lia.
    rewrite !slice_app_r by lia. apply slice_app_first. }
  rewrite Hdt, <- Hlen, Nat2Z.id.
  f_equal. f_equal.
  - rewrite !len_app, Hid, Hlen, len_le_bytes. lia.
  - lia.
  - destruct x; reflexivity.
Qed.

(** The decoding loop over the encodings of well-formed items stores them
    in consecutive places, from the place of the first one on, one item
    per turn, and goes on with what follows them in the buffer. *)
Lemma decode_items_then (l : list DataAndAddressItem.t) (fuel : nat) :
  forall (pre rest : pybytes) (idx : nat) (s : list DataAndAddressItem.t),
  Forall item_ok l -> (idx + length l <= length s)%nat ->
  let packet_bytes := pre ++ concat (map DataAndAddressItem.bytes l) ++ rest in
  while (length l + fuel) (CommonPacketFormat.more packet_bytes)
    (CommonPacketFormat.next_item packet_bytes)
    {| CommonPacketFormat.packet_offset := len pre;
       CommonPacketFormat.packet_index := Z.of_nat idx;
       CommonPacketFormat.slots := s |} =
  while fuel (CommonPacketFormat.more packet_bytes)
    (CommonPacketFormat.next_item packet_bytes)
    {| CommonPacketFormat.packet_offset :=
         len (pre ++ concat (map DataAndAddressItem.bytes l));
       CommonPacketFormat.packet_index := Z.of_nat (idx + length l);
       CommonPacketFormat.slots := take idx s ++ l ++ drop (idx + length l) s |}.
Proof.
  induction l as [| x l IH]; intros pre rest idx s Hok Hlen; cbv zeta.
  - cbn [map concat length app Nat.add].
    now rewrite app_nil_r, Nat.add_0_r, take_drop.
  - apply Forall_cons in Hok as [Hx Hl]. cbn [length] in Hlen.
    cbn [map concat length Nat.add].
    pose proof (len_item_bytes x Hx) as Hbytes.
    pose proof (len_nonneg (DataAndAddressItem.data x)) as Hd.
    rewrite <- (app_assoc (DataAndAddressItem.bytes x)).
    set (tail := concat (map DataAndAddressItem.bytes l) ++ rest).
    assert (Hmore : CommonPacketFormat.more
                      (pre ++ DataAndAddressItem.bytes x ++ tail)
                      {| CommonPacketFormat.packet_offset := len pre;
                         CommonPacketFormat.packet_index := Z.of_nat idx;
                         CommonPacketFormat.slots := s |} = true).
    { unfold CommonPacketFormat.more. cbn [CommonPacketFormat.packet_offset].
      apply Z.ltb_lt. rewrite !len_app. pose proof (len_nonneg tail). lia. }
    rewrite (while_step _ _ _ _ _ Hmore
               (next_item_encoded pre _ x idx s Hx ltac:(lia))).
    unfold tail. rewrite (app_assoc pre).
    rewrite (IH (pre ++ DataAndAddressItem.bytes x) rest (S idx) (<[idx := x]> s) Hl)
      by (rewrite length_insert; lia).
    replace (S idx + length l)%nat with (idx + S (length l))%nat by lia.
    rewrite (take_S_r _ _ x) by (apply list_lookup_insert_eq; lia).
    rewrite take_insert_ge by lia.
    rewrite drop_insert_lt by lia.
    now rewrite <- !app_assoc.
Qed.

Lemma decode_items (l : list DataAndAddressItem.t) (fuel : nat)
    (pre : pybytes) (idx : nat) (s : list DataAndAddressItem.t) :
  Forall item_ok l -> (idx + length l <= length s)%nat ->
  let packet_bytes := pre ++ concat (map DataAndAddressItem.bytes l) in
  while (length l + fuel) (CommonPacketFormat.more packet_bytes)
    (CommonPacketFormat.next_item packet_bytes)
    {| CommonPacketFormat.packet_offset := len pre;
       CommonPacketFormat.packet_index := Z.of_nat idx;
       CommonPacketFormat.slots := s |} =
  Some (Ok {| CommonPacketFormat.packet_offset := len packet_bytes;
              CommonPacketFormat.packet_index := Z.of_nat (idx + length l);
              CommonPacketFormat.slots :=
                take idx s ++ l ++ drop (idx + length l) s |}).
Proof.
  intros Hok Hlen. cbv zeta.
  pose proof (decode_items_then l fuel pre [] idx s Hok Hlen) as Hloop.
  cbv zeta in Hloop. rewrite app_nil_r in Hloop. rewrite Hloop.
  apply while_done. apply Z.ltb_irrefl.
Qed.

(** A turn of the decoding loop for which the packet list has no place. *)
Lemma next_item_no_place (packet_bytes : pybytes) (c : CommonPacketFormat.cursor) :
  0 <= CommonPacketFormat.packet_offset c ->
  len (CommonPacketFormat.slots c) <= CommonPacketFormat.packet_index c ->
  CommonPacketFormat.next_item packet_bytes c = Raise IndexError.
Proof.
  intros Ho Hi. unfold CommonPacketFormat.next_item.
  set (o := CommonPacketFormat.packet_offset c).
  set (l := int_from_bytes (slice packet_bytes (o + 2) (o + 4))).
  set (d := slice packet_bytes (o + 4) (o + l + 4)).
  pose proof (item_length_range packet_bytes o Ho) as Hl. fold l in Hl.
  assert (Hd : len d < 65536).
  { unfold d. rewrite len_slice by lia. pose proof (len_nonneg packet_bytes). lia. }
  rewrite (DataAndAddressItem_init_Ok _ _ Hd). cbn [res_bind].
  unfold list_assign. pose proof (len_nonneg (CommonPacketFormat.slots c)).
  destruct (Z.ltb_spec (CommonPacketFormat.packet_index c) 0); [lia |].
  destruct (Z.ltb_spec (CommonPacketFormat.packet_index c)
              (len (CommonPacketFormat.slots c))); [lia |].
  now rewrite andb_false_r.
Qed.

(** A Common Packet Format built from well-formed items is decoded from
    its bytes as it was built, by an object that has a place for each of
    its items: the items come back in their order, followed by what the
    decoding object had in its further places; the item count and the item
    bytes are those of the encoder.  The loop makes one turn per item. *)
Theorem CommonPacketFormat_round_trip
    (self cpf : CommonPacketFormat.t) (packets : list DataAndAddressItem.t)
    (fuel : nat) :
  Forall item_ok packets ->
  len packets < 65536 ->
  CommonPacketFormat.__init__ packets = Ok cpf ->
  (length (CommonPacketFormat.packets cpf) <=
   length (CommonPacketFormat.packets self))%nat ->
  exists buf,
    CommonPacketFormat.bytes cpf = Ok buf /\
    CommonPacketFormat.from_bytes
      (length (CommonPacketFormat.packets cpf) + fuel) self buf =
    Some (Ok {| CommonPacketFormat.packets :=
                  CommonPacketFormat.packets cpf ++
                  drop (length (CommonPacketFormat.packets cpf))
                       (CommonPacketFormat.packets self);
                CommonPacketFormat.item_count := CommonPacketFormat.item_count cpf;
                CommonPacketFormat.packet_bytes :=
                  CommonPacketFormat.packet_bytes cpf |}).
Proof.
  intros Hok Hmany Hcpf Hplaces.
  destruct (CommonPacketFormat_init_inv _ _ Hok Hcpf) as (Hitems & Hcount & Hbytes & Hlen).
  pose proof (len_nonneg packets) as Hn.
  assert (Hrange : 0 <= CommonPacketFormat.item_count cpf < 256 ^ Z.of_nat 2).
  { change (256 ^ Z.of_nat 2) with 65536. lia. }
  exists (le_bytes 2 (CommonPacketFormat.item_count cpf) ++
          CommonPacketFormat.packet_bytes cpf).
  split.
  - unfold CommonPacketFormat.bytes. now rewrite (to_bytes_Ok _ _ Hrange).
  - unfold CommonPacketFormat.from_bytes.
    set (n := le_bytes 2 (CommonPacketFormat.item_count cpf)).
    assert (Hn2 : len n = 2) by (unfold n; rewrite len_le_bytes; lia).
    rewrite <- Hn2, slice_app_first, slice_from_app_rest.
    unfold n. rewrite (int_from_le_bytes 2 _ Hrange), Hbytes.
    pose proof (decode_items (CommonPacketFormat.packets cpf) fuel [] 0
                  (CommonPacketFormat.packets self) Hitems Hplaces) as Hloop.
    cbv zeta in Hloop. rewrite take_0 in Hloop. cbn [app Nat.add] in Hloop.
    change (len (@nil byte)) with 0 in Hloop. change (Z.of_nat 0) with 0 in Hloop.
    rewrite Hloop. cbn [CommonPacketFormat.slots]. reflexivity.
Qed.

Lemma CommonPacketFormat_round_trip_witness :
  let item :=
    {| DataAndAddressItem.type_id := [xb2; x00];
       DataAndAddressItem.length := [x03; x00];
       DataAndAddressItem.data := [x4c; x02; x91] |} in
  let cpf :=
    {| CommonPacketFormat.packets := [null_item; item];
       CommonPacketFormat.item_count := 2;
       CommonPacketFormat.packet_bytes :=
         [x00; x00; x00; x00; xb2; x00; x03; x00; x4c; x02; x91] |} in
  let self :=
    {| CommonPacketFormat.packets := [null_item; null_item];
       CommonPacketFormat.item_count := 2;
       CommonPacketFormat.packet_bytes :=
         [x00; x00; x00; x00; x00; x00; x00; x00] |} in
  (Forall item_ok [item] /\
   len [item] < 65536 /\
   CommonPacketFormat.__init__ [item] = Ok cpf /\
   (length (CommonPacketFormat.packets cpf) <=
    length (CommonPacketFormat.packets self))%nat) /\
  exists buf,
    CommonPacketFormat.bytes cpf = Ok buf /\
    CommonPacketFormat.from_bytes
      (length (CommonPacketFormat.packets cpf) + 0) self buf =
    Some (Ok {| CommonPacketFormat.packets :=
                  CommonPacketFormat.packets cpf ++
                  drop (length (CommonPacketFormat.packets cpf))
                       (CommonPacketFormat.packets self);
                CommonPacketFormat.item_count := CommonPacketFormat.item_count cpf;
                CommonPacketFormat.packet_bytes :=
                  CommonPacketFormat.packet_bytes cpf |}).
Proof.
  cbv zeta.
  assert (Hitems : Forall item_ok
            [{| DataAndAddressItem.type_id := [xb2; x00];
                DataAndAddressItem.length := [x03; x00];
                DataAndAddressItem.data := [x4c; x02; x91] |}]).
  { apply Forall_cons; split; [repeat split | constructor]. }
  split.
  - split; [exact Hitems |]. split; [reflexivity |]. split; [reflexivity |].
    cbn. lia.
  - apply (CommonPacketFormat_round_trip _ _ _ 0 Hitems);
      [reflexivity | reflexivity | cbn; lia].
Defined.

(** The bytes of more well-formed items than the decoding object has
    places cannot be decoded: the items that have a place are stored, one
    per turn of the loop, and the turn for the first item without a place
    raises [IndexError], whatever the item count at the head of the buffer
    says. *)
Theorem CommonPacketFormat_from_bytes_no_place
    (self : CommonPacketFormat.t) (items : list DataAndAddressItem.t)
    (count : pybytes) (fuel : nat) :
  Forall item_ok items ->
  len count = 2 ->
  (length (CommonPacketFormat.packets self) < length items)%nat ->
  CommonPacketFormat.from_bytes
    (S (length (CommonPacketFormat.packets self)) + fuel) self
    (count ++ concat (map DataAndAddressItem.bytes items)) =
  Some (Raise IndexError).
Proof.
  intros Hok Hcount Hmore.
  set (k := length (CommonPacketFormat.packets self)) in *.
  destruct (lookup_lt_is_Some_2 items k Hmore) as [x Hx].
  pose proof (take_drop_middle items k x Hx) as Hsplit.
  assert (Hk : length (take k items) = k) by (rewrite length_take; lia).
  rewrite <- Hsplit in Hok.
  apply Forall_app in Hok as [Hfirst Hrest].
  apply Forall_cons in Hrest as [Hitem _].
  unfold CommonPacketFormat.from_bytes.
  rewrite <- Hcount, slice_from_app_rest.
  rewrite <- Hsplit, map_app, concat_app. cbn [map concat].
  pose proof (decode_items_then (take k items) (S fuel) []
                (DataAndAddressItem.bytes x ++
                 concat (map DataAndAddressItem.bytes (drop (S k) items)))
                0 (CommonPacketFormat.packets self) Hfirst ltac:(fold k; lia))
    as Hloop.
  cbv zeta in Hloop. rewrite Hk in Hloop. cbn [app Nat.add] in Hloop.
  change (len (@nil byte)) with 0 in Hloop. change (Z.of_nat 0) with 0 in Hloop.
  replace (S k + fuel)%nat with (k + S fuel)%nat by lia.
  rewrite Hloop.
  pose proof (len_item_bytes x Hitem) as Hbytes.
  pose proof (len_nonneg (DataAndAddressItem.data x)) as Hd.
  rewrite while_raise with (e := IndexError); [reflexivity | |].
  - unfold CommonPacketFormat.more. cbn [CommonPacketFormat.packet_offset].
    apply Z.ltb_lt. rewrite !len_app.
    pose proof (len_nonneg
                  (concat (map DataAndAddressItem.bytes (drop (S k) items)))).
    lia.
  - apply next_item_no_place;
      cbn [CommonPacketFormat.packet_offset CommonPacketFormat.packet_index
           CommonPacketFormat.slots].
    + apply len_nonneg.
    + rewrite take_0. cbn [app].
      rewrite drop_ge by (fold k; lia). rewrite app_nil_r.
      unfold len. rewrite Hk. lia.
Qed.

Lemma CommonPacketFormat_from_bytes_no_place_witness :
  let item :=
    {| DataAndAddressItem.type_id := [xb2; x00];
       DataAndAddressItem.length := [x01; x00];
       DataAndAddressItem.data := [x4c] |} in
  let self :=
    {| CommonPacketFormat.packets := [null_item; null_item];
       CommonPacketFormat.item_count := 2;
       CommonPacketFormat.packet_bytes :=
         [x00; x00; x00; x00; x00; x00; x00; x00] |} in
  (Forall item_ok [null_item; item; item] /\
   len [x03; x00] = 2 /\
   (length (CommonPacketFormat.packets self) < length [null_item; item; item])%nat) /\
  CommonPacketFormat.from_bytes
    (S (length (CommonPacketFormat.packets self)) + 0) self
    ([x03; x00] ++
     concat (map DataAndAddressItem.bytes [null_item; item; item])) =
  Some (Raise IndexError).
Proof.
  cbv zeta.
  assert (Hitems : Forall item_ok
            [null_item;
             {| DataAndAddressItem.type_id := [xb2; x00];
                DataAndAddressItem.length := [x01; x00];
                DataAndAddressItem.data := [x4c] |};
             {| DataAndAddressItem.type_id := [xb2; x00];
                DataAndAddressItem.length := [x01; x00];
                DataAndAddressItem.data := [x4c] |}]).
  { repeat (apply Forall_cons; split; [repeat split |]). constructor. }
  split.
  - split; [exact Hitems |]. split; [reflexivity | cbn; lia].
  - apply (CommonPacketFormat_from_bytes_no_place _ _ _ 0 Hitems);
      [reflexivity | cbn; lia].
Defined.

(** The decoding loop ends within one turn per four bytes that are left,
    raising nothing but the [IndexError] of an item without a place, and
    it leaves the number of places as it was. *)
Lemma from_bytes_loop_outcome (packet_bytes : pybytes) (fuel : nat) :
  forall c : CommonPacketFormat.cursor,
  0 <= CommonPacketFormat.packet_offset c ->
  0 <= CommonPacketFormat.packet_index c ->
  len packet_bytes - CommonPacketFormat.packet_offset c <= 4 * Z.of_nat fuel ->
  while fuel (CommonPacketFormat.more packet_bytes)
    (CommonPacketFormat.next_item packet_bytes) c = Some (Raise IndexError) \/
  exists c',
    while fuel (CommonPacketFormat.more packet_bytes)
      (CommonPacketFormat.next_item packet_bytes) c = Some (Ok c') /\
    length (CommonPacketFormat.slots c') = length (CommonPacketFormat.slots c).
Proof.
  induction fuel as [| fuel IH]; intros c Ho Hi Hfuel.
  - right. exists c. split; [| reflexivity].
    apply while_done. apply Z.ltb_ge. lia.
  - destruct (CommonPacketFormat.more packet_bytes c) eqn:Hmore.
    2: { right. exists c. split; [| reflexivity]. now apply while_done. }
    destruct (Z.lt_ge_cases (CommonPacketFormat.packet_index c)
                (len (CommonPacketFormat.slots c))) as [Hplace | Hnone].
    + pose proof (next_item_Ok packet_bytes c Ho (conj Hi Hplace)) as Hturn.
      cbv zeta in Hturn. rewrite (while_step _ _ _ _ _ Hmore Hturn).
      pose proof (item_length_range packet_bytes _ Ho) as Hl.
      match goal with
      | |- context [while fuel _ _ ?c1] => destruct (IH c1) as [Hr | (c' & Hr & Hn)]
      end;
        cbn [CommonPacketFormat.packet_offset CommonPacketFormat.packet_index];
        try lia.
      * now left.
      * right. exists c'. split; [exact Hr |].
        rewrite Hn. cbn [CommonPacketFormat.slots]. apply length_insert.
    + left. apply while_raise; [exact Hmore |].
      now apply next_item_no_place.
Qed.

(** Decoding a Common Packet Format ends for every buffer, within one turn
    of the loop per four bytes after the item count.  It raises nothing
    but [IndexError]; when it returns, the object has as many places as
    before, its item count is the number read from the first two bytes,
    whatever the number of items that followed, and its item bytes are the
    rest of the buffer. *)
Theorem CommonPacketFormat_from_bytes_outcome
    (self : CommonPacketFormat.t) (buf : pybytes) (fuel : nat) :
  len buf - 2 <= 4 * Z.of_nat fuel ->
  CommonPacketFormat.from_bytes fuel self buf = Some (Raise IndexError) \/
  exists packets,
    length packets = length (CommonPacketFormat.packets self) /\
    CommonPacketFormat.from_bytes fuel self buf =
    Some (Ok {| CommonPacketFormat.packets := packets;
                CommonPacketFormat.item_count := int_from_bytes (slice buf 0 2);
                CommonPacketFormat.packet_bytes := slice_from buf 2 |}).
Proof.
  intros Hfuel. unfold CommonPacketFormat.from_bytes.
  destruct (from_bytes_loop_outcome (slice_from buf 2) fuel
              {| CommonPacketFormat.packet_offset := 0;
                 CommonPacketFormat.packet_index := 0;
                 CommonPacketFormat.slots := CommonPacketFormat.packets self |})
    as [Hr | (c' & Hr & Hn)];
    cbn [CommonPacketFormat.packet_offset CommonPacketFormat.packet_index];
    try lia.
  - rewrite len_slice_from by lia. lia.
  - left. now rewrite Hr.
  - right. exists (CommonPacketFormat.slots c'). split; [exact Hn |].
    now rewrite Hr.
Qed.

Lemma CommonPacketFormat_from_bytes_outcome_witness :
  let buf := [x01; x00; xb2; x00; x05; x00; x41] in
  let self :=
    {| CommonPacketFormat.packets := [null_item; null_item];
       CommonPacketFormat.item_count := 2;
       CommonPacketFormat.packet_bytes :=
         [x00; x00; x00; x00; x00; x00; x00; x00] |} in
  len buf - 2 <= 4 * Z.of_nat 2 /\
  (CommonPacketFormat.from_bytes 2 self buf = Some (Raise IndexError) \/
   exists packets,
     length packets = length (CommonPacketFormat.packets self) /\
     CommonPacketFormat.from_bytes 2 self buf =
     Some (Ok {| CommonPacketFormat.packets := packets;
                 CommonPacketFormat.item_count := int_from_bytes (slice buf 0 2);
                 CommonPacketFormat.packet_bytes := slice_from buf 2 |})).
Proof.
  cbv zeta. split; [vm_compute; discriminate |].
  apply CommonPacketFormat_from_bytes_outcome. vm_compute. discriminate.
Defined.

(** ** CIP requests and replies, encoded and decoded *)

Lemma slice_empty {A : Type} (b : list A) (i j : Z) :
  0 <= j <= i -> slice b i j = [].
Proof.
  intros Hji. rewrite slice_nonneg by lia.
  replace (Z.to_nat (Z.min j (len b) - Z.min i (len b))) with 0%nat by lia.
  reflexivity.
Qed.

(** Two slices that meet make one slice. *)
Lemma slice_slice {A : Type} (b : list A) (i j k : Z) :
  0 <= i <= j -> j <= k -> slice b i j ++ slice b j k = slice b i k.
Proof.
  intros Hij Hjk. rewrite !slice_nonneg by lia.
  pose proof (len_nonneg b) as Hn.
  set (i' := Z.to_nat (Z.min i (len b))).
  set (j' := Z.to_nat (Z.min j (len b))).
  set (k' := Z.to_nat (Z.min k (len b))).
  replace (Z.to_nat (Z.min j (len b) - Z.min i (len b))) with (j' - i')%nat by lia.
  replace (Z.to_nat (Z.min k (len b) - Z.min j (len b))) with (k' - j')%nat by lia.
  replace (Z.to_nat (Z.min k (len b) - Z.min i (len b)))
    with ((j' - i') + (k' - j'))%nat by lia.
  replace (drop j' b) with (drop (j' - i') (drop i' b))
    by (rewrite drop_drop; f_equal; lia).
  apply take_take_drop.
Qed.

(** The bytes of a decoded reply are the buffer without the four bytes
    before its reply data, or, for an extended status of up to two words,
    without those words: the extended status is sliced from offset 4 to
    twice its size in words, not to 4 plus twice its size. *)
Theorem CIPReply_bytes_init (reply_bytes : pybytes) :
  let k := int_from_bytes (slice reply_bytes 3 4) in
  CIPReply.bytes (CIPReply.__init__ reply_bytes) =
    slice reply_bytes 0 (Z.max 4 (2 * k)) ++ slice_from reply_bytes (4 + 2 * k).
Proof.
  cbv zeta. unfold CIPReply.bytes, CIPReply.__init__.
  cbn [CIPReply.reply_service CIPReply.reserved CIPReply.general_status
       CIPReply.extended_status_size CIPReply.extended_status CIPReply.reply_data].
  set (k := int_from_bytes (slice reply_bytes 3 4)).
  pose proof (int_from_bytes_range (slice reply_bytes 3 4)) as [Hk _]. fold k in Hk.
  replace (k * 2) with (2 * k) by lia.
  rewrite !app_assoc. f_equal. rewrite <- !app_assoc.
  destruct (Z.le_gt_cases (2 * k) 4) as [Hle | Hgt].
  - rewrite (slice_empty reply_bytes 4 (2 * k)) by lia. rewrite app_nil_r.
    rewrite Z.max_l by lia.
    rewrite (slice_slice reply_bytes 2 3 4) by lia.
    rewrite (slice_slice reply_bytes 1 2 4) by lia.
    apply slice_slice; lia.
  - rewrite Z.max_r by lia.
    rewrite (slice_slice reply_bytes 3 4 (2 * k)) by lia.
    rewrite (slice_slice reply_bytes 2 3 (2 * k)) by lia.
    rewrite (slice_slice reply_bytes 1 2 (2 * k)) by lia.
    apply slice_slice; lia.
Qed.

(** A reply whose extended-status size is zero (or absent: a buffer of
    three bytes or fewer) is encoded back to the buffer it was decoded
    from. *)
Theorem CIPReply_round_trip (reply_bytes : pybytes) :
  int_from_bytes (slice reply_bytes 3 4) = 0 ->
  CIPReply.bytes (CIPReply.__init__ reply_bytes) = reply_bytes /\
  CIPReply.extended_status (CIPReply.__init__ reply_bytes) = [] /\
  CIPReply.reply_data (CIPReply.__init__ reply_bytes) = slice_from reply_bytes 4.
Proof.
  intros Hk. unfold CIPReply.bytes, CIPReply.__init__.
  cbn [CIPReply.reply_service CIPReply.reserved CIPReply.general_status
       CIPReply.extended_status_size CIPReply.extended_status CIPReply.reply_data].
  rewrite Hk. change (0 * 2) with 0. change (4 + 0) with 4.
  rewrite (slice_empty reply_bytes 4 0) by lia. cbn [app].
  repeat split.
  rewrite (slice_slice_from reply_bytes 3 4) by lia.
  rewrite (slice_slice_from reply_bytes 2 3) by lia.
  rewrite (slice_slice_from reply_bytes 1 2) by lia.
  rewrite (slice_slice_from reply_bytes 0 1) by lia.
  apply slice_from_0.
Qed.

Lemma CIPReply_round_trip_witness :
  let reply_bytes := [xcc; x00; x00; x00; x2a; x00] in
  int_from_bytes (slice reply_bytes 3 4) = 0 /\
  (CIPReply.bytes (CIPReply.__init__ reply_bytes) = reply_bytes /\
   CIPReply.extended_status (CIPReply.__init__ reply_bytes) = [] /\
   CIPReply.reply_data (CIPReply.__init__ reply_bytes) = slice_from reply_bytes 4).
Proof.
  cbv zeta. split; [reflexivity |].
  apply CIPReply_round_trip. reflexivity.
Defined.

(** The size byte of a request counts the words of a symbolic path
    exactly: the path of a tag has an even number of bytes, fewer than 512
    here, and the request is the service, the size byte, the path and the
    data. *)
Theorem CIPRequest_bytes_tag_path
    (tag_name : str) (path request_service request_data : pybytes) :
  CIPRequest.tag_request_path tag_name = Ok path ->
  len path < 512 ->
  exists n : byte,
    CIPRequest.bytes (CIPRequest.__init__ request_service path request_data) =
      Ok (request_service ++ [n] ++ path ++ request_data) /\
    2 * byte_to_Z n = len path.
Proof.
  intros Hpath Hshort. apply tag_request_path_even in Hpath.
  pose proof (len_nonneg path) as Hn.
  assert (Hsize : 0 <= len path / 2 < 256).
  { split; [apply Z.div_pos; lia | apply Z.div_lt_upper_bound; lia]. }
  exists (byte_of_Z (len path / 2)). split.
  - unfold CIPRequest.bytes, CIPRequest.__init__.
    cbn [CIPRequest.request_path_size CIPRequest.request_service
         CIPRequest.request_path CIPRequest.request_data].
    rewrite to_bytes_Ok by (change (256 ^ Z.of_nat 1) with 256; lia).
    cbn [res_bind le_bytes]. now rewrite Z.mod_small by lia.
  - rewrite byte_to_of_Z by lia.
    pose proof (Z.div_mod (len path) 2 ltac:(lia)). lia.
Qed.

Lemma CIPRequest_bytes_tag_path_witness :
  let tag_name := [0x41; 0x42; 0x43] in
  let path := [x91; x03; x41; x42; x43; x00] in
  (CIPRequest.tag_request_path tag_name = Ok path /\ len path < 512) /\
  exists n : byte,
    CIPRequest.bytes (CIPRequest.__init__ [x4c] path [x01; x00]) =
      Ok ([x4c] ++ [n] ++ path ++ [x01; x00]) /\
    2 * byte_to_Z n = len path.
Proof.
  cbv zeta. split; [split; reflexivity |].
  apply (CIPRequest_bytes_tag_path [0x41; 0x42; 0x43]); reflexivity.
Defined.

(** A request whose path has 512 bytes or more cannot be encoded: its
    size in words does not fit the size byte, and [bytes] raises
    [OverflowError]. *)
Theorem CIPRequest_bytes_long_path (request_service request_path request_data : pybytes) :
  512 <= len request_path ->
  CIPRequest.bytes (CIPRequest.__init__ request_service request_path request_data) =
    Raise OverflowError.
Proof.
  intros Hlong. unfold CIPRequest.bytes, CIPRequest.__init__.
  cbn [CIPRequest.request_path_size]. unfold to_bytes.
  assert (Hsize : 256 <= len request_path / 2) by (apply Z.div_le_lower_bound; lia).
  change (256 ^ Z.of_nat 1) with 256.
  destruct (Z.ltb_spec (len request_path / 2) 256); [lia |].
  now rewrite andb_false_r.
Qed.

Lemma CIPRequest_bytes_long_path_witness :
  512 <= len (repeat x00 512) /\
  CIPRequest.bytes (CIPRequest.__init__ [x01] (repeat x00 512) []) =
    Raise OverflowError.
Proof.
  split; [vm_compute; discriminate |].
  apply CIPRequest_bytes_long_path. vm_compute. discriminate.
Defined.

(** ** Command-specific data *)

(** Command-specific data with an interface handle of four bytes and a
    timeout of two are decoded from their bytes as they were built, and
    the encapsulated packet starts at byte 6. *)
Theorem CommandSpecificData_round_trip
    (self : CommandSpecificData.t)
    (interface_handle timeout encapsulated_packet : pybytes) :
  len interface_handle = 4 ->
  len timeout = 2 ->
  CommandSpecificData.from_bytes self
    (CommandSpecificData.bytes
       (CommandSpecificData.make interface_handle timeout encapsulated_packet)) =
  CommandSpecificData.make interface_handle timeout encapsulated_packet.
Proof.
  intros Hh Ht.
  destruct (len_4_inv _ Hh) as (h0 & h1 & h2 & h3 & ->).
  destruct (len_2_inv _ Ht) as (t0 & t1 & ->).
  pose proof (len_nonneg encapsulated_packet).
  unfold CommandSpecificData.from_bytes, CommandSpecificData.bytes,
    CommandSpecificData.make.
  cbn [CommandSpecificData.interface_handle CommandSpecificData.timeout
       CommandSpecificData.encapsulated_packet app].
  f_equal; slice_prefix; reflexivity.
Qed.

Lemma CommandSpecificData_round_trip_witness :
  (len [x00; x00; x00; x00] = 4 /\ len [x08; x00] = 2) /\
  CommandSpecificData.from_bytes CommandSpecificData.__init__
    (CommandSpecificData.bytes
       (CommandSpecificData.make [x00; x00; x00; x00] [x08; x00] [x02; x00])) =
  CommandSpecificData.make [x00; x00; x00; x00] [x08; x00] [x02; x00].
Proof.
  split; [split; reflexivity |].
  apply CommandSpecificData_round_trip; reflexivity.
Defined.

(** Decoding command-specific data loses nothing: the three fields of the
    decoded object are the buffer again, whatever its length. *)
Theorem CommandSpecificData_bytes_from_bytes
    (self : CommandSpecificData.t) (bytes_command_specific_data : pybytes) :
  CommandSpecificData.bytes
    (CommandSpecificData.from_bytes self bytes_command_specific_data) =
  bytes_command_specific_data.
Proof.
  unfold CommandSpecificData.bytes, CommandSpecificData.from_bytes.
  cbn [CommandSpecificData.interface_handle CommandSpecificData.timeout
       CommandSpecificData.encapsulated_packet].
  rewrite (slice_slice_from bytes_command_specific_data 4 6) by lia.
  rewrite (slice_slice_from bytes_command_specific_data 0 4) by lia.
  apply slice_from_0.
Qed.

(** ** Requests of the client, from the CIP message to the frame *)

Lemma CIPRequest_bytes_Ok (request_service request_path request_data : pybytes) :
  len request_path < 512 ->
  CIPRequest.bytes (CIPRequest.__init__ request_service request_path request_data) =
    Ok (request_service ++ [byte_of_Z (len request_path / 2)] ++
        request_path ++ request_data).
Proof.
  intros Hshort. pose proof (len_nonneg request_path) as Hn.
  assert (Hsize : 0 <= len request_path / 2 < 256).
  { split; [apply Z.div_pos; lia | apply Z.div_lt_upper_bound; lia]. }
  unfold CIPRequest.bytes, CIPRequest.__init__.
  cbn [CIPRequest.request_path_size CIPRequest.request_service
       CIPRequest.request_path CIPRequest.request_data].
  rewrite to_bytes_Ok by (change (256 ^ Z.of_nat 1) with 256; lia).
  cbn [res_bind le_bytes]. now rewrite Z.mod_small by lia.
Qed.

(** The layers around a CIP message, as [read_tag] and [get_variable]
    build them. *)
Lemma request_command_data_Ok (request_service request_path request_data : pybytes) :
  len request_path < 512 ->
  len request_service + len request_data < 60000 ->
  (try message_bytes <-
     CIPRequest.bytes
       (CIPRequest.__init__ request_service request_path request_data) in
   try data_address_item <-
     DataAndAddressItem.__init__ DataAndAddressItem.UNCONNECTED_MESSAGE
       message_bytes in
   try common_packet_format <- CommonPacketFormat.__init__ [data_address_item] in
   try packet <- CommonPacketFormat.bytes common_packet_format in
   Ok (CommandSpecificData.bytes (CommandSpecificData.of_packet packet))) =
  Ok (request_command_data
        (request_service ++ [byte_of_Z (len request_path / 2)] ++
         request_path ++ request_data)).
Proof.
  intros Hpath Hrest. rewrite (CIPRequest_bytes_Ok _ _ _ Hpath). cbn [res_bind].
  set (cip := request_service ++ [byte_of_Z (len request_path / 2)] ++
              request_path ++ request_data).
  assert (Hcip : len cip < 65536).
  { unfold cip. rewrite !len_app, len_cons, len_nil. lia. }
  rewrite (DataAndAddressItem_init_Ok _ _ Hcip). cbn [res_bind].
  unfold CommonPacketFormat.__init__.
  change (DataAndAddressItem.__init__ DataAndAddressItem.NULL_ADDRESS_ITEM [])
    with (Ok null_item).
  cbn [res_bind]. unfold CommonPacketFormat.bytes.
  cbn [CommonPacketFormat.item_count CommonPacketFormat.packet_bytes map concat].
  rewrite app_nil_r. reflexivity.
Qed.

Lemma len_request_command_data (cip_message : pybytes) :
  len (request_command_data cip_message) = 16 + len cip_message.
Proof.
  unfold request_command_data. rewrite !len_app, len_le_bytes.
  generalize (len cip_message). intros n. unfold len. cbn. lia.
Qed.

(** The object made by [CommonPacketFormat([])] decodes an item count and
    two well-formed items in two turns of the loop. *)
Lemma from_bytes_two_items (fuel : nat) (count : pybytes)
    (a b : DataAndAddressItem.t) :
  len count = 2 -> item_ok a -> item_ok b ->
  CommonPacketFormat.from_bytes (2 + fuel)
    {| CommonPacketFormat.packets := [null_item; null_item];
       CommonPacketFormat.item_count := 2;
       CommonPacketFormat.packet_bytes :=
         [x00; x00; x00; x00; x00; x00; x00; x00] |}
    (count ++ DataAndAddressItem.bytes a ++ DataAndAddressItem.bytes b) =
  Some (Ok {| CommonPacketFormat.packets := [a; b];
              CommonPacketFormat.item_count := int_from_bytes count;
              CommonPacketFormat.packet_bytes :=
                DataAndAddressItem.bytes a ++ DataAndAddressItem.bytes b |}).
Proof.
  intros Hcount Ha Hb.
  unfold CommonPacketFormat.from_bytes. cbn [CommonPacketFormat.packets].
  rewrite <- Hcount, slice_app_first, slice_from_app_rest.
  pose proof (decode_items [a; b] fuel [] 0 [null_item; null_item]) as Hloop.
  cbv zeta in Hloop. cbn [length Nat.add map concat app] in Hloop.
  rewrite app_nil_r in Hloop.
  change (len (@nil byte)) with 0 in Hloop. change (Z.of_nat 0) with 0 in Hloop.
  change (2 + fuel)%nat with (S (S fuel)).
  rewrite Hloop; [reflexivity | | cbn; lia].
  repeat (apply Forall_cons; split; [assumption |]). constructor.
Qed.

Section Requests.
Variable Peer : Type.
Variable recv_after : pybytes -> Peer -> pybytes * Peer.

Lemma snd_reply_item (r : option (res CommonPacketFormat.t) * EIP.World Peer) :
  snd (match r with
       | (None, w') => (None, w')
       | (Some (Raise e), w') => (Some (Raise e), w')
       | (Some (Ok reply_packet), w') =>
           (Some (try item <- EIP.list_item
                                (CommonPacketFormat.packets reply_packet) 1 in
                  Ok (DataAndAddressItem.bytes item)), w')
       end) = snd r.
Proof. destruct r as [[[c | e] |] w']; reflexivity. Qed.

(** [send_rr_data] on a client that is not connected sends nothing and
    returns the packet of two null address items. *)
Lemma send_rr_data_unconnected (fuel : nat) (self : EIP.t)
    (command_specific_data : pybytes) (w : EIP.World Peer) :
  EIP.is_connected_explicit self = false ->
  len command_specific_data < 65536 ->
  EIP.send_rr_data Peer recv_after fuel self command_specific_data w =
  (Some (Ok {| CommonPacketFormat.packets := [null_item; null_item];
               CommonPacketFormat.item_count := 0;
               CommonPacketFormat.packet_bytes := [] |}), w).
Proof.
  intros Hconn Hlen. unfold EIP.send_rr_data.
  rewrite (EIPMessage_init_Ok _ _ _ Hlen).
  unfold EIP.send_command. rewrite Hconn.
  change EIPMessage.default with
    (Ok {| EIPMessage.command := [x00; x00];
           EIPMessage.length := [x00; x00];
           EIPMessage.session_handle_id := [x00; x00; x00; x00];
           EIPMessage.status := [x00; x00; x00; x00];
           EIPMessage.sender_context_data := [x00; x00; x00; x00; x00; x00; x00; x00];
           EIPMessage.command_options := [x00; x00; x00; x00];
           EIPMessage.command_data := [] |}).
  cbn [EIPMessage.command_data].
  change (CommonPacketFormat.__init__ []) with
    (Ok {| CommonPacketFormat.packets := [null_item; null_item];
           CommonPacketFormat.item_count := 2;
           CommonPacketFormat.packet_bytes :=
             [x00; x00; x00; x00; x00; x00; x00; x00] |}).
  unfold CommonPacketFormat.from_bytes.
  rewrite while_done by reflexivity. reflexivity.
Qed.

(** What a connected client gets from [send_rr_data] when the peer
    answers with a frame of a header of 24 bytes, six bytes of interface
    handle and timeout, an item count and two well-formed items. *)
Lemma send_rr_data_two_items (fuel : nat) (self : EIP.t)
    (command_specific_data : pybytes) (w : EIP.World Peer)
    (header prefix count : pybytes) (a b : DataAndAddressItem.t) :
  EIP.is_connected_explicit self = true ->
  len command_specific_data < 65536 ->
  len header = 24 -> len prefix = 6 -> len count = 2 ->
  item_ok a -> item_ok b ->
  let reply := header ++ prefix ++ count ++
               DataAndAddressItem.bytes a ++ DataAndAddressItem.bytes b in
  len reply <= EIP.BUFFER_SIZE self ->
  (forall frame, fst (recv_after frame (EIP.peer w)) = reply) ->
  fst (EIP.send_rr_data Peer recv_after (2 + fuel) self command_specific_data w) =
  Some (Ok {| CommonPacketFormat.packets := [a; b];
              CommonPacketFormat.item_count := int_from_bytes count;
              CommonPacketFormat.packet_bytes :=
                DataAndAddressItem.bytes a ++ DataAndAddressItem.bytes b |}).
Proof.
  intros Hconn Hlen Hheader Hprefix Hcount Ha Hb reply Hbuffer Hrecv.
  unfold EIP.send_rr_data. rewrite (EIPMessage_init_Ok _ _ _ Hlen).
  unfold EIP.send_command. rewrite Hconn.
  change EIPMessage.default with
    (Ok {| EIPMessage.command := [x00; x00];
           EIPMessage.length := [x00; x00];
           EIPMessage.session_handle_id := [x00; x00; x00; x00];
           EIPMessage.status := [x00; x00; x00; x00];
           EIPMessage.sender_context_data := [x00; x00; x00; x00; x00; x00; x00; x00];
           EIPMessage.command_options := [x00; x00; x00; x00];
           EIPMessage.command_data := [] |}).
  match goal with
  | |- context [recv_after ?frame (EIP.peer w)] =>
      pose proof (Hrecv frame) as Hready;
      destruct (recv_after frame (EIP.peer w)) as [ready p]
  end.
  cbn [fst] in Hready. subst ready.
  rewrite take_ge by (unfold len in Hbuffer; lia).
  cbn [EIPMessage.from_bytes EIPMessage.command_data
       CommandSpecificData.from_bytes CommandSpecificData.encapsulated_packet].
  unfold reply at 1. rewrite <- Hheader, slice_from_app_rest.
  rewrite <- Hprefix, slice_from_app_rest.
  change (CommonPacketFormat.__init__ []) with
    (Ok {| CommonPacketFormat.packets := [null_item; null_item];
           CommonPacketFormat.item_count := 2;
           CommonPacketFormat.packet_bytes :=
             [x00; x00; x00; x00; x00; x00; x00; x00] |}).
  cbv beta iota. cbn [fst].
  exact (from_bytes_two_items fuel count a b Hcount Ha Hb).
Qed.

(** [read_tag] on a connected client writes one frame: the SendRRData
    frame, with the session handle of the client, that carries the CIP
    message of the read-tag service 0x4c, the size of the path of the tag
    in words, the path and the element count 1. *)
Theorem read_tag_frame (fuel : nat) (self : EIP.t) (tag_name : str)
    (path : pybytes) (w : EIP.World Peer) :
  EIP.is_connected_explicit self = true ->
  CIPRequest.tag_request_path tag_name = Ok path ->
  len path < 512 ->
  EIP.wire (snd (EIP.read_tag Peer recv_after fuel self tag_name w)) =
  EIP.wire w ++
  [request_frame (EIP.session_handle_id self)
     ([x4c] ++ [byte_of_Z (len path / 2)] ++ path ++ [x01; x00])].
Proof.
  intros Hconn Hpath Hshort. unfold EIP.read_tag.
  rewrite Hpath. cbn [res_bind]. cbv zeta.
  unfold CIPRequest.READ_TAG_SERVICE.
  rewrite (request_command_data_Ok [x4c] path [x01; x00] Hshort)
    by (rewrite !len_cons, !len_nil; lia).
  rewrite snd_reply_item.
  set (cip := [x4c] ++ [byte_of_Z (len path / 2)] ++ path ++ [x01; x00]).
  assert (Hcip : len (request_command_data cip) < 65536).
  { rewrite len_request_command_data. unfold cip.
    rewrite !len_app, !len_cons, !len_nil. lia. }
  rewrite (send_rr_data_wire Peer recv_after fuel self _ w _
             (EIPMessage_init_Ok _ _ _ Hcip)).
  rewrite Hconn. reflexivity.
Qed.

(** When the peer answers [read_tag] with a frame of a header of 24
    bytes, six bytes of interface handle and timeout, an item count and
    two well-formed items, [read_tag] returns the bytes of the second
    item, its type identifier and length included, after two turns of the
    decoding loop. *)
Theorem read_tag_returns_second_item (fuel : nat) (self : EIP.t) (tag_name : str)
    (path : pybytes) (w : EIP.World Peer)
    (header prefix count : pybytes) (a b : DataAndAddressItem.t) :
  EIP.is_connected_explicit self = true ->
  CIPRequest.tag_request_path tag_name = Ok path ->
  len path < 512 ->
  len header = 24 -> len prefix = 6 -> len count = 2 ->
  item_ok a -> item_ok b ->
  len (header ++ prefix ++ count ++
       DataAndAddressItem.bytes a ++ DataAndAddressItem.bytes b) <=
    EIP.BUFFER_SIZE self ->
  (forall frame,
     fst (recv_after frame (EIP.peer w)) =
     header ++ prefix ++ count ++
     DataAndAddressItem.bytes a ++ DataAndAddressItem.bytes b) ->
  fst (EIP.read_tag Peer recv_after (2 + fuel) self tag_name w) =
  Some (Ok (DataAndAddressItem.bytes b)).
Proof.
  intros Hconn Hpath Hshort Hheader Hprefix Hcount Ha Hb Hbuffer Hrecv.
  unfold EIP.read_tag. rewrite Hpath. cbn [res_bind]. cbv zeta.
  unfold CIPRequest.READ_TAG_SERVICE.
  rewrite (request_command_data_Ok [x4c] path [x01; x00] Hshort)
    by (rewrite !len_cons, !len_nil; lia).
  set (cip := [x4c] ++ [byte_of_Z (len path / 2)] ++ path ++ [x01; x00]).
  assert (Hcip : len (request_command_data cip) < 65536).
  { rewrite len_request_command_data. unfold cip.
    rewrite !len_app, !len_cons, !len_nil. lia. }
  pose proof (send_rr_data_two_items fuel self _ w header prefix count a b
                Hconn Hcip Hheader Hprefix Hcount Ha Hb Hbuffer Hrecv) as Hreply.
  destruct (EIP.send_rr_data Peer recv_after (2 + fuel) self
              (request_command_data cip) w) as [r w'].
  cbn [fst] in Hreply. subst r. reflexivity.
Qed.

(** [get_variable] on a connected client writes one frame: the
    SendRRData frame that carries the CIP message of service 0x01, the
    size of the route path in words, rounded down, and the route path.
    The argument [command_data] is part of nothing that is sent. *)
Theorem get_variable_frame (fuel : nat) (self : EIP.t)
    (route_path command_data : pybytes) (w : EIP.World Peer) :
  EIP.is_connected_explicit self = true ->
  len route_path < 512 ->
  EIP.wire (snd (EIP.get_variable Peer recv_after fuel self route_path
                   command_data w)) =
  EIP.wire w ++
  [request_frame (EIP.session_handle_id self)
     ([x01] ++ [byte_of_Z (len route_path / 2)] ++ route_path)].
Proof.
  intros Hconn Hshort. unfold EIP.get_variable. cbv zeta.
  rewrite (request_command_data_Ok [x01] route_path [] Hshort)
    by (rewrite !len_cons, !len_nil; lia).
  rewrite app_nil_r. rewrite snd_reply_item.
  set (cip := [x01] ++ [byte_of_Z (len route_path / 2)] ++ route_path).
  assert (Hcip : len (request_command_data cip) < 65536).
  { rewrite len_request_command_data. unfold cip.
    rewrite !len_app, !len_cons, !len_nil. lia. }
  rewrite (send_rr_data_wire Peer recv_after fuel self _ w _
             (EIPMessage_init_Ok _ _ _ Hcip)).
  rewrite Hconn. reflexivity.
Qed.

(** [get_variable] on a client that is not connected raises nothing and
    sends nothing: it returns the four bytes of a null address item, as
    if the controller had answered with them. *)
Theorem get_variable_unconnected (fuel : nat) (self : EIP.t)
    (route_path command_data : pybytes) (w : EIP.World Peer) :
  EIP.is_connected_explicit self = false ->
  len route_path < 512 ->
  EIP.get_variable Peer recv_after fuel self route_path command_data w =
  (Some (Ok [x00; x00; x00; x00]), w).
Proof.
  intros Hconn Hshort. unfold EIP.get_variable. cbv zeta.
  rewrite (request_command_data_Ok [x01] route_path [] Hshort)
    by (rewrite !len_cons, !len_nil; lia).
  rewrite app_nil_r.
  set (cip := [x01] ++ [byte_of_Z (len route_path / 2)] ++ route_path).
  assert (Hcip : len (request_command_data cip) < 65536).
  { rewrite len_request_command_data. unfold cip.
    rewrite !len_app, !len_cons, !len_nil. lia. }
  rewrite (send_rr_data_unconnected fuel self _ w Hconn Hcip). reflexivity.
Qed.

End Requests.

Lemma read_tag_frame_witness :
  let self :=
    {| EIP.session_handle_id := [x11; x22; x33; x44];
       EIP.is_connected_explicit := true;
       EIP.has_session_handle := true;
       EIP.BUFFER_SIZE := 4096 |} in
  let recv_after := fun (_ : pybytes) (p : unit) => (@nil byte, p) in
  let w := {| EIP.peer := tt; EIP.wire := [] |} in
  let tag_name := [0x41; 0x42; 0x43] in
  let path := [x91; x03; x41; x42; x43; x00] in
  (EIP.is_connected_explicit self = true /\
   CIPRequest.tag_request_path tag_name = Ok path /\
   len path < 512) /\
  EIP.wire (snd (EIP.read_tag unit recv_after 0 self tag_name w)) =
  EIP.wire w ++
  [request_frame (EIP.session_handle_id self)
     ([x4c] ++ [byte_of_Z (len path / 2)] ++ path ++ [x01; x00])].
Proof.
  cbv zeta. split; [repeat split |].
  apply read_tag_frame; reflexivity.
Defined.

Lemma read_tag_returns_second_item_witness :
  let self :=
    {| EIP.session_handle_id := [x11; x22; x33; x44];
       EIP.is_connected_explicit := true;
       EIP.has_session_handle := true;
       EIP.BUFFER_SIZE := 4096 |} in
  let header :=
    [x6f; x00; x12; x00; x11; x22; x33; x44; x00; x00; x00; x00;
     x00; x00; x00; x00; x00; x00; x00; x00; x00; x00; x00; x00] in
  let prefix := [x00; x00; x00; x00; x08; x00] in
  let count := [x02; x00] in
  let b :=
    {| DataAndAddressItem.type_id := [xb2; x00];
       DataAndAddressItem.length := [x04; x00];
       DataAndAddressItem.data := [xcc; x00; x00; x00] |} in
  let reply := header ++ prefix ++ count ++
               DataAndAddressItem.bytes null_item ++ DataAndAddressItem.bytes b in
  let recv_after := fun (_ : pybytes) (p : unit) => (reply, p) in
  let w := {| EIP.peer := tt; EIP.wire := [] |} in
  let tag_name := [0x41; 0x42; 0x43] in
  let path := [x91; x03; x41; x42; x43; x00] in
  (EIP.is_connected_explicit self = true /\
   CIPRequest.tag_request_path tag_name = Ok path /\
   len path < 512 /\
   len header = 24 /\ len prefix = 6 /\ len count = 2 /\
   item_ok null_item /\ item_ok b /\
   len reply <= EIP.BUFFER_SIZE self /\
   (forall frame, fst (recv_after frame (EIP.peer w)) = reply)) /\
  fst (EIP.read_tag unit recv_after (2 + 0) self tag_name w) =
  Some (Ok (DataAndAddressItem.bytes b)).
Proof.
  cbv zeta.
  assert (Hb : item_ok {| DataAndAddressItem.type_id := [xb2; x00];
                          DataAndAddressItem.length := [x04; x00];
                          DataAndAddressItem.data := [xcc; x00; x00; x00] |})
    by (repeat split).
  split.
  - repeat split; vm_compute; discriminate.
  - apply (read_tag_returns_second_item unit _ 0 _ [0x41; 0x42; 0x43]
             [x91; x03; x41; x42; x43; x00] _
             [x6f; x00; x12; x00; x11; x22; x33; x44; x00; x00; x00; x00;
              x00; x00; x00; x00; x00; x00; x00; x00; x00; x00; x00; x00]
             [x00; x00; x00; x00; x08; x00] [x02; x00] null_item _);
      try reflexivity; try exact null_item_ok; try exact Hb.
    vm_compute. discriminate.
Defined.

Lemma get_variable_frame_witness :
  let self :=
    {| EIP.session_handle_id := [x11; x22; x33; x44];
       EIP.is_connected_explicit := true;
       EIP.has_session_handle := true;
       EIP.BUFFER_SIZE := 4096 |} in
  let recv_after := fun (_ : pybytes) (p : unit) => (@nil byte, p) in
  let w := {| EIP.peer := tt; EIP.wire := [] |} in
  let route_path := [x20; x6a; x25; x00; x01; x00] in
  (EIP.is_connected_explicit self = true /\ len route_path < 512) /\
  EIP.wire (snd (EIP.get_variable unit recv_after 0 self route_path [xff] w)) =
  EIP.wire w ++
  [request_frame (EIP.session_handle_id self)
     ([x01] ++ [byte_of_Z (len route_path / 2)] ++ route_path)].
Proof.
  cbv zeta. split; [repeat split |].
  apply get_variable_frame; reflexivity.
Defined.

Lemma get_variable_unconnected_witness :
  let recv_after := fun (_ : pybytes) (p : unit) => (@nil byte, p) in
  let w := {| EIP.peer := tt; EIP.wire := [] |} in
  let route_path := [x20; x6a; x25; x00; x01; x00] in
  (EIP.is_connected_explicit EIP.__init__ = false /\ len route_path < 512) /\
  EIP.get_variable unit recv_after 0 EIP.__init__ route_path [] w =
  (Some (Ok [x00; x00; x00; x00]), w).
Proof.
  cbv zeta. split; [repeat split |].
  apply get_variable_unconnected; reflexivity.
Defined.

(** ** The static decoders of the client *)

(** [command_specific_data_from_eip_message_bytes] decodes the
    command-specific data from the bytes of the whole message, header
    included, not from its command data: the interface handle it returns
    is the command and the length field of the frame, the timeout the
    first two bytes of the session handle, and the encapsulated packet
    everything from byte 6 of the frame on. *)
Theorem command_specific_data_from_eip_message_bytes_header
    (eip_message_bytes : pybytes) :
  EIP.command_specific_data_from_eip_message_bytes eip_message_bytes =
  Ok {| CommandSpecificData.interface_handle := slice eip_message_bytes 0 4;
        CommandSpecificData.timeout := slice eip_message_bytes 4 6;
        CommandSpecificData.encapsulated_packet := slice_from eip_message_bytes 6 |}.
Proof.
  unfold EIP.command_specific_data_from_eip_message_bytes,
    EIP.command_specific_data_from_eip_message.
  change EIPMessage.default with
    (Ok {| EIPMessage.command := [x00; x00];
           EIPMessage.length := [x00; x00];
           EIPMessage.session_handle_id := [x00; x00; x00; x00];
           EIPMessage.status := [x00; x00; x00; x00];
           EIPMessage.sender_context_data := [x00; x00; x00; x00; x00; x00; x00; x00];
           EIPMessage.command_options := [x00; x00; x00; x00];
           EIPMessage.command_data := [] |}).
  cbn [res_bind]. rewrite EIPMessage_bytes_from_bytes. reflexivity.
Qed.

(** [cip_reply_from_eip_message_bytes] looks for the item count and the
    items at the start of the command data of the frame, where
    [send_rr_data] skips six bytes first.  From a frame of a header of 24
    bytes, an item count and two well-formed items it makes the reply out
    of the bytes of the second item, type identifier and length field
    included: these two are the service, the reserved byte, the general
    status and the extended-status size of the reply it returns. *)
Theorem cip_reply_from_eip_message_bytes_items (fuel : nat)
    (header count : pybytes) (a b : DataAndAddressItem.t) :
  len header = 24 -> len count = 2 ->
  item_ok a -> item_ok b ->
  exists reply,
    EIP.cip_reply_from_eip_message_bytes (2 + fuel)
      (header ++ count ++ DataAndAddressItem.bytes a ++ DataAndAddressItem.bytes b) =
    Some (Ok reply) /\
    reply = CIPReply.__init__ (DataAndAddressItem.bytes b) /\
    CIPReply.reply_service reply ++ CIPReply.reserved reply =
      DataAndAddressItem.type_id b /\
    CIPReply.general_status reply ++ CIPReply.extended_status_size reply =
      DataAndAddressItem.length b.
Proof.
  intros Hheader Hcount Ha Hb.
  exists (CIPReply.__init__ (DataAndAddressItem.bytes b)). split; [| split].
  - unfold EIP.cip_reply_from_eip_message_bytes, EIP.cip_reply_from_eip_message.
    change EIPMessage.default with
      (Ok {| EIPMessage.command := [x00; x00];
             EIPMessage.length := [x00; x00];
             EIPMessage.session_handle_id := [x00; x00; x00; x00];
             EIPMessage.status := [x00; x00; x00; x00];
             EIPMessage.sender_context_data := [x00; x00; x00; x00; x00; x00; x00; x00];
             EIPMessage.command_options := [x00; x00; x00; x00];
             EIPMessage.command_data := [] |}).
    cbn [EIPMessage.from_bytes EIPMessage.command_data].
    rewrite <- Hheader, slice_from_app_rest.
    set (d := count ++ DataAndAddressItem.bytes a ++ DataAndAddressItem.bytes b).
    assert (Hd : CommandSpecificData.bytes
                   (CommandSpecificData.from_bytes CommandSpecificData.__init__ d) = d).
    { unfold CommandSpecificData.bytes, CommandSpecificData.from_bytes.
      cbn [CommandSpecificData.interface_handle CommandSpecificData.timeout
           CommandSpecificData.encapsulated_packet].
      rewrite (slice_slice_from d 4 6) by lia.
      rewrite (slice_slice_from d 0 4) by lia.
      apply slice_from_0. }
    cbv zeta. rewrite Hd.
    change (CommonPacketFormat.__init__ []) with
      (Ok {| CommonPacketFormat.packets := [null_item; null_item];
             CommonPacketFormat.item_count := 2;
             CommonPacketFormat.packet_bytes :=
               [x00; x00; x00; x00; x00; x00; x00; x00] |}).
    cbv beta iota. unfold d.
    rewrite (from_bytes_two_items fuel count a b Hcount Ha Hb). reflexivity.
  - reflexivity.
  - destruct Hb as (Hid & Hdata & Hlen).
    assert (Hl : len (DataAndAddressItem.length b) = 2)
      by (rewrite Hlen, len_le_bytes; lia).
    unfold CIPReply.__init__, DataAndAddressItem.bytes.
    cbn [CIPReply.reply_service CIPReply.reserved CIPReply.general_status
         CIPReply.extended_status_size].
    rewrite (slice_slice _ 0 1 2), (slice_slice _ 2 3 4) by lia.
    split.
    + rewrite <- Hid. apply slice_app_first.
    + rewrite <- Hid at 1.
      replace 4 with (len (DataAndAddressItem.type_id b) +
                      len (DataAndAddressItem.length b)) by lia.
      apply slice_app_second.
Qed.

Lemma cip_reply_from_eip_message_bytes_items_witness :
  let header :=
    [x6f; x00; x12; x00; x11; x22; x33; x44; x00; x00; x00; x00;
     x00; x00; x00; x00; x00; x00; x00; x00; x00; x00; x00; x00] in
  let count := [x02; x00] in
  let b :=
    {| DataAndAddressItem.type_id := [xb2; x00];
       DataAndAddressItem.length := [x04; x00];
       DataAndAddressItem.data := [xcc; x00; x00; x00] |} in
  (len header = 24 /\ len count = 2 /\ item_ok null_item /\ item_ok b) /\
  exists reply,
    EIP.cip_reply_from_eip_message_bytes (2 + 0)
      (header ++ count ++ DataAndAddressItem.bytes null_item ++
       DataAndAddressItem.bytes b) =
    Some (Ok reply) /\
    reply = CIPReply.__init__ (DataAndAddressItem.bytes b) /\
    CIPReply.reply_service reply ++ CIPReply.reserved reply =
      DataAndAddressItem.type_id b /\
    CIPReply.general_status reply ++ CIPReply.extended_status_size reply =
      DataAndAddressItem.length b.
Proof.
  cbv zeta.
  assert (Hb : item_ok {| DataAndAddressItem.type_id := [xb2; x00];
                          DataAndAddressItem.length := [x04; x00];
                          DataAndAddressItem.data := [xcc; x00; x00; x00] |})
    by (repeat split).
  split; [repeat split |].
  apply (cip_reply_from_eip_message_bytes_items 0 _ [x02; x00] null_item _);
    [reflexivity | reflexivity | exact null_item_ok | exact Hb].
Defined.

(** ** Simple data segments and the replies of the variable objects *)

(** The simple data segment of a request is eight bytes: the type code
    0x80, the length of three words, the offset in four bytes and the size
    in two, both little-endian, so that both can be read back. *)
Theorem SimpleDataSegmentRequest_fields (offset size : Z) :
  0 <= offset < 2 ^ 32 -> 0 <= size < 65536 ->
  exists b,
    SimpleDataSegmentRequest.bytes (SimpleDataSegmentRequest.__init__ offset size) =
      Ok b /\
    len b = 8 /\
    slice b 0 2 = [x80; x03] /\
    int_from_bytes (slice b 2 6) = offset /\
    int_from_bytes (slice b 6 8) = size.
Proof.
  intros Ho Hs. exists (segment_bytes offset size).
  split; [now apply SimpleDataSegmentRequest_bytes_Ok |].
  unfold segment_bytes.
  assert (H4 : len (le_bytes 4 offset) = 4) by (rewrite len_le_bytes; lia).
  assert (H2 : len (le_bytes 2 size) = 2) by (rewrite len_le_bytes; lia).
  split; [| split; [| split]].
  - rewrite !len_app, H4, H2. reflexivity.
  - change 2 with (len [x80; x03]) at 1. apply slice_app_first.
  - change 2 with (len [x80; x03]) at 1.
    replace 6 with (len [x80; x03] + len (le_bytes 4 offset))
      by (rewrite H4; reflexivity).
    rewrite slice_app_second. apply (int_from_le_bytes 4).
    change (256 ^ Z.of_nat 4) with (2 ^ 32). lia.
  - rewrite app_assoc.
    replace 6 with (len ([x80; x03] ++ le_bytes 4 offset) + 0)
      by (rewrite len_app, H4; reflexivity).
    replace 8 with (len ([x80; x03] ++ le_bytes 4 offset) + len (le_bytes 2 size))
      by (rewrite len_app, H4, H2; reflexivity).
    rewrite slice_app_r by lia. rewrite slice_all.
    apply (int_from_le_bytes 2). change (256 ^ Z.of_nat 2) with 65536. lia.
Qed.

Lemma SimpleDataSegmentRequest_fields_witness :
  (0 <= 494 < 2 ^ 32 /\ 0 <= 6 < 65536) /\
  exists b,
    SimpleDataSegmentRequest.bytes (SimpleDataSegmentRequest.__init__ 494 6) =
      Ok b /\
    len b = 8 /\
    slice b 0 2 = [x80; x03] /\
    int_from_bytes (slice b 2 6) = 494 /\
    int_from_bytes (slice b 6 8) = 6.
Proof.
  split; [lia |]. apply SimpleDataSegmentRequest_fields; lia.
Defined.

Lemma res_map_Ok {A B : Type} (f : A -> res B) (g : A -> B) (l : list A) :
  Forall (fun x => f x = Ok (g x)) l -> res_map f l = Ok (map g l).
Proof.
  induction 1 as [| x r Hx _ IH]; [reflexivity |].
  cbn [res_map map]. now rewrite Hx, IH.
Qed.

Lemma range_bounds (n : Z) : Forall (fun i => 0 <= i < n) (range n).
Proof.
  unfold range. apply Forall_fmap, Forall_seq. intros k Hk. cbn. lia.
Qed.

Lemma length_range (n : Z) : length (range n) = Z.to_nat n.
Proof. unfold range. now rewrite length_map, length_seq. Qed.

Lemma struct_unpack_Ok (n : nat) (b : pybytes) :
  len b = Z.of_nat n -> struct_unpack n b = Ok (int_from_bytes b).
Proof.
  intros Hb. unfold struct_unpack.
  destruct (Nat.eqb_spec (length b) n); [reflexivity | unfold len in Hb; lia].
Qed.

(** A slice between two offsets of a concatenation that are the ends of
    one of its parts. *)
Lemma slice_part {A : Type} (pre x post : list A) (i j : Z) :
  i = len pre -> j = i + len x -> slice (pre ++ x ++ post) i j = x.
Proof. intros -> ->. apply slice_app_second. Qed.

(** The reply of a Variable Object gives one size per dimension of an
    array, four bytes each from byte 8 of the reply data on, when the
    reply data reach that far. *)
Theorem VariableObjectReply_number_of_elements (self : CIPReply.t) (d : Z) :
  VariableObjectReply.array_dimension self = Ok d ->
  8 + 4 * d <= len (CIPReply.reply_data self) ->
  VariableObjectReply.number_of_elements self =
    Ok (map (fun i => int_from_bytes
                        (slice (CIPReply.reply_data self) (8 + i * 4) (8 + i * 4 + 4)))
          (range d)).
Proof.
  intros Hd Hlen. unfold VariableObjectReply.number_of_elements.
  rewrite Hd. cbn [res_bind]. apply res_map_Ok.
  eapply Forall_impl; [apply range_bounds |].
  intros i Hi. cbv beta in Hi |- *. apply (struct_unpack_Ok 4).
  rewrite len_slice by lia. lia.
Qed.

Lemma VariableObjectReply_number_of_elements_witness :
  let self :=
    CIPReply.__init__
      [x8e; x00; x00; x00;
       x08; x00; x00; x00; xa3; xc3; x02; x00;
       x03; x00; x00; x00; x05; x00; x00; x00] in
  (VariableObjectReply.array_dimension self = Ok 2 /\
   8 + 4 * 2 <= len (CIPReply.reply_data self)) /\
  VariableObjectReply.number_of_elements self =
    Ok (map (fun i => int_from_bytes
                        (slice (CIPReply.reply_data self) (8 + i * 4) (8 + i * 4 + 4)))
          (range 2)).
Proof.
  cbv zeta. split; [split; [reflexivity | vm_compute; discriminate] |].
  apply VariableObjectReply_number_of_elements;
    [reflexivity | vm_compute; discriminate].
Defined.

Lemma res_map_const {A B : Type} (r : res B) (v : B) (l : list A) :
  r = Ok v -> res_map (fun _ => r) l = Ok (repeat v (length l)).
Proof.
  intros ->. induction l as [| x l IH]; [reflexivity |].
  cbn [res_map length repeat res_bind]. now rewrite IH.
Qed.

(** The start indices that the reply of a Variable Object gives for an
    array are as many copies of one number as the array has dimensions:
    every turn of the loop reads the four bytes after the sizes of all the
    dimensions, whatever the dimension it is at. *)
Theorem VariableObjectReply_start_array_elements (self : CIPReply.t) (d v : Z) :
  VariableObjectReply.array_dimension self = Ok d ->
  struct_unpack 4 (slice (CIPReply.reply_data self) (24 + d * 4) (24 + d * 4 + 4)) =
    Ok v ->
  VariableObjectReply.start_array_elements self = Ok (repeat v (Z.to_nat d)).
Proof.
  intros Hd Hv. unfold VariableObjectReply.start_array_elements.
  rewrite Hd. cbn [res_bind]. rewrite <- (length_range d).
  apply res_map_const. exact Hv.
Qed.

Lemma VariableObjectReply_start_array_elements_witness :
  let self :=
    CIPReply.__init__
      ([x8e; x00; x00; x00] ++
       [x08; x00; x00; x00; xa3; xc3; x02; x00] ++
       [x03; x00; x00; x00; x05; x00; x00; x00] ++
       [x00; x00; x00; x00; x00; x00; x00; x00] ++
       [x00; x00; x00; x00; x00; x00; x00; x00] ++
       [x01; x00; x00; x00; x07; x00; x00; x00]) in
  (VariableObjectReply.array_dimension self = Ok 2 /\
   struct_unpack 4 (slice (CIPReply.reply_data self) (24 + 2 * 4) (24 + 2 * 4 + 4)) =
     Ok 1) /\
  VariableObjectReply.start_array_elements self = Ok (repeat 1 (Z.to_nat 2)).
Proof.
  cbv zeta. split; [split; reflexivity |].
  apply VariableObjectReply_start_array_elements; reflexivity.
Defined.

(** The reply of a Variable Type Object is read at offsets that follow
    from the number of dimensions and the length of the type name: after
    seven bytes comes the number of dimensions, then four bytes per
    dimension and eight bytes more, then the length of the name and the
    name, one byte of padding when the length of the name is even, the
    next instance id and the nesting instance id, four bytes each. *)
Theorem VariableTypeObjectReply_layout (self : CIPReply.t) (d : Z)
    (head dims mid name next nesting rest : pybytes) :
  len head = 7 -> 0 <= d < 256 -> len dims = 4 * d -> len mid = 8 ->
  len name < 256 -> len next = 4 -> len nesting = 4 ->
  CIPReply.reply_data self =
    head ++ [byte_of_Z d] ++ dims ++ mid ++ [byte_of_Z (len name)] ++ name ++
    (if len name mod 2 =? 0 then [x00] else []) ++ next ++ nesting ++ rest ->
  VariableTypeObjectReply.array_dimension self = Ok d /\
  VariableTypeObjectReply.variable_type_name_length self = Ok (len name) /\
  VariableTypeObjectReply.variable_type_name self = Ok name /\
  VariableTypeObjectReply.next_instance_id self = Ok next /\
  VariableTypeObjectReply.nesting_variable_type_instance_id self = Ok nesting.
Proof.
  intros Hhead Hd Hdims Hmid Hname Hnext Hnesting Hrd.
  pose proof (len_nonneg name) as Hn.
  set (pad := if len name mod 2 =? 0 then [x00] else []) in *.
  assert (Hpad : len pad = if len name mod 2 =? 0 then 1 else 0).
  { unfold pad. destruct (len name mod 2 =? 0); reflexivity. }
  assert (Hdim : VariableTypeObjectReply.array_dimension self = Ok d).
  { unfold VariableTypeObjectReply.array_dimension. rewrite Hrd.
    rewrite (slice_part head [byte_of_Z d]) by (rewrite ?Hhead; reflexivity).
    rewrite (struct_unpack_Ok 1) by reflexivity.
    now rewrite int_from_bytes_1, byte_to_of_Z. }
  assert (Hl : VariableTypeObjectReply.variable_type_name_length self =
               Ok (len name)).
  { unfold VariableTypeObjectReply.variable_type_name_length.
    rewrite Hdim. cbn [res_bind].
    replace (CIPReply.reply_data self)
      with ((head ++ [byte_of_Z d] ++ dims ++ mid) ++ [byte_of_Z (len name)] ++
            (name ++ pad ++ next ++ nesting ++ rest))
      by (rewrite Hrd, <- !app_assoc; reflexivity).
    rewrite (slice_part _ [byte_of_Z (len name)])
      by (rewrite ?len_app, ?len_cons, ?len_nil, ?Hhead, ?Hdims, ?Hmid; lia).
    rewrite (struct_unpack_Ok 1) by reflexivity.
    now rewrite int_from_bytes_1, byte_to_of_Z by lia. }
  assert (Hp : VariableTypeObjectReply.padding self = Ok (len pad)).
  { unfold VariableTypeObjectReply.padding. rewrite Hl. cbn [res_bind].
    rewrite Hpad. destruct (len name mod 2 =? 0); reflexivity. }
  assert (Hpad01 : 0 <= len pad <= 1).
  { rewrite Hpad. destruct (len name mod 2 =? 0); lia. }
  repeat split; try assumption.
  - unfold VariableTypeObjectReply.variable_type_name.
    rewrite Hdim, Hl. cbn [res_bind]. f_equal.
    replace (CIPReply.reply_data self)
      with ((head ++ [byte_of_Z d] ++ dims ++ mid ++ [byte_of_Z (len name)]) ++
            name ++ (pad ++ next ++ nesting ++ rest))
      by (rewrite Hrd, <- !app_assoc; reflexivity).
    apply slice_part;
      rewrite ?len_app, ?len_cons, ?len_nil, ?Hhead, ?Hdims, ?Hmid; lia.
  - unfold VariableTypeObjectReply.next_instance_id.
    rewrite Hp, Hdim, Hl. cbn [res_bind]. f_equal.
    replace (CIPReply.reply_data self)
      with ((head ++ [byte_of_Z d] ++ dims ++ mid ++ [byte_of_Z (len name)] ++
             name ++ pad) ++ next ++ (nesting ++ rest))
      by (rewrite Hrd, <- !app_assoc; reflexivity).
    apply slice_part;
      rewrite ?len_app, ?len_cons, ?len_nil, ?Hhead, ?Hdims, ?Hmid, ?Hnext; lia.
  - unfold VariableTypeObjectReply.nesting_variable_type_instance_id.
    rewrite Hp, Hdim, Hl. cbn [res_bind]. f_equal.
    replace (CIPReply.reply_data self)
      with ((head ++ [byte_of_Z d] ++ dims ++ mid ++ [byte_of_Z (len name)] ++
             name ++ pad ++ next) ++ nesting ++ rest)
      by (rewrite Hrd, <- !app_assoc; reflexivity).
    apply slice_part;
      rewrite ?len_app, ?len_cons, ?len_nil, ?Hhead, ?Hdims, ?Hmid, ?Hnext,
        ?Hnesting; lia.
Qed.

Lemma VariableTypeObjectReply_layout_witness :
  let head := [x04; x00; x00; x00; x00; xa2; x00] in
  let mid := [x02; x00; x00; x00; x00; x00; x00; x00] in
  let name := [x54; x59] in
  let next := [x00; x00; x00; x00] in
  let nesting := [x02; x00; x00; x00] in
  let self :=
    CIPReply.__init__
      ([xce; x00; x00; x00] ++
       head ++ [byte_of_Z 0] ++ [] ++ mid ++ [byte_of_Z (len name)] ++ name ++
       (if len name mod 2 =? 0 then [x00] else []) ++ next ++ nesting ++ []) in
  (len head = 7 /\ 0 <= 0 < 256 /\ len (@nil byte) = 4 * 0 /\ len mid = 8 /\
   len name < 256 /\ len next = 4 /\ len nesting = 4 /\
   CIPReply.reply_data self =
     head ++ [byte_of_Z 0] ++ [] ++ mid ++ [byte_of_Z (len name)] ++ name ++
     (if len name mod 2 =? 0 then [x00] else []) ++ next ++ nesting ++ []) /\
  (VariableTypeObjectReply.array_dimension self = Ok 0 /\
   VariableTypeObjectReply.variable_type_name_length self = Ok (len name) /\
   VariableTypeObjectReply.variable_type_name self = Ok name /\
   VariableTypeObjectReply.next_instance_id self = Ok next /\
   VariableTypeObjectReply.nesting_variable_type_instance_id self = Ok nesting).
Proof.
  cbv zeta. split.
  - repeat split; vm_compute; discriminate.
  - apply (VariableTypeObjectReply_layout _ 0
             [x04; x00; x00; x00; x00; xa2; x00] []
             [x02; x00; x00; x00; x00; x00; x00; x00] [x54; x59]
             [x00; x00; x00; x00] [x02; x00; x00; x00] []);
      try reflexivity; lia.
Defined.

(** ** Arrays in the resolution of data instances *)

Section ArrayInstance.
Variable address_request_path_segment : pybytes -> pybytes -> pybytes.
Variable Controller : Type.
Variable get_attribute_all_bytes : pybytes -> Controller -> pybytes * Controller.

Lemma get_variable_type_object_outcome (id : Z)
    (w : NSeriesEIP.World Controller) :
  exists r w',
    NSeriesEIP._get_variable_type_object address_request_path_segment Controller
      get_attribute_all_bytes id w = (Some r, w') /\
    (length (NSeriesEIP.sent w') <= S (length (NSeriesEIP.sent w)))%nat.
Proof.
  unfold NSeriesEIP._get_variable_type_object, NSeriesEIP.bind, NSeriesEIP.lift,
    NSeriesEIP.ret, NSeriesEIP.get_attribute_all_service_bytes.
  destruct (to_bytes id 2) as [id_bytes | e].
  - destruct (get_attribute_all_bytes _ (NSeriesEIP.controller w)) as [reply_bytes c].
    eexists _, _. split; [reflexivity |].
    cbn [NSeriesEIP.sent]. rewrite length_app. cbn [length]. lia.
  - eexists _, _. split; [reflexivity | lia].
Qed.

(** [get_data_instance] never returns for an array: after at most two
    requests for Variable Type Objects it raises, at the latest when it
    reads the attribute [size], which the reply of a Variable Type Object
    does not have. *)
Theorem get_data_instance_array_raises (fuel : nat) (self : NSeriesEIP.t)
    (o : CIPDataType) (w : NSeriesEIP.World Controller) :
  cls o = CIPArray ->
  exists e w',
    NSeriesEIP.get_data_instance address_request_path_segment Controller
      get_attribute_all_bytes fuel self (Instance o) w = (Some (Raise e), w') /\
    (length (NSeriesEIP.sent w') <= length (NSeriesEIP.sent w) + 2)%nat.
Proof.
  intros Hcls.
  destruct (get_variable_type_object_outcome (instance_id o) w)
    as (r1 & w1 & H1 & L1).
  destruct fuel; cbn [NSeriesEIP.get_data_instance]; rewrite Hcls;
    unfold NSeriesEIP.bind, NSeriesEIP.lift, NSeriesEIP.raise; rewrite H1;
    (destruct r1 as [a | e]; [| eexists _, _; split; [reflexivity | lia]]);
    (destruct (VariableTypeObjectReply.variable_type_name a);
       [| eexists _, _; split; [reflexivity | lia]]);
    (destruct (VariableTypeObjectReply.next_instance_id a) as [next |];
       [| eexists _, _; split; [reflexivity | lia]]);
    destruct (get_variable_type_object_outcome (int_from_bytes next) w1)
      as (r2 & w2 & H2 & L2);
    rewrite H2; destruct r2; eexists _, _; (split; [reflexivity | lia]).
Qed.

End ArrayInstance.

Lemma get_data_instance_array_raises_witness :
  let o := Sample.variable CIPArray 8 in
  cls o = CIPArray /\
  exists e w',
    NSeriesEIP.get_data_instance Sample.address_request_path_segment unit
      (SampleTypes.get_attribute_all_bytes SampleTypes.ended) 1 SampleTypes.self
      (Instance o) Sample.world = (Some (Raise e), w') /\
    (length (NSeriesEIP.sent w') <= length (NSeriesEIP.sent Sample.world) + 2)%nat.
Proof.
  cbv zeta. split; [reflexivity |].
  apply get_data_instance_array_raises. reflexivity.
Defined.

(** ** The data that a segmented read assembles *)

Section ReadData.
Variable Value : Type.
Variable value : CIPDataType -> res Value.
Variable variable_request_path_segment : str -> res pybytes.
Variable Controller : Type.
Variable read_tag_reply : pybytes -> Controller -> CIPReply.t * Controller.

Local Abbreviation World := (NSeriesEIP.World Controller).
Local Abbreviation read_chunk :=
  (NSeriesEIP.read_chunk variable_request_path_segment Controller read_tag_reply).
Local Abbreviation _multi_message_variable_read :=
  (NSeriesEIP._multi_message_variable_read Value value
     variable_request_path_segment Controller read_tag_reply).

(** One turn of the read loop appends the reply data of its request,
    without their first [2 + burn] bytes, to the data read so far. *)
Lemma read_chunk_reply (o : CIPDataType) (burn : Z) (path : pybytes)
    (k : nat) (d : pybytes) (w : World) :
  variable_request_path_segment (variable_name o) = Ok path ->
  0 <= 494 * Z.of_nat k < size o -> size o < 2 ^ 32 ->
  read_chunk o (NSeriesEIP.MAXIMUM_LENGTH - 8) burn
    {| NSeriesEIP.r_offset := 494 * Z.of_nat k; NSeriesEIP.r_data := d |} w =
  (Some (Ok {| NSeriesEIP.r_offset := 494 * Z.of_nat (S k);
               NSeriesEIP.r_data :=
                 d ++ slice_from
                        (CIPReply.reply_data
                           (fst (read_tag_reply (read_path path (size o) 494 k)
                                   (NSeriesEIP.controller w))))
                        (2 + burn) |}),
   {| NSeriesEIP.controller :=
        snd (read_tag_reply (read_path path (size o) 494 k)
               (NSeriesEIP.controller w));
      NSeriesEIP.sent :=
        NSeriesEIP.sent w ++ [NSeriesEIP.ReadTag (read_path path (size o) 494 k)] |}).
Proof.
  intros Hpath Hoff Hsize.
  unfold NSeriesEIP.read_chunk, NSeriesEIP._simple_data_segment_read,
    NSeriesEIP.bind, NSeriesEIP.lift, NSeriesEIP.ret, NSeriesEIP.read_tag_service,
    read_path, chunk_size.
  change (NSeriesEIP.MAXIMUM_LENGTH - 8) with 494.
  cbn [NSeriesEIP.r_offset NSeriesEIP.r_data].
  rewrite Hpath, chunk_size_min.
  rewrite SimpleDataSegmentRequest_bytes_Ok by lia.
  destruct (read_tag_reply _ (NSeriesEIP.controller w)) as [reply c].
  cbn [fst snd]. replace (494 * Z.of_nat k + 494) with (494 * Z.of_nat (S k)) by lia.
  reflexivity.
Qed.

Lemma read_loop_data (o : CIPDataType) (burn : Z) (path : pybytes) (m : nat) :
  variable_request_path_segment (variable_name o) = Ok path ->
  0 < size o < 2 ^ 32 ->
  forall (k fuel : nat) (d : pybytes) (w : World),
  (k + m = chunks (size o) 494)%nat -> (m <= fuel)%nat ->
  exists w',
    NSeriesEIP.whileM Controller fuel (NSeriesEIP.read_more o)
      (read_chunk o (NSeriesEIP.MAXIMUM_LENGTH - 8) burn)
      {| NSeriesEIP.r_offset := 494 * Z.of_nat k; NSeriesEIP.r_data := d |} w =
    (Some (Ok {| NSeriesEIP.r_offset := 494 * Z.of_nat (k + m);
                 NSeriesEIP.r_data :=
                   d ++ concat
                          (map (fun r => slice_from (CIPReply.reply_data r) (2 + burn))
                             (read_replies read_tag_reply
                                (map (read_path path (size o) 494) (seq k m))
                                (NSeriesEIP.controller w))) |}), w').
Proof.
  intros Hpath Hsize. induction m as [| m IH]; intros k fuel d w Hkm Hfuel.
  - exists w. cbn [seq map read_replies concat]. rewrite app_nil_r, Nat.add_0_r.
    apply whileM_done. apply not_true_is_false.
    rewrite (read_more_iff o Hsize). lia.
  - destruct fuel as [| fuel]; [lia |].
    assert (Hk : (k < chunks (size o) 494)%nat) by lia.
    pose proof (proj2 (read_more_iff o Hsize k d) Hk) as Hmore.
    assert (Hoff : 0 <= 494 * Z.of_nat k < size o).
    { unfold NSeriesEIP.read_more in Hmore. cbn in Hmore.
      apply Z.ltb_lt in Hmore. lia. }
    pose proof (read_chunk_reply o burn path k d w Hpath Hoff (proj2 Hsize)) as Hturn.
    rewrite (whileM_turn _ _ _ _ _ _ _ _ Hmore Hturn).
    cbn [seq map read_replies].
    destruct (read_tag_reply (read_path path (size o) 494 k)
                (NSeriesEIP.controller w)) as [reply c1].
    cbn [fst snd concat map].
    set (w1 := {| NSeriesEIP.controller := c1; NSeriesEIP.sent := _ |}).
    destruct (IH (S k) fuel
                (d ++ slice_from (CIPReply.reply_data reply) (2 + burn)) w1
                ltac:(lia) ltac:(lia)) as (w' & Hloop).
    exists w'. rewrite Hloop. unfold w1. cbn [NSeriesEIP.controller].
    replace (S k + m)%nat with (k + S m)%nat by lia.
    now rewrite <- app_assoc.
Qed.

(** The data that a segmented read leaves in the object are the reply
    data of its requests, in the order of the requests, each without its
    first two bytes, or four for a string; what the object held before
    is not part of them.  The value returned is the value of the object
    with these data. *)
Theorem multi_message_variable_read_data
    (o : CIPDataType) (path : pybytes) (fuel : nat) (w : World) :
  variable_request_path_segment (variable_name o) = Ok path ->
  0 < size o < 2 ^ 32 ->
  (chunks (size o) 494 <= fuel)%nat ->
  let burn := match cls o with CIPString => 2 | _ => 0 end in
  let replies :=
    read_replies read_tag_reply
      (map (read_path path (size o) 494) (seq 0 (chunks (size o) 494)))
      (NSeriesEIP.controller w) in
  let d := concat (map (fun r => slice_from (CIPReply.reply_data r) (2 + burn))
                     replies) in
  fst (_multi_message_variable_read fuel o 0 w) =
  Some (try v <- value (NSeriesEIP.with_data o d) in
        Ok (v, NSeriesEIP.with_data o d)).
Proof.
  intros Hpath Hsize Hfuel. cbv zeta.
  set (burn := match cls o with CIPString => 2 | _ => 0 end).
  destruct (read_loop_data o burn path (chunks (size o) 494) Hpath Hsize
              0%nat fuel [] w eq_refl Hfuel) as (w' & Hloop).
  change (494 * Z.of_nat 0) with 0 in Hloop. cbn [Nat.add app] in Hloop.
  unfold NSeriesEIP._multi_message_variable_read, NSeriesEIP.bind.
  fold burn. rewrite Hloop. unfold NSeriesEIP.lift, NSeriesEIP.ret.
  cbn [NSeriesEIP.r_data].
  destruct (value _); reflexivity.
Qed.

End ReadData.

Lemma multi_message_variable_read_data_witness :
  let o := Sample.variable CIPString 1000 in
  let path := [x91; x01; x53; x00] in
  let read_tag_reply :=
    fun (request_path : pybytes) (c : unit) =>
      (CIPReply.__init__ ([xcc; x00; x00; x00; xd0; x00; x02; x00] ++
                          slice request_path 6 8), c) in
  (Sample.variable_request_path_segment (variable_name o) = Ok path /\
   0 < size o < 2 ^ 32 /\
   (chunks (size o) 494 <= 3)%nat) /\
  let burn := match cls o with CIPString => 2 | _ => 0 end in
  let replies :=
    read_replies read_tag_reply
      (map (read_path path (size o) 494) (seq 0 (chunks (size o) 494)))
      (NSeriesEIP.controller Sample.world) in
  let d := concat (map (fun r => slice_from (CIPReply.reply_data r) (2 + burn))
                     replies) in
  fst (NSeriesEIP._multi_message_variable_read pybytes Sample.value
         Sample.variable_request_path_segment unit read_tag_reply 3 o 0
         Sample.world) =
  Some (try v <- Sample.value (NSeriesEIP.with_data o d) in
        Ok (v, NSeriesEIP.with_data o d)).
Proof.
  cbv zeta. split.
  - split; [reflexivity |]. split; [split; reflexivity |]. vm_compute. lia.
  - apply (multi_message_variable_read_data pybytes Sample.value
             Sample.variable_request_path_segment unit _
             (Sample.variable CIPString 1000) [x91; x01; x53; x00] 3 Sample.world).
    + reflexivity.
    + split; reflexivity.
    + vm_compute. lia.
Defined.

(** ** Reading and writing a variable of the registry *)

Section RegistryVariables.
Variable Value : Type.
Variable from_value : Value -> CIPDataType -> res CIPDataType.
Variable from_bytes : pybytes -> CIPDataType -> res CIPDataType.
Variable value : CIPDataType -> res Value.
Variable data_type_code : CIPClass -> pybytes.
Variable variable_request_path_segment : str -> res pybytes.
Variable Controller : Type.
Variable read_tag_reply : pybytes -> Controller -> CIPReply.t * Controller.
Variable write_tag_reply :
  pybytes -> pybytes -> pybytes -> Controller -> CIPReply.t * Controller.

Local Abbreviation World := (NSeriesEIP.World Controller).
Local Abbreviation M := (NSeriesEIP.M Controller).
Local Abbreviation read_variable :=
  (NSeriesEIP.read_variable Value from_bytes value variable_request_path_segment
     Controller read_tag_reply).
Local Abbreviation write_variable :=
  (NSeriesEIP.write_variable Value from_value data_type_code
     variable_request_path_segment Controller write_tag_reply).

Lemma snd_bind_ret {A B : Type} (m : M A) (f : A -> B) (w : World) :
  snd (NSeriesEIP.bind Controller m (fun a => NSeriesEIP.ret Controller (f a)) w) =
  snd (m w).
Proof.
  unfold NSeriesEIP.bind, NSeriesEIP.ret.
  destruct (m w) as [[[a | e] |] w']; reflexivity.
Qed.

(** The requests of [read_variable] for a variable of the registry: one
    read request per chunk of 494 bytes of its declared size, under the
    path of the name that the descriptor carries, when it is a string, an
    array or a structure; one read request under the path of the name
    asked for, whatever its size, when it is of an elementary type. *)
Theorem read_variable_requests (fuel : nat) (self : NSeriesEIP.t)
    (name : str) (o : CIPDataType) (path0 path : pybytes) (w : World) :
  NSeriesEIP.variables self !! name = Some o ->
  variable_request_path_segment name = Ok path0 ->
  variable_request_path_segment (variable_name o) = Ok path ->
  0 < size o < 2 ^ 32 ->
  (chunks (size o) 494 <= fuel)%nat ->
  NSeriesEIP.sent (snd (read_variable fuel self name w)) =
  NSeriesEIP.sent w ++
  (if is_multi_message (Some o)
   then map (read_request path (size o) 494) (seq 0 (chunks (size o) 494))
   else [NSeriesEIP.ReadTag path0]).
Proof.
  intros Hvar Hpath0 Hpath Hsize Hfuel.
  unfold NSeriesEIP.read_variable.
  rewrite (bind_lift_Ok Controller _ _ path0 w Hpath0).
  cbv zeta. rewrite Hvar.
  destruct (is_multi_message (Some o)).
  - rewrite snd_bind_ret.
    set (burn := match cls o with CIPString => 2 | _ => 0 end).
    destruct (read_loop_ends variable_request_path_segment Controller
                read_tag_reply o burn path Hpath Hsize (chunks (size o) 494)
                0%nat fuel [] w eq_refl Hfuel) as (d & w' & Hloop & Hsent).
    change (494 * Z.of_nat 0) with 0 in Hloop. cbn [Nat.add] in Hloop.
    unfold NSeriesEIP._multi_message_variable_read, NSeriesEIP.bind.
    fold burn. rewrite Hloop. unfold NSeriesEIP.lift, NSeriesEIP.ret.
    destruct (value _); exact Hsent.
  - unfold NSeriesEIP.bind, NSeriesEIP.read_tag_service, NSeriesEIP.lift,
      NSeriesEIP.ret.
    destruct (read_tag_reply path0 (NSeriesEIP.controller w)) as [reply c].
    destruct (from_bytes (CIPReply.reply_data reply) o) as [o' |]; [| reflexivity].
    destruct (value o'); reflexivity.
Qed.

(** [write_variable] applies [from_value] to a string or an array of the
    registry twice, once itself and once in the segmented write, and what
    it sends and leaves in the registry is the descriptor after the second
    application: one write request per chunk of 400 bytes of its declared
    size. *)
Theorem write_variable_segmented (fuel : nat) (self : NSeriesEIP.t)
    (name : str) (data : Value) (o o1 o2 : CIPDataType) (path0 path : pybytes)
    (w : World) :
  NSeriesEIP.variables self !! name = Some o ->
  variable_request_path_segment name = Ok path0 ->
  from_value data o = Ok o1 ->
  from_value data o1 = Ok o2 ->
  is_multi_message (Some o1) = true ->
  cls o2 = CIPString \/ cls o2 = CIPArray ->
  variable_request_path_segment (variable_name o2) = Ok path ->
  0 < size o2 < 2 ^ 32 ->
  (chunks (size o2) 400 <= fuel)%nat ->
  exists w',
    write_variable fuel self name data w =
      (Some (Ok (NSeriesEIP.with_variable self name o2)), w') /\
    NSeriesEIP.sent w' =
      NSeriesEIP.sent w ++
      map (write_request data_type_code o2 path 400) (seq 0 (chunks (size o2) 400)).
Proof.
  intros Hvar Hpath0 Hv1 Hv2 Hmulti Hcls Hpath Hsize Hfuel.
  destruct (write_loop_ends data_type_code variable_request_path_segment
              Controller write_tag_reply o2 path Hpath Hsize Hcls
              (chunks (size o2) 400) 0%nat fuel w eq_refl Hfuel)
    as (w' & Hloop & Hsent).
  change (400 * Z.of_nat 0) with 0 in Hloop. cbn [Nat.add] in Hloop.
  exists w'. split; [| exact Hsent].
  unfold NSeriesEIP.write_variable.
  rewrite (bind_lift_Ok Controller _ _ path0 w Hpath0), Hvar.
  rewrite (bind_lift_Ok Controller _ _ o1 w Hv1), Hmulti.
  unfold NSeriesEIP._multi_message_variable_write. cbv zeta.
  unfold NSeriesEIP.bind at 1.
  rewrite (bind_lift_Ok Controller _ _ o2 w Hv2).
  unfold NSeriesEIP.bind. rewrite Hloop. reflexivity.
Qed.

End RegistryVariables.

Lemma read_variable_requests_witness :
  let o := Sample.variable CIPString 1000 in
  let self :=
    {| NSeriesEIP.variables := {[ [83] := o ]};
       NSeriesEIP.data_type_dictionary := ∅ |} in
  let path := [x91; x01; x53; x00] in
  (NSeriesEIP.variables self !! [83] = Some o /\
   Sample.variable_request_path_segment [83] = Ok path /\
   Sample.variable_request_path_segment (variable_name o) = Ok path /\
   0 < size o < 2 ^ 32 /\
   (chunks (size o) 494 <= 3)%nat) /\
  NSeriesEIP.sent
    (snd (NSeriesEIP.read_variable pybytes Sample.from_bytes Sample.value
            Sample.variable_request_path_segment unit Sample.read_tag_reply
            3 self [83] Sample.world)) =
  NSeriesEIP.sent Sample.world ++
  (if is_multi_message (Some o)
   then map (read_request path (size o) 494) (seq 0 (chunks (size o) 494))
   else [NSeriesEIP.ReadTag path]).
Proof.
  cbv zeta. split.
  - split; [apply lookup_singleton_eq |]. split; [reflexivity |].
    split; [reflexivity |]. split; [split; reflexivity |]. vm_compute. lia.
  - apply read_variable_requests.
    + apply lookup_singleton_eq.
    + reflexivity.
    + reflexivity.
    + split; reflexivity.
    + vm_compute. lia.
Defined.

Lemma write_variable_segmented_witness :
  let o := Sample.variable CIPString 1000 in
  let hello := [x48; x45; x4c; x4c; x4f] in
  let o2 := NSeriesEIP.with_data (NSeriesEIP.with_data o hello) hello in
  let self :=
    {| NSeriesEIP.variables := {[ [83] := o ]};
       NSeriesEIP.data_type_dictionary := ∅ |} in
  let path := [x91; x01; x53; x00] in
  (NSeriesEIP.variables self !! [83] = Some o /\
   Sample.variable_request_path_segment [83] = Ok path /\
   Sample.from_value hello o = Ok (NSeriesEIP.with_data o hello) /\
   Sample.from_value hello (NSeriesEIP.with_data o hello) = Ok o2 /\
   is_multi_message (Some (NSeriesEIP.with_data o hello)) = true /\
   (cls o2 = CIPString \/ cls o2 = CIPArray) /\
   Sample.variable_request_path_segment (variable_name o2) = Ok path /\
   0 < size o2 < 2 ^ 32 /\
   (chunks (size o2) 400 <= 3)%nat) /\
  exists w',
    NSeriesEIP.write_variable pybytes Sample.from_value Sample.data_type_code
      Sample.variable_request_path_segment unit Sample.write_tag_reply
      3 self [83] hello Sample.world =
      (Some (Ok (NSeriesEIP.with_variable self [83] o2)), w') /\
    NSeriesEIP.sent w' =
      NSeriesEIP.sent Sample.world ++
      map (write_request Sample.data_type_code o2 path 400)
        (seq 0 (chunks (size o2) 400)).
Proof.
  cbv zeta. split.
  - split; [apply lookup_singleton_eq |]. repeat (split; [reflexivity |]).
    split; [left; reflexivity |]. split; [reflexivity |].
    split; [split; reflexivity |]. vm_compute. lia.
  - apply (write_variable_segmented pybytes Sample.from_value Sample.data_type_code
             Sample.variable_request_path_segment unit Sample.write_tag_reply
             3 _ [83] [x48; x45; x4c; x4c; x4f]
             (Sample.variable CIPString 1000)
             (NSeriesEIP.with_data (Sample.variable CIPString 1000)
                [x48; x45; x4c; x4c; x4f])
             _ [x91; x01; x53; x00] [x91; x01; x53; x00]).
    + apply lookup_singleton_eq.
    + reflexivity.
    + reflexivity.
    + reflexivity.
    + reflexivity.
    + left. reflexivity.
    + reflexivity.
    + split; reflexivity.
    + vm_compute. lia.
Defined.
